(** * Kite_Pilote_Public: release scripts

    A shallow embedding of [script/update_version.py],
    [script/github_backup.py] and [backup_script.py], and the properties
    of the version synchronizer and of the backup orchestrators.

    Python [str] values are sequences of Unicode code points; a code point
    is an [N].  Integers are unbounded ([N]); the interpreter's optional
    limit on the length of decimal conversions is not part of the model. *)

From Stdlib Require Import List NArith ZArith Lia Bool String Ascii.
Import ListNotations.
Local Open Scope N_scope.

(** ** Text *)

Module Text.

Definition char := N.
Definition text := list char.

(** An ASCII literal of the source, as code points. *)
Definition lit (s : string) : text :=
  map N_of_ascii (list_ascii_of_string s).

(** A literal of the source with accented letters: the UTF-8 bytes of the
    literal decoded to code points. *)
Fixpoint utf8_decode (bs : list N) : text :=
  match bs with
  | [] => []
  | b :: r =>
      if b <? 128 then b :: utf8_decode r
      else if b <? 224 then
        match r with
        | b1 :: r' => ((b - 192) * 64 + (b1 - 128)) :: utf8_decode r'
        | [] => [b]
        end
      else if b <? 240 then
        match r with
        | b1 :: b2 :: r' =>
            ((b - 224) * 4096 + (b1 - 128) * 64 + (b2 - 128))
              :: utf8_decode r'
        | _ => b :: r
        end
      else
        match r with
        | b1 :: b2 :: b3 :: r' =>
            ((b - 240) * 262144 + (b1 - 128) * 4096 + (b2 - 128) * 64
             + (b3 - 128)) :: utf8_decode r'
        | _ => b :: r
        end
  end.

Definition utf8 (s : string) : text := utf8_decode (lit s).

Definition NL : char := 10.

Fixpoint eqb (a b : text) : bool :=
  match a, b with
  | [], [] => true
  | x :: a', y :: b' => N.eqb x y && eqb a' b'
  | _, _ => false
  end.

(** Code points of the zero of every decimal-digit block (general category
    Nd, Unicode 14); each block holds its ten digits in order. *)
Definition nd_zeros : list N :=
  [48; 1632; 1776; 1984; 2406; 2534; 2662; 2790; 2918; 3046; 3174; 3302;
   3430; 3558; 3664; 3792; 3872; 4160; 4240; 6112; 6160; 6470; 6608; 6784;
   6800; 6992; 7088; 7232; 7248; 42528; 43216; 43264; 43472; 43504; 43600;
   44016; 65296; 66720; 68912; 69734; 69872; 69942; 70096; 70384; 70736;
   70864; 71248; 71360; 71472; 71904; 72016; 72784; 73040; 73120; 92768;
   92864; 93008; 120782; 120792; 120802; 120812; 120822; 123200; 123632;
   125264; 130032].

Fixpoint decimal_in (zs : list N) (c : char) : option N :=
  match zs with
  | [] => None
  | z :: zs' =>
      if (z <=? c) && (c <? z + 10) then Some (c - z) else decimal_in zs' c
  end.

(** The decimal value of a digit, as [unicodedata.decimal]. *)
Definition decimal (c : char) : option N := decimal_in nd_zeros c.

(** The class [\d] of a [str] pattern. *)
Definition is_digit (c : char) : bool :=
  match decimal c with Some _ => true | None => false end.

(** Code points for which [str.isspace] holds. *)
Definition is_space (c : char) : bool :=
  ((9 <=? c) && (c <=? 13)) || ((28 <=? c) && (c <=? 32))
  || (c =? 133) || (c =? 160) || (c =? 5760)
  || ((8192 <=? c) && (c <=? 8202)) || (c =? 8232) || (c =? 8233)
  || (c =? 8239) || (c =? 8287) || (c =? 12288).

Fixpoint lstrip (s : text) : text :=
  match s with
  | c :: s' => if is_space c then lstrip s' else s
  | [] => []
  end.

(** [str.strip()] *)
Definition strip (s : text) : text := rev (lstrip (rev (lstrip s))).

(** [int(s)] on a text of decimal digits: [None] stands for ValueError. *)
Fixpoint int_acc (acc : N) (s : text) : option N :=
  match s with
  | [] => Some acc
  | c :: s' =>
      match decimal c with
      | Some d => int_acc (10 * acc + d) s'
      | None => None
      end
  end.

Definition int (s : text) : option N :=
  match s with
  | [] => None
  | _ => int_acc 0 s
  end.

(** [str(n)] for a non-negative integer: its decimal digits. *)
Fixpoint str_fuel (fuel : nat) (n : N) (acc : text) : text :=
  let acc' := (48 + n mod 10) :: acc in
  match fuel with
  | O => acc'
  | S f => if n <? 10 then acc' else str_fuel f (n / 10) acc'
  end.

Definition str (n : N) : text := str_fuel (N.size_nat n) n [].

(** [s.split('\n')] *)
Fixpoint split_lines_acc (cur : text) (s : text) : list text :=
  match s with
  | [] => [rev cur]
  | c :: s' =>
      if c =? NL then rev cur :: split_lines_acc [] s'
      else split_lines_acc (c :: cur) s'
  end.

Definition split_lines (s : text) : list text := split_lines_acc [] s.

(** ['\n'.join(ls)] *)
Fixpoint join_lines (ls : list text) : text :=
  match ls with
  | [] => []
  | [l] => l
  | l :: ls' => l ++ NL :: join_lines ls'
  end.

End Text.
Import Text.

(** ** Regular expressions

    The fragment of [re] the scripts use: a pattern is a sequence of
    literal characters and greedy one-or-more repetitions of a character
    class; a group is a range of consecutive items.  Matching backtracks
    as [re] does: a repetition first takes the longest run and gives
    characters back one at a time while the rest of the pattern fails. *)

Module Re.

Inductive item :=
| Chr (c : char)
| Plus (cls : char -> bool).

Definition pattern := list item.

(** The outcome of a match at a position: the piece of text each item
    matched, in order, and the text after the match. *)
Definition result := (list text * text)%type.

Fixpoint span (cls : char -> bool) (s : text) (racc : text) : text * text :=
  match s with
  | c :: s' => if cls c then span cls s' (c :: racc) else (racc, s)
  | [] => (racc, s)
  end.

(** Try the continuation after the run [rev rtaken], then after shorter and
    shorter non-empty runs. *)
Fixpoint backoff (k : text -> option result) (rtaken rest : text)
  : option result :=
  match rtaken with
  | [] => None
  | c :: rt' =>
      match k rest with
      | Some (ps, r) => Some (rev rtaken :: ps, r)
      | None => backoff k rt' (c :: rest)
      end
  end.

Fixpoint match_here (p : pattern) (s : text) : option result :=
  match p with
  | [] => Some ([], s)
  | Chr c :: p' =>
      match s with
      | x :: s' =>
          if x =? c then
            match match_here p' s' with
            | Some (ps, r) => Some ([x] :: ps, r)
            | None => None
            end
          else None
      | [] => None
      end
  | Plus cls :: p' =>
      let (rtaken, rest) := span cls s [] in
      backoff (match_here p') rtaken rest
  end.

Definition matched (r : result) : text := List.concat (fst r).

(** [re.search]: the leftmost position at which the pattern matches. *)
Fixpoint search (p : pattern) (s : text) : option result :=
  match match_here p s with
  | Some r => Some r
  | None =>
      match s with
      | [] => None
      | _ :: s' => search p s'
      end
  end.

(** The left-to-right scan that [re.sub] and [re.findall] share: [skip]
    counts the characters of the current position that the previous match
    consumed. *)
Fixpoint sub_from (p : pattern) (repl : text) (skip : nat) (s : text) : text :=
  match s with
  | [] =>
      match skip, match_here p [] with
      | O, Some _ => repl
      | _, _ => []
      end
  | c :: s' =>
      match skip with
      | S k => sub_from p repl k s'
      | O =>
          match match_here p s with
          | Some r =>
              match List.length (matched r) with
              | O => repl ++ c :: sub_from p repl O s'
              | S k => repl ++ sub_from p repl k s'
              end
          | None => c :: sub_from p repl O s'
          end
      end
  end.

(** [re.sub(p, repl, s)]: every non-overlapping match, leftmost first, is
    replaced (the count argument is left at its default).  The
    replacements of the scripts hold no backslash, so they are inserted as
    they are. *)
Definition sub (p : pattern) (repl : text) (s : text) : text :=
  sub_from p repl O s.

Fixpoint findall_from (p : pattern) (skip : nat) (s : text) : list (list text) :=
  match s with
  | [] =>
      match skip, match_here p [] with
      | O, Some r => [fst r]
      | _, _ => []
      end
  | c :: s' =>
      match skip with
      | S k => findall_from p k s'
      | O =>
          match match_here p s with
          | Some r =>
              fst r :: findall_from p (Nat.pred (List.length (matched r))) s'
          | None => findall_from p O s'
          end
      end
  end.

(** [re.findall(p, s)], each match given by the pieces of its items. *)
Definition findall (p : pattern) (s : text) : list (list text) :=
  findall_from p O s.

Definition chars (s : text) : pattern := map Chr s.

End Re.
Import Re.

(** ** The process environment

    A script runs against a world: the files it can open, the directories,
    and whatever else external commands depend on (index, remotes,
    network), kept abstract in [ext].  A run records what it does in a
    trace. *)

Record CmdResult := mkResult {
  returncode : Z;
  stdout : text;
  stderr : text
}.

Record datetime := mkDate {
  year : N; month : N; day : N; hour : N; minute : N; second : N
}.

Record world (Ext : Type) := mkWorld {
  files : text -> option text;
  isdir : text -> bool;
  ext : Ext
}.
Arguments mkWorld {Ext}.
Arguments files {Ext}.
Arguments isdir {Ext}.
Arguments ext {Ext}.

Inductive event :=
| Print (s : text)
| PrintErr (s : text)
| Run (cmd : text)
| Read (path : text)
| Write (path content : text)
| Remove (path : text).

(** How a computation ends: with a value, by [sys.exit(code)], or by an
    exception nobody catches. *)
Inductive outcome (A : Type) :=
| Ret (a : A)
| Exit (code : Z)
| Raise.
Arguments Ret {A}.
Arguments Exit {A}.
Arguments Raise {A}.

(** Two digits, zero padded: [%d], [%m], [%H], [%M], [%S]. *)
Definition pad2 (n : N) : text :=
  if n <? 10 then 48 :: str n else str n.

Definition COLON : char := 58.
Definition SLASH : char := 47.
Definition DASH : char := 45.
Definition DOT : char := 46.
Definition QUOTE : char := 34.
Definition SPACE : char := 32.
Definition A_GRAVE : char := 224.
Definition E_ACUTE : char := 233.
Definition E_GRAVE : char := 232.
Definition I_CIRC : char := 238.

(** [strftime] for the three formats of the scripts; [%Y] is the year in
    decimal (four digits for any current date). *)
Definition strftime_dmy (d : datetime) : text :=
  pad2 (day d) ++ SLASH :: pad2 (month d) ++ SLASH :: str (year d).
Definition strftime_iso (d : datetime) : text :=
  str (year d) ++ DASH :: pad2 (month d) ++ DASH :: pad2 (day d).
Definition strftime_hms (d : datetime) : text :=
  pad2 (hour d) ++ COLON :: pad2 (minute d) ++ COLON :: pad2 (second d).
Definition strftime_iso_hms (d : datetime) : text :=
  strftime_iso d ++ SPACE :: strftime_hms d.

Section Process.

Variable Ext : Type.

(** The clock, and the shell: the result of an external command and the
    world it leaves. *)
Variable clock : world Ext -> datetime.
Variable shell : world Ext -> text -> CmdResult * world Ext.

Record state := mkState {
  st_world : world Ext;
  st_trace : list event
}.

Definition M (A : Type) := state -> outcome A * state.

Definition ret {A} (a : A) : M A := fun s => (Ret a, s).

Definition bind {A B} (m : M A) (k : A -> M B) : M B :=
  fun s =>
    match m s with
    | (Ret a, s') => k a s'
    | (Exit c, s') => (Exit c, s')
    | (Raise, s') => (Raise, s')
    end.

Definition emit (e : event) : M unit :=
  fun s => (Ret tt, mkState (st_world s) (st_trace s ++ [e])).

Definition print (t : text) : M unit := emit (Print t).
Definition eprint (t : text) : M unit := emit (PrintErr t).

(** [sys.exit(code)] *)
Definition sys_exit {A} (code : Z) : M A := fun s => (Exit code, s).

Definition now : M datetime := fun s => (Ret (clock (st_world s)), s).

(** [os.path.exists] and [os.path.isdir] *)
Definition path_exists (p : text) : M bool :=
  fun s =>
    (Ret (match files (st_world s) p with
          | Some _ => true
          | None => isdir (st_world s) p
          end), s).

Definition path_isdir (p : text) : M bool :=
  fun s => (Ret (isdir (st_world s) p), s).

(** [open(p, 'r').read()]: fails on a path that is not a file. *)
Definition read_file (p : text) : M text :=
  fun s =>
    match files (st_world s) p with
    | Some c => (Ret c, mkState (st_world s) (st_trace s ++ [Read p]))
    | None => (Raise, s)
    end.

Definition set_file (w : world Ext) (p : text) (c : option text) : world Ext :=
  mkWorld (fun q => if Text.eqb q p then c else files w q) (isdir w) (ext w).

(** [open(p, 'w').write(c)]: fails on a directory. *)
Definition write_file (p c : text) : M unit :=
  fun s =>
    if isdir (st_world s) p then (Raise, s)
    else (Ret tt, mkState (set_file (st_world s) p (Some c))
                          (st_trace s ++ [Write p c])).

(** [os.remove(p)]: fails when there is no such file. *)
Definition remove_file (p : text) : M unit :=
  fun s =>
    match files (st_world s) p with
    | Some _ => (Ret tt, mkState (set_file (st_world s) p None)
                                 (st_trace s ++ [Remove p]))
    | None => (Raise, s)
    end.

(** [subprocess.run(cmd, shell=True, ...)] with both streams captured. *)
Definition subprocess_run (cmd : text) : M CmdResult :=
  fun s =>
    let (r, w') := shell (st_world s) cmd in
    (Ret r, mkState w' (st_trace s ++ [Run cmd])).

(** The exit code of the process when the script's body ends this way. *)
Definition exit_code {A} (o : outcome A) : Z :=
  match o with
  | Ret _ => 0%Z
  | Exit c => c
  | Raise => 1%Z
  end.

End Process.

Arguments mkState {Ext}.
Arguments st_world {Ext}.
Arguments st_trace {Ext}.
Arguments ret {Ext A}.
Arguments bind {Ext A B}.
Arguments emit {Ext}.
Arguments print {Ext}.
Arguments eprint {Ext}.
Arguments sys_exit {Ext A}.
Arguments now {Ext}.
Arguments path_exists {Ext}.
Arguments path_isdir {Ext}.
Arguments read_file {Ext}.
Arguments set_file {Ext}.
Arguments write_file {Ext}.
Arguments remove_file {Ext}.
Arguments subprocess_run {Ext}.
Arguments exit_code {A}.

Notation "x <- m ;; k" := (bind m (fun x => k))
  (at level 61, m at next level, right associativity).
Notation "m ;;; k" := (bind m (fun _ => k))
  (at level 61, right associativity).

(** ** script/update_version.py *)

Module UpdateVersion.

Definition CHANGELOG_PATH : text := lit "docs/changelog.md".
Definition CONFIG_PATH : text := lit "include/core/config.h".

Record version := mkVersion {
  major : N; minor : N; patch : N; build : N
}.

(** [r'v(\d+)\.(\d+)\.(\d+)\.(\d+)'] *)
Definition version_pattern : pattern :=
  [Chr 118; Plus is_digit; Chr DOT; Plus is_digit; Chr DOT; Plus is_digit;
   Chr DOT; Plus is_digit].

(** The four groups of a match of [version_pattern], converted by [int]. *)
Definition version_of_groups (pieces : list text) : option version :=
  match pieces with
  | [_; g1; _; g2; _; g3; _; g4] =>
      match int g1, int g2, int g3, int g4 with
      | Some a, Some b, Some c, Some d => Some (mkVersion a b c d)
      | _, _, _, _ => None
      end
  | _ => None
  end.

(** [f'v{major}.{minor}.{patch}.{build}'] *)
Definition version_string (v : version) : text :=
  118 :: str (major v) ++ DOT :: str (minor v) ++ DOT :: str (patch v)
      ++ DOT :: str (build v).

Definition digit_or_dot (c : char) : bool := is_digit c || (c =? DOT).
Definition digit_or_slash (c : char) : bool := is_digit c || (c =? SLASH).

(** [r'#define NAME \d+'] *)
Definition define_int (name : string) : pattern :=
  chars (lit "#define " ++ lit name ++ [SPACE]) ++ [Plus is_digit].

(** [r'#define VERSION_STRING "v[\d\.]+"'] *)
Definition define_version_string : pattern :=
  chars (lit "#define VERSION_STRING " ++ [QUOTE; 118])
    ++ [Plus digit_or_dot; Chr QUOTE].

(** [r'#define BUILD_DATE "[\d/]+"'] *)
Definition define_build_date : pattern :=
  chars (lit "#define BUILD_DATE " ++ [QUOTE])
    ++ [Plus digit_or_slash; Chr QUOTE].

Definition new_int (name : string) (n : N) : text :=
  lit "#define " ++ lit name ++ SPACE :: str n.

Definition new_quoted (name : string) (value : text) : text :=
  lit "#define " ++ lit name ++ SPACE :: QUOTE :: value ++ [QUOTE].

(** The six substitutions of [update_config_version], in order: pattern
    and replacement. *)
Definition substitutions (v : version) (today : text)
  : list (pattern * text) :=
  [ (define_int "VERSION_MAJOR", new_int "VERSION_MAJOR" (major v));
    (define_int "VERSION_MINOR", new_int "VERSION_MINOR" (minor v));
    (define_int "VERSION_PATCH", new_int "VERSION_PATCH" (patch v));
    (define_int "VERSION_BUILD", new_int "VERSION_BUILD" (build v));
    (define_version_string, new_quoted "VERSION_STRING" (version_string v));
    (define_build_date, new_quoted "BUILD_DATE" today) ].

(** The text [update_config_version] writes back for the text it read. *)
Definition patch_config (v : version) (today : text) (content : text) : text :=
  fold_left (fun c pr => sub (fst pr) (snd pr) c) (substitutions v today)
            content.

Definition msg_missing (path : text) : text :=
  lit "Erreur: Fichier " ++ path ++ lit " introuvable.".
Definition msg_no_version : text :=
  lit "Aucune version trouv" ++ E_ACUTE :: lit "e dans le changelog.".
Definition msg_updated_prefix : text :=
  lit "Version mise " ++ A_GRAVE :: lit " jour " ++ A_GRAVE :: [SPACE].
Definition msg_updated (vs : text) : text :=
  msg_updated_prefix ++ vs ++ lit " dans " ++ CONFIG_PATH.
Definition msg_date (today : text) : text :=
  lit "Date de build mise " ++ A_GRAVE :: lit " jour " ++ A_GRAVE
    :: SPACE :: today.
Definition msg_start : text :=
  lit "Script de mise " ++ A_GRAVE :: lit " jour de version: d"
    ++ E_ACUTE :: lit "marrage...".
Definition msg_cannot_continue : text :=
  lit "Impossible de continuer sans information de version.".
Definition msg_extracted (vs : text) : text :=
  lit "Version extraite du changelog: " ++ vs.
Definition msg_success : text :=
  lit "Mise " ++ A_GRAVE :: lit " jour r" ++ E_ACUTE :: lit "ussie !".
Definition msg_failed : text :=
  lit "La mise " ++ A_GRAVE :: lit " jour a " ++ E_ACUTE :: lit "chou"
    ++ [E_ACUTE; DOT].

Section Script.

Variable Ext : Type.
Variable clock : world Ext -> datetime.

(** The version of the first match of the changelog text, if any. *)
Definition first_version (content : text) : option (option version) :=
  match findall version_pattern content with
  | [] => None
  | m :: _ => Some (version_of_groups m)
  end.

Definition extract_version_from_changelog : M Ext (option version) :=
  e <- path_exists CHANGELOG_PATH ;;
  if negb e then
    print (msg_missing CHANGELOG_PATH) ;;; ret None
  else
    content <- read_file CHANGELOG_PATH ;;
    match first_version content with
    | None => print msg_no_version ;;; ret None
    | Some (Some v) => ret (Some v)
    | Some None => fun s => (Raise, s)
    end.

Definition update_config_version (v : version) : M Ext bool :=
  e <- path_exists CONFIG_PATH ;;
  if negb e then
    print (msg_missing CONFIG_PATH) ;;; ret false
  else
    content <- read_file CONFIG_PATH ;;
    d <- now clock ;;
    let today := strftime_dmy d in
    write_file CONFIG_PATH (patch_config v today content) ;;;
    print (msg_updated (version_string v)) ;;;
    print (msg_date today) ;;;
    ret true.

Definition main : M Ext unit :=
  print msg_start ;;;
  ov <- extract_version_from_changelog ;;
  match ov with
  | None => print msg_cannot_continue ;;; sys_exit 1
  | Some v =>
      print (msg_extracted (version_string v)) ;;;
      ok <- update_config_version v ;;
      if ok then print msg_success
      else print msg_failed ;;; sys_exit 1
  end.

End Script.

End UpdateVersion.

(** [str(n)] for any integer, as [f'{e.returncode}'] needs it. *)
Definition str_Z (z : Z) : text :=
  match z with
  | Zneg p => DASH :: str (Npos p)
  | _ => str (Z.to_N z)
  end.

(** ** script/github_backup.py *)

Module GithubBackup.

Definition CHANGELOG_PATH : text := lit "docs/changelog.md".
Definition UPDATE_VERSION_SCRIPT : text := lit "script/update_version.py".
Definition COMMIT_MSG_FILE : text := lit ".git_commit_msg.tmp".

Definition cmd_update_version : text := lit "python3 " ++ UPDATE_VERSION_SCRIPT.
Definition cmd_status : text := lit "git status --porcelain".
Definition cmd_add : text := lit "git add .".
Definition cmd_commit : text := lit "git commit -F .git_commit_msg.tmp".
Definition cmd_push (remote branch : text) : text :=
  lit "git push " ++ remote ++ SPACE :: branch.

Definition err_update : text := utf8 "Échec de la mise à jour de la version".
Definition err_add : text := utf8 "Échec de l'ajout des fichiers".
Definition err_commit : text := utf8 "Échec de la création du commit".
Definition err_push (remote branch : text) : text :=
  utf8 "Échec du push vers " ++ remote ++ SLASH :: branch.

Definition msg_error (m : text) : text := lit "ERREUR: " ++ m.
Definition msg_command (c : text) : text := lit "Commande: " ++ c.
Definition msg_code (z : Z) : text := lit "Code de sortie: " ++ str_Z z.
Definition msg_stderr (e : text) : text := lit "Sortie d'erreur: " ++ e.

Definition msg_updating : text := utf8 "Mise à jour de la version...".
Definition msg_no_match : text :=
  lit "AVERTISSEMENT: Impossible d'extraire la version depuis la sortie du script".
Definition UNKNOWN_VERSION : text := lit "version inconnue".
Definition msg_changelog_missing : text :=
  lit "AVERTISSEMENT: Fichier " ++ CHANGELOG_PATH ++ lit " introuvable.".
Definition NO_DETAILS : text := utf8 "Modifications non détaillées".
Definition msg_staging : text := utf8 "Ajout des fichiers modifiés...".
Definition msg_committing : text := utf8 "Création du commit...".
Definition msg_pushing (remote branch : text) : text :=
  lit "Push vers GitHub (" ++ remote ++ SLASH :: branch ++ lit ")...".
Definition msg_start (hms : text) : text :=
  utf8 "Script de sauvegarde GitHub: démarrage (" ++ hms ++ lit ")...".
Definition msg_not_repo : text :=
  utf8 "ERREUR: Le répertoire courant n'est pas un dépôt Git.".
Definition msg_nothing : text := utf8 "Aucun changement à sauvegarder.".
Definition msg_done (hms : text) : text :=
  utf8 "Sauvegarde terminée avec succès! (" ++ hms ++ lit ")".
Definition msg_saved (version : text) : text :=
  lit "Version " ++ version ++ utf8 " sauvegardée sur GitHub.".

(** [r'Version mise à jour à (v[\d\.]+)'] *)
Definition updated_prefix : text := utf8 "Version mise à jour à ".
Definition updated_pattern : pattern :=
  chars updated_prefix ++ [Chr 118; Plus UpdateVersion.digit_or_dot].

(** Group 1 of a match of [updated_pattern]. *)
Definition updated_group (r : result) : text :=
  List.concat (skipn (List.length updated_prefix) (fst r)).

(** [f"Version {version} - {today}\n\n{changes}"] *)
Definition commit_message (version today changes : text) : text :=
  lit "Version " ++ version ++ lit " - " ++ today ++ NL :: NL :: changes.

Definition starts_with_dash (l : text) : bool :=
  match l with
  | c :: _ => c =? DASH
  | [] => false
  end.

(** The rendering of the first section found in the changelog. *)
Definition render_section (sec : text * text * text) : text :=
  let '(title, category, action) := sec in
  let action_lines :=
    map (fun line =>
           let line := strip line in
           if starts_with_dash line then lit "  " ++ line
           else lit "    " ++ line)
        (split_lines (strip action)) in
  strip title ++ NL :: utf8 "Catégorie: " ++ strip category
    ++ NL :: join_lines action_lines.

Section Script.

Variable Ext : Type.
Variable clock : world Ext -> datetime.
Variable shell : world Ext -> text -> CmdResult * world Ext.

(** The matches of the section pattern of [extract_latest_changes] in a
    changelog text, each with its three groups.  That pattern (lazy
    repetition, look-ahead) is outside the fragment of [Re]; no property
    below depends on which sections it finds. *)
Variable find_sections : text -> list (text * text * text).

Definition truthy (m : option text) : bool :=
  match m with
  | Some (_ :: _) => true
  | _ => false
  end.

Definition run_command (command : text) (error_message : option text)
  : M Ext text :=
  r <- subprocess_run shell command ;;
  if (returncode r =? 0)%Z then ret (strip (stdout r))
  else
    (if truthy error_message then
       print (msg_error (match error_message with Some m => m | None => [] end)) ;;;
       print (msg_command command) ;;;
       print (msg_code (returncode r)) ;;;
       print (msg_stderr (stderr r))
     else ret tt) ;;;
    sys_exit 1.

Definition check_git_repo : M Ext bool := path_isdir (lit ".git").

Definition update_version : M Ext text :=
  print msg_updating ;;;
  output <- run_command cmd_update_version (Some err_update) ;;
  print output ;;;
  match search updated_pattern output with
  | Some r => ret (updated_group r)
  | None => print msg_no_match ;;; ret UNKNOWN_VERSION
  end.

Definition extract_latest_changes : M Ext text :=
  e <- path_exists CHANGELOG_PATH ;;
  if negb e then print msg_changelog_missing ;;; ret NO_DETAILS
  else
    content <- read_file CHANGELOG_PATH ;;
    match find_sections content with
    | [] => ret NO_DETAILS
    | sec :: _ => ret (render_section sec)
    end.

Definition stage_all_changes : M Ext unit :=
  print msg_staging ;;;
  run_command cmd_add (Some err_add) ;;;
  ret tt.

Definition create_commit (version changes : text) : M Ext unit :=
  print msg_committing ;;;
  d <- now clock ;;
  let today := strftime_iso d in
  write_file COMMIT_MSG_FILE (commit_message version today changes) ;;;
  run_command cmd_commit (Some err_commit) ;;;
  e <- path_exists COMMIT_MSG_FILE ;;
  if e then remove_file COMMIT_MSG_FILE else ret tt.

Definition push_to_github (remote branch : text) : M Ext unit :=
  print (msg_pushing remote branch) ;;;
  run_command (cmd_push remote branch) (Some (err_push remote branch)) ;;;
  ret tt.

Definition check_for_changes : M Ext bool :=
  output <- run_command cmd_status None ;;
  ret (match strip output with [] => false | _ => true end).

(** [main], with the parsed [--remote] and [--branch] arguments. *)
Definition main (remote branch : text) : M Ext unit :=
  d <- now clock ;;
  print (msg_start (strftime_hms d)) ;;;
  repo <- check_git_repo ;;
  (if negb repo then print msg_not_repo ;;; sys_exit 1 else ret tt) ;;;
  version <- update_version ;;
  dirty <- check_for_changes ;;
  if negb dirty then print msg_nothing
  else
    changes <- extract_latest_changes ;;
    stage_all_changes ;;;
    create_commit version changes ;;;
    push_to_github remote branch ;;;
    d' <- now clock ;;
    print (msg_done (strftime_hms d')) ;;;
    print (msg_saved version).

End Script.

End GithubBackup.

(** ** backup_script.py *)

Module BackupScript.

Definition cmd_version : text := lit "git --version".
Definition cmd_rev_parse : text := lit "git rev-parse --is-inside-work-tree".
Definition cmd_add : text := lit "git add .".
Definition cmd_status : text := lit "git status --porcelain".
Definition cmd_push : text := lit "git push".
Definition cmd_commit (stamp : text) : text :=
  lit "git commit -m " ++ QUOTE :: lit "Automated backup " ++ stamp ++ [QUOTE].

Definition msg_exec (c : text) : text := utf8 "Exécution: " ++ c.
Definition msg_ok (out : text) : text := utf8 "Succès:" ++ NL :: out.
Definition msg_cmd_error (c : text) : text :=
  utf8 "Erreur lors de l'exécution de la commande: " ++ c.
Definition msg_code (z : Z) : text := lit "Code de retour: " ++ str_Z z.
Definition msg_stderr (e : text) : text := lit "Sortie d'erreur:" ++ NL :: e.
Definition msg_stdout (o : text) : text := lit "Sortie standard:" ++ NL :: o.

Definition msg_begin : text :=
  utf8 "--- Début du processus de sauvegarde Git ---".
Definition msg_not_repo : text :=
  utf8 "Erreur: Le répertoire actuel n'est pas un dépôt Git valide.".
Definition msg_aborted : text :=
  utf8 "--- Processus de sauvegarde échoué ---".
Definition msg_step_add : text :=
  NL :: lit "1. Ajout des fichiers (git add .)...".
Definition msg_add_failed : text :=
  utf8 "Échec de l'ajout des fichiers. Il peut y avoir des problèmes de permissions ou de configuration Git.".
Definition msg_step_status : text :=
  NL :: utf8 "2. Vérification des changements à commiter (git status)...".
Definition msg_clean : text :=
  utf8 "Aucun changement détecté à commiter. Le dépôt est à jour.".
Definition msg_no_change : text :=
  utf8 "--- Processus de sauvegarde terminé (aucun changement) ---".
Definition msg_dirty : text :=
  utf8 "Changements détectés, préparation du commit.".
Definition msg_step_commit : text := NL :: utf8 "3. Création du commit...".
Definition msg_commit_failed : text :=
  utf8 "Échec de la création du commit. Vérifiez la configuration Git (user.name, user.email) et les éventuels hooks pre-commit.".
Definition msg_step_push : text :=
  NL :: utf8 "4. Poussée des changements vers le dépôt distant (git push)...".
Definition msg_push_failed : text :=
  utf8 "Échec du push vers le dépôt distant. Vérifiez la connexion réseau, les permissions du dépôt distant et l'état de la branche distante.".
Definition msg_success : text :=
  NL :: utf8 "--- Processus de sauvegarde terminé avec succès ---".
Definition msg_git_found : text := utf8 "Git est détecté.".
Definition msg_no_git : text :=
  utf8 "Erreur critique: Git n'est pas installé ou n'est pas accessible dans le PATH.".
Definition msg_install_git : text :=
  utf8 "Veuillez installer Git et vous assurer qu'il est correctement configuré.".

Section Script.

Variable Ext : Type.
Variable clock : world Ext -> datetime.
Variable shell : world Ext -> text -> CmdResult * world Ext.

(** [run_command]: with [shell=True] a missing program is a non-zero exit
    of the shell, so only the first handler can run. *)
Definition run_command (command : text) : M Ext bool :=
  print (msg_exec command) ;;;
  r <- subprocess_run shell command ;;
  if (returncode r =? 0)%Z then
    print (msg_ok (stdout r)) ;;; ret true
  else
    eprint (msg_cmd_error command) ;;;
    eprint (msg_code (returncode r)) ;;;
    eprint (msg_stderr (stderr r)) ;;;
    eprint (msg_stdout (stdout r)) ;;;
    ret false.

Definition backup_and_commit : M Ext unit :=
  print msg_begin ;;;
  repo <- run_command cmd_rev_parse ;;
  if negb repo then eprint msg_not_repo ;;; eprint msg_aborted
  else
    print msg_step_add ;;;
    added <- run_command cmd_add ;;
    if negb added then eprint msg_add_failed ;;; eprint msg_aborted
    else
      print msg_step_status ;;;
      status_result <- subprocess_run shell cmd_status ;;
      match strip (stdout status_result) with
      | [] => print msg_clean ;;; print msg_no_change
      | _ =>
          print msg_dirty ;;;
          print msg_step_commit ;;;
          d <- now clock ;;
          committed <- run_command (cmd_commit (strftime_iso_hms d)) ;;
          if negb committed then
            eprint msg_commit_failed ;;; eprint msg_aborted
          else
            print msg_step_push ;;;
            pushed <- run_command cmd_push ;;
            if negb pushed then eprint msg_push_failed ;;; eprint msg_aborted
            else print msg_success
      end.

(** The body under [if __name__ == "__main__"]. *)
Definition main : M Ext unit :=
  r <- subprocess_run shell cmd_version ;;
  if (returncode r =? 0)%Z then
    print msg_git_found ;;; backup_and_commit
  else
    eprint msg_no_git ;;; eprint msg_install_git ;;; sys_exit 1.

End Script.

End BackupScript.

(** ** Observing a run *)

Definition run {Ext A} (m : M Ext A) (w : world Ext)
  : outcome A * state Ext :=
  m (mkState w []).

(** The external commands of a trace, in the order they were issued. *)
Fixpoint commands (tr : list event) : list text :=
  match tr with
  | [] => []
  | Run c :: tr' => c :: commands tr'
  | _ :: tr' => commands tr'
  end.

(** What a trace shows the user, on either stream. *)
Fixpoint printed (tr : list event) : list text :=
  match tr with
  | [] => []
  | Print t :: tr' => t :: printed tr'
  | PrintErr t :: tr' => t :: printed tr'
  | _ :: tr' => printed tr'
  end.

Fixpoint is_prefix (p s : text) : bool :=
  match p, s with
  | [], _ => true
  | x :: p', y :: s' => (x =? y) && is_prefix p' s'
  | _ :: _, [] => false
  end.

Definition is_stage (c : text) : bool := is_prefix (lit "git add") c.
Definition is_commit (c : text) : bool := is_prefix (lit "git commit") c.
Definition is_push (c : text) : bool := is_prefix (lit "git push") c.

(** No stage, commit or push command among [cs]. *)
Definition no_stage_commit_push (cs : list text) : bool :=
  forallb (fun c => negb (is_stage c || is_commit c || is_push c)) cs.

Definition no_commit_push (cs : list text) : bool :=
  forallb (fun c => negb (is_commit c || is_push c)) cs.

(** Paths a trace opened for reading or writing, or removed. *)
Fixpoint touched (tr : list event) : list text :=
  match tr with
  | [] => []
  | Read p :: tr' => p :: touched tr'
  | Write p _ :: tr' => p :: touched tr'
  | Remove p :: tr' => p :: touched tr'
  | _ :: tr' => touched tr'
  end.

(** A computation only adds events to the trace. *)
Definition grows {Ext A} (m : M Ext A) : Prop :=
  forall s, exists evs, st_trace (snd (m s)) = st_trace s ++ evs.

(** ** Concrete environments *)

Module Fixtures.

Definition clock0 : world unit -> datetime :=
  fun _ => mkDate 2024 1 1 12 0 0.

(** A working tree that is a repository and holds the given files. *)
Fixpoint lookup (tbl : list (text * text)) (p : text) : option text :=
  match tbl with
  | [] => None
  | (q, c) :: tbl' => if Text.eqb p q then Some c else lookup tbl' p
  end.

Definition repo (tbl : list (text * text)) : world unit :=
  mkWorld (lookup tbl) (fun p => Text.eqb p (lit ".git")) tt.

(** A shell where the listed commands give the listed results and every
    other command succeeds silently; no command touches the files. *)
Fixpoint answer (tbl : list (text * CmdResult)) (cmd : text) : CmdResult :=
  match tbl with
  | [] => mkResult 0 [] []
  | (c, r) :: tbl' => if Text.eqb cmd c then r else answer tbl' cmd
  end.

Definition shell_of (tbl : list (text * CmdResult))
  : world unit -> text -> CmdResult * world unit :=
  fun w cmd => (answer tbl cmd, w).

Definition no_sections : text -> list (text * text * text) := fun _ => [].

Definition dirty : CmdResult := mkResult 0 (lit " M src/main.cpp") [].
Definition failure : CmdResult := mkResult 1 [] (lit "fatal: refused").
Definition synced : CmdResult :=
  mkResult 0 (utf8 "Version mise à jour à v2.0.0.5 dans include/core/config.h") [].

(** A config artifact with the six definitions and two other lines. *)
Definition config_h : text :=
  join_lines
    [lit "// generated file";
     lit "#define VERSION_MAJOR 1";
     lit "#define VERSION_MINOR 0";
     lit "#define VERSION_PATCH 0";
     lit "#define VERSION_BUILD 3";
     lit "#define VERSION_STRING " ++ QUOTE :: lit "v1.0.0.3" ++ [QUOTE];
     lit "#define BUILD_DATE " ++ QUOTE :: lit "01/01/2020" ++ [QUOTE];
     lit "  static const int PIN = 4;  "].

(** A changelog where v2.0.0.5 comes before v1.9.0.2, and one without any
    version. *)
Definition changelog_two : text :=
  join_lines [lit "## 2024-01-01"; lit "release v2.0.0.5";
              lit "## 2023-12-01"; lit "release v1.9.0.2"].

Definition changelog_none : text := lit "# Changelog".

End Fixtures.

(** ** Vocabulary of the properties *)

Module ReSpec.

(** The next character, if any, is outside the class. *)
Definition stops (cls : char -> bool) (s : text) : bool :=
  match s with
  | c :: _ => negb (cls c)
  | [] => true
  end.

(** No item of the pattern can match the character [x]. *)
Definition rejects (x : char) (p : pattern) : bool :=
  forallb (fun it => match it with
                     | Chr c => negb (c =? x)
                     | Plus cls => negb (cls x)
                     end) p.

(** The piece an item may match. *)
Definition piece_ok (it : item) (piece : text) : Prop :=
  match it with
  | Chr c => piece = [c]
  | Plus cls => piece <> [] /\ forallb cls piece = true
  end.

Definition lift (tail : text) (o : option result) : option result :=
  match o with
  | Some (ps, r) => Some (ps, r ++ tail)
  | None => None
  end.

Definition anchored (p : pattern) : bool :=
  match p with
  | Chr h :: tl => rejects h tl
  | _ => false
  end.

End ReSpec.

Module LineSpec.

Definition no_nl (s : text) : bool := forallb (fun c => negb (c =? NL)) s.

End LineSpec.

Module PatchSpec.
Import UpdateVersion.

(** The six patterns of the patcher. *)
Definition recognized_patterns : list pattern :=
  [define_int "VERSION_MAJOR"; define_int "VERSION_MINOR";
   define_int "VERSION_PATCH"; define_int "VERSION_BUILD";
   define_version_string; define_build_date].


End PatchSpec.

Module VersionSpec.
Import UpdateVersion.

(** A non-empty run of decimal digits. *)
Definition digits (s : text) : Prop := s <> [] /\ forallb is_digit s = true.

(** ["v" d1 "." d2 "." d3 "." d4] *)
Definition token (d1 d2 d3 d4 : text) : text :=
  118 :: d1 ++ DOT :: d2 ++ DOT :: d3 ++ DOT :: d4.

(** A version token starts at offset [n] of the text. *)
Definition token_at (content : text) (n : nat) : Prop :=
  exists d1 d2 d3 d4 post,
    digits d1 /\ digits d2 /\ digits d3 /\ digits d4
    /\ skipn n content = token d1 d2 d3 d4 ++ post.

(** No position before offset [k] starts a match of the version pattern. *)
Definition match_free_before (content : text) (k : nat) : bool :=
  forallb (fun n => match match_here version_pattern (skipn n content) with
                    | Some _ => false
                    | None => true
                    end)
          (seq 0 k).

End VersionSpec.

Module GithubSpec.
Import GithubBackup.

(** What [run_command] prints when the command fails. *)
Definition report (command : text) (error_message : option text)
    (r : CmdResult) : list event :=
  match error_message with
  | Some (c :: m) =>
      [Print (msg_error (c :: m)); Print (msg_command command);
       Print (msg_code (returncode r)); Print (msg_stderr (stderr r))]
  | _ => []
  end.

(** The version [update_version] returns for the trimmed output of the
    synchronizer, and the warning it prints. *)
Definition version_of_output (output : text) : text :=
  match search updated_pattern output with
  | Some r => updated_group r
  | None => UNKNOWN_VERSION
  end.

Definition warning_of_output (output : text) : list event :=
  match search updated_pattern output with
  | Some _ => []
  | None => [Print msg_no_match]
  end.

Section Spec.

Variable Ext : Type.
Variable clock : world Ext -> datetime.
Variable shell : world Ext -> text -> CmdResult * world Ext.
Variable find_sections : text -> list (text * text * text).

(** The run up to the status query, in a repository whose synchronizer
    succeeds. *)
Definition prologue (w : world Ext) (r1 : CmdResult) : list event :=
  [Print (msg_start (strftime_hms (clock w)))]
  ++ [Print msg_updating; Run cmd_update_version; Print (strip (stdout r1))]
  ++ warning_of_output (strip (stdout r1)).

(** What [extract_latest_changes] returns and records in a world. *)
Definition changes_text (w : world Ext) : text :=
  match files w CHANGELOG_PATH with
  | None => NO_DETAILS
  | Some content =>
      match find_sections content with
      | [] => NO_DETAILS
      | sec :: _ => render_section sec
      end
  end.

Definition changes_events (w : world Ext) : list event :=
  match files w CHANGELOG_PATH with
  | None => [Print msg_changelog_missing]
  | Some _ => [Read CHANGELOG_PATH]
  end.

(** The message [create_commit] writes in world [w]. *)
Definition message_in (w : world Ext) (version changes : text) : text :=
  commit_message version (strftime_iso (clock w)) changes.

Definition with_message (w : world Ext) (version changes : text)
  : world Ext :=
  set_file w COMMIT_MSG_FILE (Some (message_in w version changes)).

(** The world and the events of the clean-up after a successful commit
    command. *)
Definition cleaned (w : world Ext) : world Ext :=
  match files w COMMIT_MSG_FILE with
  | Some _ => set_file w COMMIT_MSG_FILE None
  | None => w
  end.

Definition cleaning (w : world Ext) : list event :=
  match files w COMMIT_MSG_FILE with
  | Some _ => [Remove COMMIT_MSG_FILE]
  | None => []
  end.

(** The part of [main] after the stage command. *)
Definition finish (remote branch version changes : text) : M Ext unit :=
  create_commit Ext clock shell version changes ;;;
  push_to_github Ext shell remote branch ;;;
  d' <- now clock ;;
  print (msg_done (strftime_hms d')) ;;;
  print (msg_saved version).

(** The run up to, and including, a successful status query that shows
    pending changes. *)
Definition dirty_tree (w w1 w2 : world Ext) (r1 r2 : CmdResult) : Prop :=
  isdir w (lit ".git") = true
  /\ shell w cmd_update_version = (r1, w1)
  /\ returncode r1 = 0%Z
  /\ shell w1 cmd_status = (r2, w2)
  /\ returncode r2 = 0%Z
  /\ strip (strip (stdout r2)) <> []
  /\ (files w2 CHANGELOG_PATH = None -> isdir w2 CHANGELOG_PATH = false).

Definition before_stage (w w2 : world Ext) (r1 : CmdResult) : list event :=
  prologue w r1 ++ [Run cmd_status] ++ changes_events w2.

(** The same, through a successful stage command. *)
Definition staged (w w1 w2 w3 : world Ext) (r1 r2 r3 : CmdResult) : Prop :=
  dirty_tree w w1 w2 r1 r2
  /\ shell w2 cmd_add = (r3, w3)
  /\ returncode r3 = 0%Z
  /\ isdir w3 COMMIT_MSG_FILE = false.

Definition before_commit (w w2 : world Ext) (r1 : CmdResult) : list event :=
  before_stage w w2 r1 ++ [Print msg_staging; Run cmd_add].

Definition commit_events (w3 : world Ext) (version changes : text)
  : list event :=
  [Print msg_committing;
   Write COMMIT_MSG_FILE (message_in w3 version changes);
   Run cmd_commit].

End Spec.

Arguments prologue {Ext}.
Arguments changes_text {Ext}.
Arguments changes_events {Ext}.
Arguments message_in {Ext}.
Arguments with_message {Ext}.
Arguments cleaned {Ext}.
Arguments cleaning {Ext}.
Arguments finish {Ext}.
Arguments dirty_tree {Ext}.
Arguments before_stage {Ext}.
Arguments staged {Ext}.
Arguments before_commit {Ext}.
Arguments commit_events {Ext}.

End GithubSpec.

Module BackupSpec.
Import BackupScript.

(** The events of [main] up to the status query when git is installed and
    the first two commands succeed. *)
Definition prologue (r0 r1 r2 : CmdResult) : list event :=
  [Run cmd_version; Print msg_git_found; Print msg_begin;
   Print (msg_exec cmd_rev_parse); Run cmd_rev_parse;
   Print (msg_ok (stdout r1));
   Print msg_step_add;
   Print (msg_exec cmd_add); Run cmd_add; Print (msg_ok (stdout r2));
   Print msg_step_status; Run cmd_status].

End BackupSpec.

(** ** Vocabulary of the further properties *)

Module ExtraSpec.

Definition not_hash (x : char) : bool := negb (x =? 35).

(** The pattern starts with the literal ["#"]. *)
Definition hash_anchored (p : pattern) : bool :=
  match p with
  | Chr h :: _ => h =? 35
  | _ => false
  end.

(** Concrete runs for the examples: the shell answers from a table, the
    remote is [origin] and the branch [main]. *)
Definition no_repo : world unit := mkWorld (fun _ => None) (fun _ => false) tt.

Definition github_run (tbl : list (text * CmdResult)) (w : world unit)
  : outcome unit * state unit :=
  run (GithubBackup.main unit Fixtures.clock0 (Fixtures.shell_of tbl)
         Fixtures.no_sections (lit "origin") (lit "main")) w.

Definition backup_run (tbl : list (text * CmdResult)) (w : world unit)
  : outcome unit * state unit :=
  run (BackupScript.main unit Fixtures.clock0 (Fixtures.shell_of tbl)) w.

Definition ok : CmdResult := mkResult 0 [] [].


(** What a trace writes to the standard output: each printed text and a
    newline, as [print] does (the error stream is left out). *)
Fixpoint stdout_of (tr : list event) : text :=
  match tr with
  | [] => []
  | Print t :: tr' => t ++ NL :: stdout_of tr'
  | _ :: tr' => stdout_of tr'
  end.

(** The pattern matches at no offset below [k] of the text. *)
Definition no_match_before (p : pattern) (content : text) (k : nat) : bool :=
  forallb (fun n => match match_here p (skipn n content) with
                    | Some _ => false
                    | None => true
                    end)
          (seq 0 k).

(** The pattern starts with the literal [h]. *)
Definition head_is (h : char) (p : pattern) : bool :=
  match p with
  | Chr c :: _ => c =? h
  | _ => false
  end.

(** A repository with a changelog and a config artifact, and what the
    synchronizer prints there. *)
Definition release_tree : world unit :=
  Fixtures.repo [(UpdateVersion.CHANGELOG_PATH, Fixtures.changelog_two);
                 (UpdateVersion.CONFIG_PATH, Fixtures.config_h)].

Definition release_output : CmdResult :=
  mkResult 0
    (stdout_of
       (st_trace (snd (run (UpdateVersion.main unit Fixtures.clock0)
                         release_tree))))
    [].

End ExtraSpec.

(** ** Running a script step by step *)

Lemma strip_nil : strip [] = [].
Proof. reflexivity. Qed.

Lemma commands_app (a b : list event) :
  commands (a ++ b) = commands a ++ commands b.
Proof.
  induction a as [|e a IH]; simpl; [reflexivity|].
  destruct e; simpl; rewrite IH; reflexivity.
Qed.

Lemma printed_app (a b : list event) :
  printed (a ++ b) = printed a ++ printed b.
Proof.
  induction a as [|e a IH]; simpl; [reflexivity|].
  destruct e; simpl; rewrite IH; reflexivity.
Qed.

(** Sequencing, once the first computation is known. *)
Lemma bind_ret_eq {Ext A B} (m : M Ext A) (k : A -> M Ext B) s a s' :
  m s = (Ret a, s') -> bind m k s = k a s'.
Proof. intros H. unfold bind. rewrite H. reflexivity. Qed.

Lemma bind_exit_eq {Ext A B} (m : M Ext A) (k : A -> M Ext B) s c s' :
  m s = (Exit c, s') -> bind m k s = (Exit c, s').
Proof. intros H. unfold bind. rewrite H. reflexivity. Qed.

(** ** Facts about script/github_backup.py *)

Module GithubFacts.
Import GithubBackup GithubSpec.

Section Facts.

Variable Ext : Type.
Variable clock : world Ext -> datetime.
Variable shell : world Ext -> text -> CmdResult * world Ext.
Variable find_sections : text -> list (text * text * text).

Lemma run_command_ok command em (s : state Ext) r w' :
  shell (st_world s) command = (r, w') ->
  returncode r = 0%Z ->
  run_command Ext shell command em s
  = (Ret (strip (stdout r)), mkState w' (st_trace s ++ [Run command])).
Proof.
  intros H Hr. unfold run_command, bind, subprocess_run.
  rewrite H, Hr. reflexivity.
Qed.

Lemma run_command_fail command em (s : state Ext) r w' :
  shell (st_world s) command = (r, w') ->
  returncode r <> 0%Z ->
  run_command Ext shell command em s
  = (Exit 1, mkState w' (st_trace s ++ Run command :: report command em r)).
Proof.
  intros H Hr. unfold run_command, bind, subprocess_run.
  rewrite H. apply Z.eqb_neq in Hr. rewrite Hr.
  destruct em as [[|c m]|]; cbn; rewrite <- ?app_assoc;
    rewrite ?app_nil_r; reflexivity.
Qed.

Lemma update_version_ok (s : state Ext) r w' :
  shell (st_world s) cmd_update_version = (r, w') ->
  returncode r = 0%Z ->
  update_version Ext shell s
  = (Ret (version_of_output (strip (stdout r))),
     mkState w' (st_trace s
                 ++ [Print msg_updating; Run cmd_update_version;
                     Print (strip (stdout r))]
                 ++ warning_of_output (strip (stdout r)))).
Proof.
  intros H Hr. unfold update_version, version_of_output, warning_of_output.
  unfold print at 1. unfold emit, bind at 1.
  erewrite bind_ret_eq by (apply run_command_ok; [exact H | exact Hr]).
  unfold print at 1. unfold emit, bind at 1.
  destruct (search updated_pattern (strip (stdout r))); cbn;
    rewrite <- ?app_assoc; cbn; rewrite ?app_nil_r; reflexivity.
Qed.

Lemma check_for_changes_ok (s : state Ext) r w' :
  shell (st_world s) cmd_status = (r, w') ->
  returncode r = 0%Z ->
  check_for_changes Ext shell s
  = (Ret (match strip (strip (stdout r)) with [] => false | _ => true end),
     mkState w' (st_trace s ++ [Run cmd_status])).
Proof.
  intros H Hr. unfold check_for_changes.
  erewrite bind_ret_eq by (apply run_command_ok; [exact H | exact Hr]).
  reflexivity.
Qed.

Lemma check_for_changes_fail (s : state Ext) r w' :
  shell (st_world s) cmd_status = (r, w') ->
  returncode r <> 0%Z ->
  check_for_changes Ext shell s
  = (Exit 1, mkState w' (st_trace s ++ [Run cmd_status])).
Proof.
  intros H Hr. unfold check_for_changes.
  erewrite bind_exit_eq by (apply run_command_fail; [exact H | exact Hr]).
  reflexivity.
Qed.

Lemma commands_prologue (w : world Ext) r1 :
  commands (prologue clock w r1) = [cmd_update_version].
Proof.
  unfold prologue, warning_of_output.
  destruct (search updated_pattern (strip (stdout r1))); reflexivity.
Qed.

Lemma main_clean remote branch (w w1 w2 : world Ext) r1 r2 :
  isdir w (lit ".git") = true ->
  shell w cmd_update_version = (r1, w1) ->
  returncode r1 = 0%Z ->
  shell w1 cmd_status = (r2, w2) ->
  returncode r2 = 0%Z ->
  strip (stdout r2) = [] ->
  run (main Ext clock shell find_sections remote branch) w
  = (Ret tt, mkState w2 (prologue clock w r1
                         ++ [Run cmd_status; Print msg_nothing])).
Proof.
  intros Hgit H1 Hr1 H2 Hr2 Hclean.
  unfold run, main, check_git_repo.
  unfold now at 1. unfold bind at 1.
  unfold print at 1. unfold emit, bind at 1.
  unfold path_isdir, bind at 1. cbn [st_world st_trace].
  rewrite Hgit. cbn [negb]. unfold ret at 1. unfold bind at 1.
  erewrite bind_ret_eq by (apply update_version_ok; [exact H1 | exact Hr1]).
  erewrite bind_ret_eq by (apply check_for_changes_ok; [exact H2 | exact Hr2]).
  rewrite Hclean, strip_nil. cbn [negb]. unfold print, emit.
  cbn [st_world st_trace]. unfold prologue.
  rewrite <- !app_assoc. reflexivity.
Qed.

Lemma commands_changes_events (w : world Ext) : commands (changes_events w) = [].
Proof. unfold changes_events. destruct (files w CHANGELOG_PATH); reflexivity. Qed.

Lemma extract_latest_changes_ok (s : state Ext) :
  (files (st_world s) CHANGELOG_PATH = None ->
   isdir (st_world s) CHANGELOG_PATH = false) ->
  extract_latest_changes Ext find_sections s
  = (Ret (changes_text find_sections (st_world s)),
     mkState (st_world s) (st_trace s ++ changes_events (st_world s))).
Proof.
  intros Hd. unfold extract_latest_changes, changes_text, changes_events.
  unfold path_exists, bind at 1.
  destruct s as [w tr]. cbn [st_world st_trace] in *.
  destruct (files w CHANGELOG_PATH) as [content|] eqn:Hf; cbn [negb].
  - unfold read_file, bind. cbn [st_world st_trace]. rewrite Hf.
    destruct (find_sections content); reflexivity.
  - rewrite (Hd eq_refl). reflexivity.
Qed.

Lemma stage_ok (s : state Ext) r w' :
  shell (st_world s) cmd_add = (r, w') ->
  returncode r = 0%Z ->
  stage_all_changes Ext shell s
  = (Ret tt, mkState w' (st_trace s ++ [Print msg_staging; Run cmd_add])).
Proof.
  intros H Hr. unfold stage_all_changes.
  unfold print at 1. unfold emit, bind at 1.
  erewrite bind_ret_eq by (apply run_command_ok; [exact H | exact Hr]).
  cbn. rewrite <- app_assoc. reflexivity.
Qed.


Lemma create_commit_fail (s : state Ext) version changes r w' :
  isdir (st_world s) COMMIT_MSG_FILE = false ->
  shell (with_message clock (st_world s) version changes) cmd_commit = (r, w') ->
  returncode r <> 0%Z ->
  create_commit Ext clock shell version changes s
  = (Exit 1,
     mkState w' (st_trace s
                 ++ [Print msg_committing;
                     Write COMMIT_MSG_FILE
                       (message_in clock (st_world s) version changes);
                     Run cmd_commit]
                 ++ report cmd_commit (Some err_commit) r)).
Proof.
  intros Hd H Hr. unfold create_commit.
  unfold print at 1. unfold emit, bind at 1.
  unfold now at 1. unfold bind at 1. cbn [st_world st_trace].
  unfold write_file at 1. unfold bind at 1. cbn [st_world st_trace].
  rewrite Hd.
  erewrite bind_exit_eq by (apply run_command_fail; [exact H | exact Hr]).
  cbn [st_world st_trace]. rewrite <- !app_assoc. unfold message_in.
  cbn [app]. reflexivity.
Qed.

Lemma create_commit_ok (s : state Ext) version changes r w' :
  isdir (st_world s) COMMIT_MSG_FILE = false ->
  shell (with_message clock (st_world s) version changes) cmd_commit = (r, w') ->
  returncode r = 0%Z ->
  isdir w' COMMIT_MSG_FILE = false ->
  create_commit Ext clock shell version changes s
  = (Ret tt,
     mkState (cleaned w')
             (st_trace s
              ++ [Print msg_committing;
                  Write COMMIT_MSG_FILE
                    (message_in clock (st_world s) version changes);
                  Run cmd_commit]
              ++ cleaning w')).
Proof.
  intros Hd H Hr Hd'. unfold create_commit.
  unfold print at 1. unfold emit, bind at 1.
  unfold now at 1. unfold bind at 1. cbn [st_world st_trace].
  unfold write_file at 1. unfold bind at 1. cbn [st_world st_trace].
  rewrite Hd.
  erewrite bind_ret_eq by (apply run_command_ok; [exact H | exact Hr]).
  unfold path_exists, bind, remove_file, cleaned, cleaning.
  cbn [st_world st_trace]. rewrite Hd'.
  unfold message_in.
  destruct (files w' COMMIT_MSG_FILE) eqn:Hf; cbn [st_world st_trace negb];
    rewrite ?Hf; unfold ret; rewrite <- ?app_assoc; cbn [app];
    rewrite ?app_nil_r; reflexivity.
Qed.

Lemma push_ok remote branch (s : state Ext) r w' :
  shell (st_world s) (cmd_push remote branch) = (r, w') ->
  returncode r = 0%Z ->
  push_to_github Ext shell remote branch s
  = (Ret tt, mkState w' (st_trace s ++ [Print (msg_pushing remote branch);
                                        Run (cmd_push remote branch)])).
Proof.
  intros H Hr. unfold push_to_github.
  unfold print at 1. unfold emit, bind at 1.
  erewrite bind_ret_eq by (apply run_command_ok; [exact H | exact Hr]).
  cbn. rewrite <- app_assoc. reflexivity.
Qed.

Lemma push_fail remote branch (s : state Ext) r w' :
  shell (st_world s) (cmd_push remote branch) = (r, w') ->
  returncode r <> 0%Z ->
  push_to_github Ext shell remote branch s
  = (Exit 1, mkState w' (st_trace s
                         ++ [Print (msg_pushing remote branch);
                             Run (cmd_push remote branch)]
                         ++ report (cmd_push remote branch)
                              (Some (err_push remote branch)) r)).
Proof.
  intros H Hr. unfold push_to_github.
  unfold print at 1. unfold emit, bind at 1.
  erewrite bind_exit_eq by (apply run_command_fail; [exact H | exact Hr]).
  cbn. rewrite <- app_assoc. reflexivity.
Qed.

Lemma commands_before_stage (w w2 : world Ext) r1 :
  commands (before_stage clock w w2 r1) = [cmd_update_version; cmd_status].
Proof.
  unfold before_stage. rewrite !commands_app, commands_prologue,
    commands_changes_events. reflexivity.
Qed.

Lemma main_dirty remote branch (w w1 w2 : world Ext) r1 r2 :
  dirty_tree shell w w1 w2 r1 r2 ->
  run (main Ext clock shell find_sections remote branch) w
  = bind (stage_all_changes Ext shell)
         (fun _ => finish clock shell remote branch
                     (version_of_output (strip (stdout r1)))
                     (changes_text find_sections w2))
         (mkState w2 (before_stage clock w w2 r1)).
Proof.
  intros (Hgit & H1 & Hr1 & H2 & Hr2 & Hdirty & Hd).
  unfold run, main, check_git_repo.
  unfold now at 1. unfold bind at 1.
  unfold print at 1. unfold emit, bind at 1.
  unfold path_isdir, bind at 1. cbn [st_world st_trace].
  rewrite Hgit. cbn [negb]. unfold ret at 1. unfold bind at 1.
  erewrite bind_ret_eq by (apply update_version_ok; [exact H1 | exact Hr1]).
  erewrite bind_ret_eq by (apply check_for_changes_ok; [exact H2 | exact Hr2]).
  destruct (strip (strip (stdout r2))) as [|c l]; [congruence|].
  cbn [negb].
  erewrite bind_ret_eq by (apply extract_latest_changes_ok; exact Hd).
  cbn [st_world st_trace]. unfold before_stage, prologue, finish.
  rewrite <- !app_assoc. reflexivity.
Qed.

Lemma commands_before_commit (w w2 : world Ext) r1 :
  commands (before_commit clock w w2 r1)
  = [cmd_update_version; cmd_status; cmd_add].
Proof.
  unfold before_commit. rewrite commands_app, commands_before_stage.
  reflexivity.
Qed.

Lemma main_staged remote branch (w w1 w2 w3 : world Ext) r1 r2 r3 :
  staged shell w w1 w2 w3 r1 r2 r3 ->
  run (main Ext clock shell find_sections remote branch) w
  = finish clock shell remote branch (version_of_output (strip (stdout r1)))
      (changes_text find_sections w2) (mkState w3 (before_commit clock w w2 r1)).
Proof.
  intros (Hdirty & H3 & Hr3 & _).
  rewrite (main_dirty remote branch w w1 w2 r1 r2 Hdirty).
  erewrite bind_ret_eq by (eapply stage_ok; [exact H3 | exact Hr3]).
  reflexivity.
Qed.


Lemma main_commit_fail remote branch (w w1 w2 w3 w4 : world Ext)
    r1 r2 r3 r4 :
  staged shell w w1 w2 w3 r1 r2 r3 ->
  shell (with_message clock w3 (version_of_output (strip (stdout r1)))
           (changes_text find_sections w2)) cmd_commit = (r4, w4) ->
  returncode r4 <> 0%Z ->
  run (main Ext clock shell find_sections remote branch) w
  = (Exit 1,
     mkState w4 (before_commit clock w w2 r1
                 ++ commit_events clock w3 (version_of_output (strip (stdout r1)))
                      (changes_text find_sections w2)
                 ++ report cmd_commit (Some err_commit) r4)).
Proof.
  intros Hst H4 Hr4.
  rewrite (main_staged remote branch w w1 w2 w3 r1 r2 r3 Hst).
  destruct Hst as (_ & _ & _ & Hd3).
  unfold finish.
  erewrite bind_exit_eq
    by (apply create_commit_fail; [exact Hd3 | exact H4 | exact Hr4]).
  reflexivity.
Qed.

Lemma commands_report command em r : commands (report command em r) = [].
Proof. destruct em as [[|c m]|]; reflexivity. Qed.

Lemma main_status_fail remote branch (w w1 w2 : world Ext) r1 r2 :
  isdir w (lit ".git") = true ->
  shell w cmd_update_version = (r1, w1) ->
  returncode r1 = 0%Z ->
  shell w1 cmd_status = (r2, w2) ->
  returncode r2 <> 0%Z ->
  run (main Ext clock shell find_sections remote branch) w
  = (Exit 1, mkState w2 (prologue clock w r1 ++ [Run cmd_status])).
Proof.
  intros Hgit H1 Hr1 H2 Hr2.
  unfold run, main, check_git_repo.
  unfold now at 1. unfold bind at 1.
  unfold print at 1. unfold emit, bind at 1.
  unfold path_isdir, bind at 1. cbn [st_world st_trace].
  rewrite Hgit. cbn [negb]. unfold ret at 1. unfold bind at 1.
  erewrite bind_ret_eq by (apply update_version_ok; [exact H1 | exact Hr1]).
  erewrite bind_exit_eq
    by (eapply check_for_changes_fail; [exact H2 | exact Hr2]).
  cbn [st_world st_trace]. unfold prologue.
  rewrite <- !app_assoc. reflexivity.
Qed.

Lemma main_success remote branch (w w1 w2 w3 w4 w5 : world Ext)
    r1 r2 r3 r4 r5 :
  staged shell w w1 w2 w3 r1 r2 r3 ->
  shell (with_message clock w3 (version_of_output (strip (stdout r1)))
           (changes_text find_sections w2)) cmd_commit = (r4, w4) ->
  returncode r4 = 0%Z ->
  isdir w4 COMMIT_MSG_FILE = false ->
  shell (cleaned w4) (cmd_push remote branch) = (r5, w5) ->
  returncode r5 = 0%Z ->
  run (main Ext clock shell find_sections remote branch) w
  = (Ret tt,
     mkState w5 (before_commit clock w w2 r1
                 ++ commit_events clock w3 (version_of_output (strip (stdout r1)))
                      (changes_text find_sections w2)
                 ++ cleaning w4
                 ++ [Print (msg_pushing remote branch);
                     Run (cmd_push remote branch);
                     Print (msg_done (strftime_hms (clock w5)));
                     Print (msg_saved
                              (version_of_output (strip (stdout r1))))])).
Proof.
  intros Hst H4 Hr4 Hd4 H5 Hr5.
  rewrite (main_staged remote branch w w1 w2 w3 r1 r2 r3 Hst).
  destruct Hst as (_ & _ & _ & Hd3).
  unfold finish.
  erewrite bind_ret_eq
    by (eapply create_commit_ok; [exact Hd3 | exact H4 | exact Hr4 | exact Hd4]).
  erewrite bind_ret_eq by (eapply push_ok; [exact H5 | exact Hr5]).
  unfold now, bind, print, emit. cbn [st_world st_trace].
  unfold commit_events. rewrite <- !app_assoc. cbn [app]. reflexivity.
Qed.

Lemma main_push_fail remote branch (w w1 w2 w3 w4 w5 : world Ext)
    r1 r2 r3 r4 r5 :
  staged shell w w1 w2 w3 r1 r2 r3 ->
  shell (with_message clock w3 (version_of_output (strip (stdout r1)))
           (changes_text find_sections w2)) cmd_commit = (r4, w4) ->
  returncode r4 = 0%Z ->
  isdir w4 COMMIT_MSG_FILE = false ->
  shell (cleaned w4) (cmd_push remote branch) = (r5, w5) ->
  returncode r5 <> 0%Z ->
  run (main Ext clock shell find_sections remote branch) w
  = (Exit 1,
     mkState w5 (before_commit clock w w2 r1
                 ++ commit_events clock w3 (version_of_output (strip (stdout r1)))
                      (changes_text find_sections w2)
                 ++ cleaning w4
                 ++ [Print (msg_pushing remote branch);
                     Run (cmd_push remote branch)]
                 ++ report (cmd_push remote branch)
                      (Some (err_push remote branch)) r5)).
Proof.
  intros Hst H4 Hr4 Hd4 H5 Hr5.
  rewrite (main_staged remote branch w w1 w2 w3 r1 r2 r3 Hst).
  destruct Hst as (_ & _ & _ & Hd3).
  unfold finish.
  erewrite bind_ret_eq
    by (eapply create_commit_ok; [exact Hd3 | exact H4 | exact Hr4 | exact Hd4]).
  erewrite bind_exit_eq by (eapply push_fail; [exact H5 | exact Hr5]).
  cbn [st_world st_trace].
  unfold commit_events. rewrite <- !app_assoc. cbn [app]. reflexivity.
Qed.

Lemma main_update_fail remote branch (w w1 : world Ext) r1 :
  isdir w (lit ".git") = true ->
  shell w cmd_update_version = (r1, w1) ->
  returncode r1 <> 0%Z ->
  run (main Ext clock shell find_sections remote branch) w
  = (Exit 1,
     mkState w1 ([Print (msg_start (strftime_hms (clock w)));
                  Print msg_updating; Run cmd_update_version]
                 ++ report cmd_update_version (Some err_update) r1)).
Proof.
  intros Hgit H1 Hr1.
  unfold run, main, check_git_repo.
  unfold now at 1. unfold bind at 1.
  unfold print at 1. unfold emit, bind at 1.
  unfold path_isdir, bind at 1. cbn [st_world st_trace].
  rewrite Hgit. cbn [negb]. unfold ret at 1. unfold bind at 1.
  unfold update_version.
  unfold print at 1. unfold emit, bind at 1 2.
  erewrite bind_exit_eq by (apply run_command_fail; [exact H1 | exact Hr1]).
  cbn [st_world st_trace app]. reflexivity.
Qed.

(** *** The trace only grows *)

Lemma grows_bind {A B} (m : M Ext A) (k : A -> M Ext B) :
  grows m -> (forall a, grows (k a)) -> grows (bind m k).
Proof.
  intros Hm Hk s. unfold bind. destruct (Hm s) as [e1 H1].
  destruct (m s) as [[a|c|] s1]; cbn [snd] in *.
  - destruct (Hk a s1) as [e2 H2]. exists (e1 ++ e2).
    rewrite H2, H1, app_assoc. reflexivity.
  - exists e1. exact H1.
  - exists e1. exact H1.
Qed.

Lemma grows_ret {A} (a : A) : grows (@ret Ext A a).
Proof. intros s. exists []. rewrite app_nil_r. reflexivity. Qed.

Lemma grows_exit {A} c : grows (@sys_exit Ext A c).
Proof. intros s. exists []. rewrite app_nil_r. reflexivity. Qed.

Lemma grows_emit e : grows (@emit Ext e).
Proof. intros s. exists [e]. reflexivity. Qed.

Lemma grows_now : grows (now clock).
Proof. intros s. exists []. rewrite app_nil_r. reflexivity. Qed.

Lemma grows_path_exists p : grows (@path_exists Ext p).
Proof. intros s. exists []. rewrite app_nil_r. reflexivity. Qed.

Lemma grows_remove_file p : grows (@remove_file Ext p).
Proof.
  intros s. unfold remove_file. destruct (files (st_world s) p).
  - exists [Remove p]. reflexivity.
  - exists []. rewrite app_nil_r. reflexivity.
Qed.

Lemma grows_subprocess_run cmd : grows (subprocess_run shell cmd).
Proof.
  intros s. unfold subprocess_run. destruct (shell (st_world s) cmd).
  exists [Run cmd]. reflexivity.
Qed.

Lemma grows_run_command cmd em : grows (run_command Ext shell cmd em).
Proof.
  unfold run_command. apply grows_bind; [apply grows_subprocess_run|].
  intros r. destruct (returncode r =? 0)%Z; [apply grows_ret|].
  apply grows_bind; [|intros; apply grows_exit].
  destruct (truthy em); [|apply grows_ret].
  unfold print. repeat (apply grows_bind; [apply grows_emit | intros _]).
  apply grows_emit.
Qed.

Lemma grows_push remote branch :
  grows (push_to_github Ext shell remote branch).
Proof.
  unfold push_to_github, print.
  apply grows_bind; [apply grows_emit | intros _].
  apply grows_bind; [apply grows_run_command | intros _; apply grows_ret].
Qed.

Lemma bind_extends {A B} (m : M Ext A) (k : A -> M Ext B) s T :
  (exists evs, st_trace (snd (m s)) = T ++ evs) ->
  (forall a, grows (k a)) ->
  exists evs, st_trace (snd (bind m k s)) = T ++ evs.
Proof.
  intros [e1 H1] Hk. unfold bind.
  destruct (m s) as [[a|c|] s1]; cbn [snd] in *; eauto.
  destruct (Hk a s1) as [e2 H2]. exists (e1 ++ e2).
  rewrite H2, H1, app_assoc. reflexivity.
Qed.

Lemma create_commit_writes version changes (s : state Ext) :
  isdir (st_world s) COMMIT_MSG_FILE = false ->
  exists evs,
    st_trace (snd (create_commit Ext clock shell version changes s))
    = (st_trace s
       ++ [Print msg_committing;
           Write COMMIT_MSG_FILE (message_in clock (st_world s) version changes)])
      ++ evs.
Proof.
  intros Hd. unfold create_commit.
  unfold print at 1. unfold emit, bind at 1.
  unfold now at 1. unfold bind at 1. cbn [st_world st_trace].
  unfold write_file at 1. unfold bind at 1. cbn [st_world st_trace].
  rewrite Hd.
  match goal with
  | |- context [snd (bind ?m ?k ?s0)] =>
      assert (G : grows (bind m k)); [|destruct (G s0) as [evs Hevs]]
  end.
  - apply grows_bind; [apply grows_run_command | intros _].
    apply grows_bind; [apply grows_path_exists | intros e].
    destruct e; [apply grows_remove_file | apply grows_ret].
  - exists evs. rewrite Hevs. cbn [st_trace]. unfold message_in.
    rewrite <- !app_assoc. reflexivity.
Qed.

(** Once the stage command has succeeded, the commit message is written,
    whatever happens next. *)
Lemma main_writes_message remote branch (w w1 w2 w3 : world Ext) r1 r2 r3 :
  staged shell w w1 w2 w3 r1 r2 r3 ->
  exists evs,
    st_trace (snd (run (main Ext clock shell find_sections remote branch) w))
    = (before_commit clock w w2 r1
       ++ [Print msg_committing;
           Write COMMIT_MSG_FILE
             (message_in clock w3 (version_of_output (strip (stdout r1)))
                (changes_text find_sections w2))])
      ++ evs.
Proof.
  intros Hst.
  rewrite (main_staged remote branch w w1 w2 w3 r1 r2 r3 Hst).
  destruct Hst as (_ & _ & _ & Hd3).
  unfold finish. apply bind_extends.
  - apply (create_commit_writes _ _ (mkState w3 _) Hd3).
  - intros _. apply grows_bind; [apply grows_push | intros _].
    apply grows_bind; [apply grows_now | intros d'].
    unfold print. apply grows_bind; [apply grows_emit | intros _].
    apply grows_emit.
Qed.

End Facts.
End GithubFacts.

(** ** Facts about backup_script.py *)

Module BackupFacts.
Import BackupScript BackupSpec.

Section Facts.

Variable Ext : Type.
Variable clock : world Ext -> datetime.
Variable shell : world Ext -> text -> CmdResult * world Ext.

Lemma backup_command_ok command (s : state Ext) r w' :
  shell (st_world s) command = (r, w') ->
  returncode r = 0%Z ->
  run_command Ext shell command s
  = (Ret true, mkState w' (st_trace s ++ [Print (msg_exec command);
                                          Run command;
                                          Print (msg_ok (stdout r))])).
Proof.
  intros H Hr. unfold run_command, bind, print, emit, subprocess_run.
  cbn [st_world st_trace]. rewrite H, Hr. cbn [Z.eqb st_world st_trace].
  unfold ret. rewrite <- !app_assoc. reflexivity.
Qed.

Lemma backup_command_fail command (s : state Ext) r w' :
  shell (st_world s) command = (r, w') ->
  returncode r <> 0%Z ->
  run_command Ext shell command s
  = (Ret false,
     mkState w' (st_trace s ++ [Print (msg_exec command); Run command;
                                PrintErr (msg_cmd_error command);
                                PrintErr (msg_code (returncode r));
                                PrintErr (msg_stderr (stderr r));
                                PrintErr (msg_stdout (stdout r))])).
Proof.
  intros H Hr. unfold run_command, bind, print, eprint, emit, subprocess_run.
  cbn [st_world st_trace]. rewrite H. apply Z.eqb_neq in Hr. rewrite Hr.
  cbn [st_world st_trace]. unfold ret. rewrite <- !app_assoc. reflexivity.
Qed.

Lemma backup_clean (w w0 w1 w2 w3 : world Ext) r0 r1 r2 r3 :
  shell w cmd_version = (r0, w0) ->
  returncode r0 = 0%Z ->
  shell w0 cmd_rev_parse = (r1, w1) ->
  returncode r1 = 0%Z ->
  shell w1 cmd_add = (r2, w2) ->
  returncode r2 = 0%Z ->
  shell w2 cmd_status = (r3, w3) ->
  strip (stdout r3) = [] ->
  run (main Ext clock shell) w
  = (Ret tt, mkState w3 (prologue r0 r1 r2
                         ++ [Print msg_clean; Print msg_no_change])).
Proof.
  intros H0 Hr0 H1 Hr1 H2 Hr2 H3 Hclean.
  unfold run, main.
  unfold subprocess_run at 1. unfold bind at 1. cbn [st_world st_trace].
  rewrite H0, Hr0. cbn [Z.eqb].
  unfold print at 1. unfold emit, bind at 1. cbn [st_world st_trace].
  unfold backup_and_commit.
  unfold print at 1. unfold emit, bind at 1. cbn [st_world st_trace].
  erewrite bind_ret_eq by (apply backup_command_ok; [exact H1 | exact Hr1]).
  cbn [negb].
  unfold print at 1. unfold emit, bind at 1. cbn [st_world st_trace].
  erewrite bind_ret_eq by (apply backup_command_ok; [exact H2 | exact Hr2]).
  cbn [negb].
  unfold print at 1. unfold emit, bind at 1. cbn [st_world st_trace].
  unfold subprocess_run at 1. unfold bind at 1. cbn [st_world st_trace].
  rewrite H3. rewrite Hclean.
  unfold print, emit, bind. cbn [st_world st_trace].
  unfold prologue. rewrite <- !app_assoc. cbn [app]. reflexivity.
Qed.

End Facts.
End BackupFacts.

(** ** Facts about the matcher *)

Module ReFacts.
Import ReSpec.

Lemma span_spec cls s racc :
  exists run rest,
    span cls s racc = (rev run ++ racc, rest)
    /\ s = run ++ rest
    /\ forallb cls run = true
    /\ stops cls rest = true.
Proof.
  revert racc. induction s as [|c s IH]; intros racc; simpl.
  - exists [], []. repeat split.
  - destruct (cls c) eqn:Hc.
    + destruct (IH (c :: racc)) as (run & rest & H1 & H2 & H3 & H4).
      exists (c :: run), rest. simpl. rewrite H1, <- app_assoc, Hc, H3.
      subst s. repeat split. assumption.
    + exists [], (c :: s). simpl. rewrite Hc. repeat split.
Qed.

Lemma span_exact cls run rest racc :
  forallb cls run = true ->
  stops cls rest = true ->
  span cls (run ++ rest) racc = (rev run ++ racc, rest).
Proof.
  revert racc. induction run as [|c run IH]; intros racc Hrun Hstop; simpl.
  - destruct rest as [|c rest]; simpl in *; [reflexivity|].
    apply negb_true_iff in Hstop. rewrite Hstop. reflexivity.
  - simpl in Hrun. apply andb_true_iff in Hrun as [Hc Hrun].
    rewrite Hc, IH by assumption. rewrite <- app_assoc. reflexivity.
Qed.

(** A successful [backoff] kept a non-empty part of the run and gave the
    rest back to the continuation. *)
Lemma backoff_spec k rtaken rest q ps r :
  backoff k rtaken rest = Some (q :: ps, r) ->
  exists back,
    rev rtaken = q ++ back /\ q <> [] /\ k (back ++ rest) = Some (ps, r).
Proof.
  revert rest. induction rtaken as [|c rt IH]; intros rest H; simpl in H.
  - discriminate.
  - destruct (k rest) as [[ps' r']|] eqn:Hk.
    + injection H as <- <- <-. exists []. rewrite app_nil_r. simpl.
      repeat split; [|assumption].
      intros E. apply app_eq_nil in E as [_ E]. discriminate.
    + apply IH in H as (back & H1 & H2 & H3).
      exists (back ++ [c]). simpl. rewrite H1, <- !app_assoc. simpl.
      repeat split; assumption.
Qed.

Lemma backoff_shape k rtaken rest ps r :
  backoff k rtaken rest = Some (ps, r) -> exists q ps', ps = q :: ps'.
Proof.
  revert rest. induction rtaken as [|c rt IH]; intros rest H; simpl in H.
  - discriminate.
  - destruct (k rest) as [[ps' r']|].
    + injection H as <- <-. eauto.
    + eapply IH; eassumption.
Qed.

Lemma backoff_first k rtaken rest ps r :
  rtaken <> [] ->
  k rest = Some (ps, r) ->
  backoff k rtaken rest = Some (rev rtaken :: ps, r).
Proof.
  intros Hne Hk. destruct rtaken as [|c rt]; [congruence|].
  simpl. rewrite Hk. reflexivity.
Qed.

Lemma forallb_app_l {A} (f : A -> bool) (a b : list A) :
  forallb f (a ++ b) = true -> forallb f a = true.
Proof. rewrite forallb_app. intros H. apply andb_true_iff in H. tauto. Qed.

(** A match splits the text into the pieces of the items and the rest. *)
Lemma match_here_sound p s ps r :
  match_here p s = Some (ps, r) ->
  s = List.concat ps ++ r /\ Forall2 piece_ok p ps.
Proof.
  revert s ps r. induction p as [|it p IH]; intros s ps r H; simpl in H.
  - injection H as <- <-. split; [reflexivity | constructor].
  - destruct it as [c|cls].
    + destruct s as [|x s]; [discriminate|].
      destruct (N.eqb_spec x c) as [->|]; [|discriminate].
      destruct (match_here p s) as [[ps' r']|] eqn:Hm; [|discriminate].
      injection H as <- <-. apply IH in Hm as [-> HF].
      split; [reflexivity | constructor; [reflexivity | assumption]].
    + destruct (span_spec cls s []) as (run & rest & Hs & -> & Hrun & _).
      rewrite Hs, app_nil_r in H.
      destruct (backoff_shape _ _ _ _ _ H) as (q & ps' & ->).
      apply backoff_spec in H as (back & Hq & Hne & Hk).
      rewrite rev_involutive in Hq. subst run.
      apply IH in Hk as [Hk HF]. split.
      * simpl. rewrite <- !app_assoc. f_equal. exact Hk.
      * constructor; [|assumption]. split; [assumption|].
        eapply forallb_app_l; eassumption.
Qed.

(** *** Matches do not cross a character the pattern rejects *)

Lemma span_local cls x l tail racc :
  cls x = false ->
  span cls (l ++ x :: tail) racc
  = let (rt, r0) := span cls l racc in (rt, r0 ++ x :: tail).
Proof.
  intros Hx. revert racc. induction l as [|c l IH]; intros racc; simpl.
  - rewrite Hx. reflexivity.
  - destruct (cls c); [apply IH | reflexivity].
Qed.

Lemma backoff_local (k1 k2 : text -> option result) tail rt r0 :
  (forall l, k1 (l ++ tail) = lift tail (k2 l)) ->
  backoff k1 rt (r0 ++ tail) = lift tail (backoff k2 rt r0).
Proof.
  intros Hk. revert r0. induction rt as [|c rt IH]; intros r0; simpl.
  - reflexivity.
  - rewrite Hk. destruct (k2 r0) as [[ps r]|]; simpl; [reflexivity|].
    apply (IH (c :: r0)).
Qed.

Lemma match_here_local x p l tail :
  rejects x p = true ->
  match_here p (l ++ x :: tail) = lift (x :: tail) (match_here p l).
Proof.
  revert l. induction p as [|it p IH]; intros l Hrej; simpl.
  - reflexivity.
  - simpl in Hrej. apply andb_true_iff in Hrej as [Hit Hrej].
    destruct it as [c|cls].
    + apply negb_true_iff, N.eqb_neq in Hit.
      destruct l as [|y l]; simpl.
      * destruct (N.eqb_spec x c); [congruence | reflexivity].
      * destruct (y =? c); [|reflexivity].
        rewrite IH by assumption.
        destruct (match_here p l) as [[ps r]|]; reflexivity.
    + apply negb_true_iff in Hit. rewrite span_local by assumption.
      destruct (span cls l []) as [rt r0].
      apply backoff_local. intros l'. apply IH. assumption.
Qed.

Lemma match_here_length p s ps r :
  match_here p s = Some (ps, r) ->
  List.length s = (List.length (List.concat ps) + List.length r)%nat.
Proof.
  intros H. apply match_here_sound in H as [-> _].
  apply length_app.
Qed.

(** [sub] works on each side of a rejected character separately. *)
Lemma sub_from_local x p repl skip l tail :
  rejects x p = true ->
  (skip <= List.length l)%nat ->
  sub_from p repl skip (l ++ x :: tail)
  = sub_from p repl skip l ++ x :: sub_from p repl O tail.
Proof.
  intros Hrej. revert skip. induction l as [|c l IH]; intros skip Hskip.
  - simpl in Hskip. assert (skip = O) by lia. subst skip.
    cbn [app sub_from].
    pose proof (match_here_local x p [] tail Hrej) as E.
    cbn [app] in E. rewrite E. clear E.
    destruct (match_here p []) as [[ps r]|] eqn:Hm; cbn [lift]; [|reflexivity].
    apply match_here_length in Hm. simpl in Hm.
    unfold matched. cbn [fst].
    destruct (List.concat ps); [reflexivity | simpl in Hm; lia].
  - cbn [app sub_from]. destruct skip as [|k].
    + change (c :: l ++ x :: tail) with ((c :: l) ++ x :: tail).
      rewrite (match_here_local x p (c :: l) tail Hrej).
      destruct (match_here p (c :: l)) as [[ps r]|] eqn:Hm; cbn [lift].
      * apply match_here_length in Hm. unfold matched. cbn [fst].
        destruct (List.length (List.concat ps)) as [|k] eqn:Hlen.
        -- rewrite IH by lia. rewrite <- app_assoc. reflexivity.
        -- rewrite IH by (simpl in Hm; lia). rewrite <- app_assoc.
           reflexivity.
      * rewrite IH by lia. reflexivity.
    + rewrite IH by (simpl in Hskip; lia). reflexivity.
Qed.

(** Where the pattern matches nowhere, [sub] changes nothing. *)
Lemma search_none_here p s :
  search p s = None -> match_here p s = None.
Proof.
  destruct s; simpl; destruct (match_here p _); congruence.
Qed.

Lemma sub_no_match p repl s :
  search p s = None -> sub p repl s = s.
Proof.
  unfold sub. induction s as [|c s IH]; intros H.
  - apply search_none_here in H. simpl. rewrite H. reflexivity.
  - pose proof (search_none_here _ _ H) as Hm.
    cbn [sub_from]. rewrite Hm. f_equal. apply IH.
    simpl in H. rewrite Hm in H. exact H.
Qed.

(** *** Patterns that start with a character found nowhere else in them *)

Lemma sub_from_skip p repl a b :
  sub_from p repl (List.length a) (a ++ b) = sub_from p repl O b.
Proof.
  induction a as [|c a IH]; [reflexivity|].
  cbn [List.length app sub_from]. exact IH.
Qed.

(** At a match, [sub] puts the replacement and goes on after the match. *)
Lemma sub_at_match p repl s r :
  match_here p s = Some r ->
  matched r <> [] ->
  sub p repl s = repl ++ sub p repl (snd r).
Proof.
  intros Hm Hne. destruct r as [ps rest].
  pose proof (match_here_sound _ _ _ _ Hm) as [Hs _].
  unfold matched in *. cbn [fst snd] in *.
  destruct (List.concat ps) as [|c m] eqn:Hc; [congruence|].
  subst s. unfold sub. cbn [app sub_from].
  change (c :: m ++ rest) with ((c :: m) ++ rest) in Hm.
  cbn [app] in Hm. rewrite Hm. unfold matched. cbn [fst]. rewrite Hc.
  cbn [List.length]. rewrite sub_from_skip. reflexivity.
Qed.

Lemma sub_from_anchor h tl repl skip pre t :
  rejects h tl = true ->
  (skip <= List.length pre)%nat ->
  sub_from (Chr h :: tl) repl skip (pre ++ h :: t)
  = sub_from (Chr h :: tl) repl skip pre
    ++ sub_from (Chr h :: tl) repl O (h :: t).
Proof.
  intros Hrej. revert skip. induction pre as [|c pre IH]; intros skip Hskip.
  - simpl in Hskip. assert (skip = O) by lia. subst skip. reflexivity.
  - destruct skip as [|k].
    + cbn [app]. 
      assert (E : match_here (Chr h :: tl) (c :: pre ++ h :: t)
                  = lift (h :: t) (match_here (Chr h :: tl) (c :: pre))).
      { cbn [match_here]. destruct (c =? h); [|reflexivity].
        rewrite (match_here_local h tl pre t Hrej).
        destruct (match_here tl pre) as [[ps r]|]; reflexivity. }
      cbn [sub_from]. rewrite E.
      destruct (match_here (Chr h :: tl) (c :: pre)) as [[ps r]|] eqn:Hm;
        cbn [lift].
      * apply match_here_length in Hm. unfold matched. cbn [fst].
        destruct (List.length (List.concat ps)) as [|k].
        -- rewrite IH by lia. rewrite <- app_assoc. reflexivity.
        -- rewrite IH by (simpl in Hm; lia). rewrite <- app_assoc.
           reflexivity.
      * rewrite IH by lia. reflexivity.
    + cbn [app sub_from]. apply IH. simpl in Hskip. lia.
Qed.

Lemma anchored_match_nonempty p s r :
  anchored p = true -> match_here p s = Some r -> matched r <> [].
Proof.
  intros Ha Hm. destruct p as [|[h|cls] tl]; try discriminate.
  destruct r as [ps rest]. apply match_here_sound in Hm as [_ HF].
  inversion HF as [|it piece p' ps' Hpiece HF' E1 E2]; subst.
  simpl in Hpiece. subst piece. unfold matched. simpl. discriminate.
Qed.

Lemma anchored_match_head p s r :
  anchored p = true -> match_here p s = Some r ->
  exists h tl t, p = Chr h :: tl /\ rejects h tl = true /\ s = h :: t.
Proof.
  intros Ha Hm. destruct p as [|[h|cls] tl]; try discriminate.
  exists h, tl. simpl in Hm. destruct s as [|x s]; [discriminate|].
  destruct (N.eqb_spec x h) as [->|]; [|discriminate].
  exists s. repeat split. exact Ha.
Qed.

(** Every occurrence of an anchored pattern is replaced, wherever it is:
    the text before it and the text after it are rewritten on their own. *)
Lemma sub_occurrence p repl pre s r :
  anchored p = true ->
  match_here p s = Some r ->
  sub p repl (pre ++ s) = sub p repl pre ++ repl ++ sub p repl (snd r).
Proof.
  intros Ha Hm.
  destruct (anchored_match_head _ _ _ Ha Hm) as (h & tl & t & -> & Hrej & ->).
  unfold sub at 1 2. rewrite sub_from_anchor by (assumption || lia).
  f_equal. apply (sub_at_match _ _ _ _ Hm).
  eapply anchored_match_nonempty; eassumption.
Qed.

End ReFacts.

(** ** Facts about texts and numbers *)

Module TextFacts.
Import LineSpec.

Lemma decimal_ascii d : d < 10 -> decimal (48 + d) = Some d.
Proof.
  intros H. unfold decimal, nd_zeros. cbn [decimal_in].
  replace (48 <=? 48 + d) with true by (symmetry; apply N.leb_le; lia).
  replace (48 + d <? 48 + 10) with true by (symmetry; apply N.ltb_lt; lia).
  cbn [andb]. f_equal. lia.
Qed.

Lemma str_fuel_app fuel n acc :
  str_fuel fuel n acc = str_fuel fuel n [] ++ acc.
Proof.
  revert n acc. induction fuel as [|f IH]; intros n acc; cbn [str_fuel].
  - reflexivity.
  - destruct (n <? 10); [reflexivity|].
    rewrite IH. rewrite (IH _ [_]). rewrite <- app_assoc. reflexivity.
Qed.

Lemma str_fuel_forall (P : char -> bool) fuel n :
  (forall d, d < 10 -> P (48 + d) = true) ->
  forallb P (str_fuel fuel n []) = true.
Proof.
  intros HP. revert n. induction fuel as [|f IH]; intros n;
    cbn [str_fuel forallb].
  - rewrite HP by (apply N.mod_lt; lia). reflexivity.
  - destruct (n <? 10).
    + cbn [forallb]. rewrite HP by (apply N.mod_lt; lia). reflexivity.
    + rewrite str_fuel_app, forallb_app, IH. cbn [forallb].
      rewrite HP by (apply N.mod_lt; lia). reflexivity.
Qed.

Lemma str_forall (P : char -> bool) n :
  (forall d, d < 10 -> P (48 + d) = true) -> forallb P (str n) = true.
Proof. apply str_fuel_forall. Qed.

Lemma str_fuel_nonempty fuel n : str_fuel fuel n [] <> [].
Proof.
  destruct fuel as [|f]; cbn [str_fuel]; [discriminate|].
  destruct (n <? 10); [discriminate|].
  rewrite str_fuel_app. intros E. apply app_eq_nil in E as [_ E].
  discriminate.
Qed.

Lemma str_nonempty n : str n <> [].
Proof. apply str_fuel_nonempty. Qed.





Lemma is_digit_ascii d : d < 10 -> is_digit (48 + d) = true.
Proof. intros H. unfold is_digit. rewrite decimal_ascii by assumption. reflexivity. Qed.

Lemma str_is_digit n : forallb is_digit (str n) = true.
Proof. apply str_forall, is_digit_ascii. Qed.

Lemma str_no_nl n : no_nl (str n) = true.
Proof.
  apply str_forall. intros d Hd. apply negb_true_iff, N.eqb_neq.
  unfold NL. lia.
Qed.

End TextFacts.

(** ** Lines *)

Module LineFacts.
Import ReSpec LineSpec ReFacts TextFacts.

Lemma no_nl_app a b : no_nl (a ++ b) = no_nl a && no_nl b.
Proof. apply forallb_app. Qed.

Lemma split_lines_acc_line cur l :
  no_nl l = true -> split_lines_acc cur l = [rev cur ++ l].
Proof.
  revert cur. induction l as [|c l IH]; intros cur H; simpl.
  - rewrite app_nil_r. reflexivity.
  - simpl in H. apply andb_true_iff in H as [Hc Hl].
    apply negb_true_iff in Hc. rewrite Hc, IH by assumption.
    simpl. rewrite <- app_assoc. reflexivity.
Qed.

Lemma split_lines_acc_cons cur l rest :
  no_nl l = true ->
  split_lines_acc cur (l ++ NL :: rest) = (rev cur ++ l) :: split_lines rest.
Proof.
  revert cur. induction l as [|c l IH]; intros cur H; simpl.
  - rewrite ?N.eqb_refl, app_nil_r. reflexivity.
  - simpl in H. apply andb_true_iff in H as [Hc Hl].
    apply negb_true_iff in Hc. rewrite Hc, IH by assumption.
    simpl. rewrite <- app_assoc. reflexivity.
Qed.

Lemma split_lines_line l : no_nl l = true -> split_lines l = [l].
Proof. apply (split_lines_acc_line []). Qed.

Lemma split_lines_cons l rest :
  no_nl l = true -> split_lines (l ++ NL :: rest) = l :: split_lines rest.
Proof. apply (split_lines_acc_cons []). Qed.

(** A text is a line, or a line, a newline and a text. *)
Lemma line_ind (P : text -> Prop) :
  (forall l, no_nl l = true -> P l) ->
  (forall l rest, no_nl l = true -> P rest -> P (l ++ NL :: rest)) ->
  forall s, P s.
Proof.
  intros Hline Hcons s.
  enough (H : forall pre, no_nl pre = true -> P (pre ++ s))
    by (apply (H [] eq_refl)).
  induction s as [|c s IH]; intros pre Hpre.
  - rewrite app_nil_r. apply Hline, Hpre.
  - destruct (N.eqb_spec c NL) as [->|Hc].
    + apply Hcons; [exact Hpre | apply (IH [] eq_refl)].
    + replace (pre ++ c :: s) with ((pre ++ [c]) ++ s)
        by (rewrite <- app_assoc; reflexivity).
      apply IH. rewrite no_nl_app, Hpre. simpl.
      apply N.eqb_neq in Hc. rewrite Hc. reflexivity.
Qed.

Lemma sub_from_no_nl p repl skip l :
  no_nl repl = true -> no_nl l = true ->
  no_nl (sub_from p repl skip l) = true.
Proof.
  intros Hr. revert skip. induction l as [|c l IH]; intros skip Hl.
  - simpl. destruct skip, (match_here p []); auto.
  - simpl in Hl. apply andb_true_iff in Hl as [Hc Hl]. cbn [sub_from].
    destruct skip as [|k]; [|apply IH, Hl].
    destruct (match_here p (c :: l)) as [r|].
    + destruct (List.length (matched r)).
      * rewrite no_nl_app, Hr. simpl. rewrite Hc. apply IH, Hl.
      * rewrite no_nl_app, Hr. apply IH, Hl.
    + simpl. rewrite Hc. apply IH, Hl.
Qed.

(** [re.sub] rewrites each line on its own when neither the pattern nor
    the replacement has a newline. *)
Lemma split_lines_sub p repl s :
  rejects NL p = true -> no_nl repl = true ->
  split_lines (sub p repl s) = map (sub p repl) (split_lines s).
Proof.
  intros Hp Hr. induction s as [l Hl | l rest Hl IH] using line_ind.
  - rewrite (split_lines_line l Hl). simpl.
    apply split_lines_line, sub_from_no_nl; assumption.
  - rewrite (split_lines_cons l rest Hl). simpl.
    unfold sub at 1. rewrite sub_from_local by (assumption || lia).
    rewrite split_lines_cons by (apply sub_from_no_nl; assumption).
    f_equal. exact IH.
Qed.

End LineFacts.

(** ** Facts about script/update_version.py *)

Module PatchFacts.
Import UpdateVersion ReSpec LineSpec PatchSpec ReFacts TextFacts LineFacts.

Lemma substitutions_patterns v today :
  map fst (substitutions v today) = recognized_patterns.
Proof. reflexivity. Qed.

Lemma recognized_reject_nl :
  forallb (rejects NL) recognized_patterns = true.
Proof. vm_compute. reflexivity. Qed.

Lemma no_nl_new_int name n :
  no_nl (lit name) = true -> no_nl (new_int name n) = true.
Proof.
  intros H. unfold new_int.
  rewrite !no_nl_app, H. change (SPACE :: str n) with ([SPACE] ++ str n).
  rewrite no_nl_app, str_no_nl. reflexivity.
Qed.

Lemma no_nl_new_quoted name value :
  no_nl (lit name) = true -> no_nl value = true ->
  no_nl (new_quoted name value) = true.
Proof.
  intros H Hv. unfold new_quoted.
  rewrite !no_nl_app, H.
  change (SPACE :: QUOTE :: value ++ [QUOTE])
    with ([SPACE; QUOTE] ++ value ++ [QUOTE]).
  rewrite !no_nl_app, Hv. reflexivity.
Qed.

Lemma no_nl_version_string v : no_nl (version_string v) = true.
Proof.
  unfold version_string.
  change (118 :: str (major v) ++ DOT :: str (minor v) ++ DOT
            :: str (patch v) ++ DOT :: str (build v))
    with ([118] ++ str (major v) ++ [DOT] ++ str (minor v) ++ [DOT]
            ++ str (patch v) ++ [DOT] ++ str (build v)).
  rewrite !no_nl_app, !str_no_nl. reflexivity.
Qed.

Lemma no_nl_pad2 n : no_nl (pad2 n) = true.
Proof.
  unfold pad2. destruct (n <? 10); [|apply str_no_nl].
  change (48 :: str n) with ([48] ++ str n).
  rewrite no_nl_app, str_no_nl. reflexivity.
Qed.

Lemma no_nl_strftime_dmy d : no_nl (strftime_dmy d) = true.
Proof.
  unfold strftime_dmy.
  change (pad2 (day d) ++ SLASH :: pad2 (month d) ++ SLASH :: str (year d))
    with (pad2 (day d) ++ [SLASH] ++ pad2 (month d) ++ [SLASH]
            ++ str (year d)).
  rewrite !no_nl_app, !no_nl_pad2, str_no_nl. reflexivity.
Qed.

Lemma substitutions_no_nl v today :
  no_nl today = true ->
  forallb (fun pr => no_nl (snd pr)) (substitutions v today) = true.
Proof.
  intros H. unfold substitutions. cbn [forallb snd].
  rewrite !no_nl_new_int by reflexivity.
  rewrite !no_nl_new_quoted
    by (reflexivity || assumption || apply no_nl_version_string).
  reflexivity.
Qed.

(** Successive substitutions, each safe for lines, act line by line. *)
Lemma split_lines_fold (subs : list (pattern * text)) s :
  forallb (rejects NL) (map fst subs) = true ->
  forallb (fun pr => no_nl (snd pr)) subs = true ->
  split_lines (fold_left (fun c pr => sub (fst pr) (snd pr) c) subs s)
  = map (fold_left (fun c pr => sub (fst pr) (snd pr) c) subs)
        (split_lines s).
Proof.
  revert s. induction subs as [|[p r] subs IH]; intros s Hp Hr.
  - simpl. rewrite map_id. reflexivity.
  - simpl in Hp, Hr. apply andb_true_iff in Hp as [Hp Hps].
    apply andb_true_iff in Hr as [Hr Hrs].
    cbn [fold_left fst snd]. rewrite IH by assumption.
    rewrite split_lines_sub by assumption.
    rewrite map_map. reflexivity.
Qed.


(** The patcher works line by line and leaves a line without any
    recognized definition as it is. *)
Lemma split_lines_patch v today s :
  no_nl today = true ->
  split_lines (patch_config v today s)
  = map (patch_config v today) (split_lines s).
Proof.
  intros H. unfold patch_config. apply split_lines_fold.
  - rewrite substitutions_patterns. apply recognized_reject_nl.
  - apply substitutions_no_nl, H.
Qed.


Section Facts.

Variable Ext : Type.
Variable clock : world Ext -> datetime.

(** The text [update_config_version] leaves in the artifact. *)
Lemma update_config_version_ok v (s : state Ext) content :
  files (st_world s) CONFIG_PATH = Some content ->
  isdir (st_world s) CONFIG_PATH = false ->
  let today := strftime_dmy (clock (st_world s)) in
  let out := patch_config v today content in
  update_config_version Ext clock v s
  = (Ret true,
     mkState (set_file (st_world s) CONFIG_PATH (Some out))
             (st_trace s ++ [Read CONFIG_PATH; Write CONFIG_PATH out;
                             Print (msg_updated (version_string v));
                             Print (msg_date today)])).
Proof.
  intros Hf Hd today out. unfold update_config_version.
  unfold path_exists, bind at 1. rewrite Hf. cbn [negb].
  unfold read_file, bind at 1. rewrite Hf.
  unfold now, bind at 1. cbn [st_world st_trace].
  unfold write_file, bind at 1. cbn [st_world st_trace]. rewrite Hd.
  unfold print, emit, bind, ret. cbn [st_world st_trace].
  rewrite <- !app_assoc. reflexivity.
Qed.

End Facts.
End PatchFacts.

(** ** Version tokens *)

Module VersionFacts.
Import UpdateVersion ReSpec VersionSpec ReFacts TextFacts.

Lemma match_chr c p s ps r :
  match_here p s = Some (ps, r) ->
  match_here (Chr c :: p) (c :: s) = Some ([c] :: ps, r).
Proof. intros H. simpl. rewrite N.eqb_refl, H. reflexivity. Qed.

Lemma match_plus cls p run rest ps r :
  run <> [] -> forallb cls run = true -> stops cls rest = true ->
  match_here p rest = Some (ps, r) ->
  match_here (Plus cls :: p) (run ++ rest) = Some (run :: ps, r).
Proof.
  intros Hne Hrun Hstop Hm. cbn [match_here].
  rewrite span_exact, app_nil_r by assumption.
  rewrite (backoff_first _ _ _ ps r); [rewrite rev_involutive; reflexivity | | exact Hm].
  intros E. apply Hne. rewrite <- (rev_involutive run), E. reflexivity.
Qed.

(** The pattern matches a token that no digit follows, group by group. *)
Lemma match_token d1 d2 d3 d4 post :
  digits d1 -> digits d2 -> digits d3 -> digits d4 ->
  stops is_digit post = true ->
  match_here version_pattern (token d1 d2 d3 d4 ++ post)
  = Some ([[118]; d1; [DOT]; d2; [DOT]; d3; [DOT]; d4], post).
Proof.
  intros [N1 D1] [N2 D2] [N3 D3] [N4 D4] Hpost.
  unfold version_pattern, token. cbn [app].
  repeat (rewrite <- !app_assoc; cbn [app]).
  apply match_chr.
  apply match_plus; [assumption | assumption | reflexivity |].
  apply match_chr.
  apply match_plus; [assumption | assumption | reflexivity |].
  apply match_chr.
  apply match_plus; [assumption | assumption | reflexivity |].
  apply match_chr.
  apply match_plus; [assumption | assumption | assumption |].
  reflexivity.
Qed.

(** Whatever the pattern matches is a token. *)
Lemma match_is_token s ps r :
  match_here version_pattern s = Some (ps, r) ->
  exists d1 d2 d3 d4,
    digits d1 /\ digits d2 /\ digits d3 /\ digits d4
    /\ ps = [[118]; d1; [DOT]; d2; [DOT]; d3; [DOT]; d4]
    /\ s = token d1 d2 d3 d4 ++ r.
Proof.
  intros H. apply match_here_sound in H as [Hs HF].
  unfold version_pattern in HF.
  repeat match goal with
         | H : Forall2 _ (_ :: _) _ |- _ => inversion H; clear H; subst
         | H : Forall2 _ [] _ |- _ => inversion H; clear H; subst
         end.
  repeat match goal with
         | H : piece_ok (Chr _) _ |- _ => simpl in H; subst
         | H : piece_ok (Plus _) _ |- _ => simpl in H
         end.
  do 4 eexists. repeat split; try eassumption;
    try (match goal with H : _ /\ _ |- _ => apply H end).
  all: try reflexivity.
  unfold token. simpl. rewrite <- !app_assoc. simpl.
  rewrite <- !app_assoc. simpl. rewrite <- !app_assoc. simpl.
  rewrite app_nil_r. reflexivity.
Qed.

(** [findall] starts with the leftmost match. *)
Lemma findall_leftmost p pre s r :
  (forall n, (n < List.length pre)%nat ->
             match_here p (skipn n (pre ++ s)) = None) ->
  match_here p s = Some r ->
  exists more, findall p (pre ++ s) = fst r :: more.
Proof.
  unfold findall. induction pre as [|c pre IH]; intros Hnone Hm.
  - cbn [app]. destruct s as [|c s]; cbn [findall_from]; rewrite Hm; eauto.
  - cbn [app findall_from].
    pose proof (Hnone O ltac:(simpl; lia)) as H0. cbn [skipn app] in H0.
    rewrite H0. apply IH; [|exact Hm].
    intros n Hn. apply (Hnone (S n)). simpl. lia.
Qed.

Lemma findall_none p s :
  (forall n, (n <= List.length s)%nat -> match_here p (skipn n s) = None) ->
  findall p s = [].
Proof.
  unfold findall. induction s as [|c s IH]; intros Hnone.
  - pose proof (Hnone O (Nat.le_refl _)) as H0. cbn [skipn] in H0.
    cbn [findall_from]. rewrite H0. reflexivity.
  - pose proof (Hnone O ltac:(simpl; lia)) as H0. cbn [skipn] in H0.
    cbn [findall_from]. rewrite H0.
    apply IH. intros n Hn. apply (Hnone (S n)). simpl. lia.
Qed.

Lemma no_token_no_match content n :
  ~ token_at content n -> match_here version_pattern (skipn n content) = None.
Proof.
  intros Hno.
  destruct (match_here version_pattern (skipn n content)) as [[ps r]|] eqn:Hm;
    [|reflexivity].
  exfalso. apply Hno.
  apply match_is_token in Hm as (d1 & d2 & d3 & d4 & H1 & H2 & H3 & H4 & _ & E).
  exists d1, d2, d3, d4, r. repeat split; solve [apply H1 | apply H2 | apply H3 | apply H4 | exact E].
Qed.

Lemma int_acc_digits s a :
  forallb is_digit s = true -> exists b, int_acc a s = Some b.
Proof.
  revert a. induction s as [|c s IH]; intros a H; simpl.
  - eauto.
  - simpl in H. apply andb_true_iff in H as [Hc Hs].
    unfold is_digit in Hc. destruct (decimal c); [|discriminate].
    apply IH, Hs.
Qed.

Lemma int_digits s : digits s -> exists a, int s = Some a.
Proof.
  intros [Hne Hd]. unfold int. destruct s as [|c s]; [congruence|].
  apply int_acc_digits, Hd.
Qed.

Lemma skipn_app_exact {A} (a b : list A) : skipn (List.length a) (a ++ b) = b.
Proof. induction a; simpl; auto. Qed.

(** The version of the first token of a text. *)
Lemma first_version_token pre d1 d2 d3 d4 post :
  digits d1 -> digits d2 -> digits d3 -> digits d4 ->
  stops is_digit post = true ->
  (forall n, (n < List.length pre)%nat ->
             ~ token_at (pre ++ token d1 d2 d3 d4 ++ post) n) ->
  exists a b c d,
    int d1 = Some a /\ int d2 = Some b /\ int d3 = Some c /\ int d4 = Some d
    /\ first_version (pre ++ token d1 d2 d3 d4 ++ post)
       = Some (Some (mkVersion a b c d)).
Proof.
  intros H1 H2 H3 H4 Hpost Hfirst.
  destruct (int_digits _ H1) as [a Ha], (int_digits _ H2) as [b Hb],
    (int_digits _ H3) as [c Hc], (int_digits _ H4) as [d Hd].
  exists a, b, c, d. repeat (split; [assumption|]).
  pose proof (match_token d1 d2 d3 d4 post H1 H2 H3 H4 Hpost) as Hm.
  destruct (findall_leftmost version_pattern pre _ _
              (fun n Hn => no_token_no_match _ n (Hfirst n Hn)) Hm)
    as [more E].
  unfold first_version. rewrite E. cbn [fst version_of_groups].
  rewrite Ha, Hb, Hc, Hd. reflexivity.
Qed.

Lemma first_version_none content :
  (forall n, ~ token_at content n) -> first_version content = None.
Proof.
  intros Hno. unfold first_version. rewrite findall_none; [reflexivity|].
  intros n _. apply no_token_no_match, Hno.
Qed.



Lemma stops_app cls a b :
  a <> [] -> stops cls a = true -> stops cls (a ++ b) = true.
Proof. destruct a; [congruence | auto]. Qed.

(** The pattern matches wherever a token starts. *)
Lemma token_at_match content n :
  token_at content n ->
  exists r, match_here version_pattern (skipn n content) = Some r.
Proof.
  intros (d1 & d2 & d3 & d4 & post & H1 & H2 & H3 & [N4 D4] & E).
  destruct (span_spec is_digit post []) as (run & rest & _ & -> & Hrun & Hstop).
  rewrite E.
  replace (token d1 d2 d3 d4 ++ run ++ rest)
    with (token d1 d2 d3 (d4 ++ run) ++ rest).
  - eexists. apply match_token; try assumption. split.
    + intros F. apply app_eq_nil in F as [F _]. congruence.
    + rewrite forallb_app, D4, Hrun. reflexivity.
  - unfold token. cbn [app].
    repeat (rewrite <- !app_assoc; cbn [app]). reflexivity.
Qed.

Lemma no_match_no_token content n :
  match_here version_pattern (skipn n content) = None -> ~ token_at content n.
Proof.
  intros Hm Ht. apply token_at_match in Ht as [r Hr]. congruence.
Qed.


Lemma match_free_no_token content k :
  match_free_before content k = true ->
  forall n, (n < k)%nat -> ~ token_at content n.
Proof.
  unfold match_free_before. rewrite forallb_forall. intros H n Hn.
  apply no_match_no_token.
  specialize (H n ltac:(apply in_seq; lia)).
  destruct (match_here version_pattern (skipn n content));
    [discriminate | reflexivity].
Qed.

Lemma match_free_whole content :
  match_free_before content (S (List.length content)) = true ->
  forall n, ~ token_at content n.
Proof.
  intros H n. destruct (Nat.lt_ge_cases n (S (List.length content))) as [Hn|Hn].
  - apply (match_free_no_token _ _ H n Hn).
  - apply no_match_no_token.
    rewrite skipn_all2 by lia.
    pose proof (match_free_no_token _ _ H (List.length content)
                  ltac:(lia)) as Hlast.
    destruct (match_here version_pattern []) as [r|] eqn:E; [|reflexivity].
    discriminate E.
Qed.
Section Facts.

Variable Ext : Type.
Variable clock : world Ext -> datetime.

Lemma extract_version_found (s : state Ext) content v :
  files (st_world s) CHANGELOG_PATH = Some content ->
  first_version content = Some (Some v) ->
  extract_version_from_changelog Ext s
  = (Ret (Some v), mkState (st_world s) (st_trace s ++ [Read CHANGELOG_PATH])).
Proof.
  intros Hf Hv. unfold extract_version_from_changelog.
  unfold path_exists, bind at 1. rewrite Hf. cbn [negb].
  unfold read_file, bind. rewrite Hf, Hv. reflexivity.
Qed.

Lemma extract_version_none (s : state Ext) content :
  files (st_world s) CHANGELOG_PATH = Some content ->
  first_version content = None ->
  extract_version_from_changelog Ext s
  = (Ret None, mkState (st_world s)
                 (st_trace s ++ [Read CHANGELOG_PATH; Print msg_no_version])).
Proof.
  intros Hf Hv. unfold extract_version_from_changelog.
  unfold path_exists, bind at 1. rewrite Hf. cbn [negb].
  unfold read_file, bind. rewrite Hf, Hv.
  unfold print, emit, ret. cbn [st_world st_trace].
  rewrite <- app_assoc. reflexivity.
Qed.

Lemma main_no_version (w : world Ext) content :
  files w CHANGELOG_PATH = Some content ->
  first_version content = None ->
  run (main Ext clock) w
  = (Exit 1, mkState w [Print msg_start; Read CHANGELOG_PATH;
                        Print msg_no_version; Print msg_cannot_continue]).
Proof.
  intros Hf Hv. unfold run, main.
  unfold print at 1. unfold emit, bind at 1. cbn [st_world st_trace app].
  erewrite bind_ret_eq by (eapply extract_version_none; eassumption).
  reflexivity.
Qed.

End Facts.

End VersionFacts.

(** * Properties of the version synchronizer *)

Import UpdateVersion ReSpec LineSpec PatchSpec VersionSpec.


(** C3, as the code has it.  Each of the six substitutions of the patcher
    replaces every occurrence of its pattern: wherever the pattern matches,
    the match becomes the new definition, and the text before and the text
    after the match are rewritten in the same way. *)
Theorem every_occurrence_is_replaced (v : version) (today : text)
    (p : pattern) (repl pre s : text) (r : result) :
  In (p, repl) (substitutions v today) ->
  match_here p s = Some r ->
  sub p repl (pre ++ s) = sub p repl pre ++ repl ++ sub p repl (snd r).
Proof.
  intros Hin Hm. apply ReFacts.sub_occurrence; [|exact Hm].
  assert (Hall : forallb anchored recognized_patterns = true)
    by (vm_compute; reflexivity).
  rewrite forallb_forall in Hall. apply Hall.
  rewrite <- (PatchFacts.substitutions_patterns v today).
  apply (in_map fst _ _ Hin).
Qed.

Lemma every_occurrence_is_replaced_witness :
  sub (define_int "VERSION_MAJOR") (new_int "VERSION_MAJOR" 2)
      (lit "#define VERSION_MAJOR 1" ++ NL :: lit "#define VERSION_MAJOR 1")
  = sub (define_int "VERSION_MAJOR") (new_int "VERSION_MAJOR" 2)
        (lit "#define VERSION_MAJOR 1" ++ [NL])
    ++ new_int "VERSION_MAJOR" 2
    ++ sub (define_int "VERSION_MAJOR") (new_int "VERSION_MAJOR" 2) [].
Proof.
  apply (every_occurrence_is_replaced (mkVersion 2 0 0 5) (lit "04/11/2026")
           (define_int "VERSION_MAJOR") (new_int "VERSION_MAJOR" 2)
           (lit "#define VERSION_MAJOR 1" ++ [NL])
           (lit "#define VERSION_MAJOR 1")
           ([[35]; [100]; [101]; [102]; [105]; [110]; [101]; [32]; [86];
             [69]; [82]; [83]; [73]; [79]; [78]; [95]; [77]; [65]; [74];
             [79]; [82]; [32]; [49]], [])).
  - left. reflexivity.
  - vm_compute. reflexivity.
Defined.

(** C3, as stated, fails: the second of two [VERSION_MAJOR] definitions is
    rewritten as well as the first. *)
Lemma later_occurrence_is_replaced :
  patch_config (mkVersion 2 0 0 5) (lit "04/11/2026")
    (lit "#define VERSION_MAJOR 1" ++ NL :: lit "#define VERSION_MAJOR 1")
  = lit "#define VERSION_MAJOR 2" ++ NL :: lit "#define VERSION_MAJOR 2".
Proof. vm_compute. reflexivity. Qed.

Lemma text_eqb_refl (t : text) : Text.eqb t t = true.
Proof. induction t as [|c t IH]; simpl; [reflexivity|]. rewrite N.eqb_refl. exact IH. Qed.

Lemma files_set_file {Ext} (w : world Ext) p c :
  files (set_file w p c) p = c.
Proof. simpl. rewrite text_eqb_refl. reflexivity. Qed.



(** C8.  Version extraction returns the version of the first token of the
    changelog, in document order: when the text is [pre], then a token
    ["v" d1 "." d2 "." d3 "." d4] that no digit follows, then [post], and
    no token starts inside [pre], the result is the four numbers
    [int d1 .. int d4]. *)
Theorem extraction_returns_first_token (Ext : Type) (w : world Ext)
    (pre d1 d2 d3 d4 post : text) :
  digits d1 -> digits d2 -> digits d3 -> digits d4 ->
  stops is_digit post = true ->
  (forall n, (n < List.length pre)%nat ->
             ~ token_at (pre ++ token d1 d2 d3 d4 ++ post) n) ->
  files w CHANGELOG_PATH = Some (pre ++ token d1 d2 d3 d4 ++ post) ->
  exists a b c d,
    int d1 = Some a /\ int d2 = Some b /\ int d3 = Some c /\ int d4 = Some d
    /\ fst (extract_version_from_changelog Ext (mkState w []))
       = Ret (Some (mkVersion a b c d)).
Proof.
  intros H1 H2 H3 H4 Hpost Hfirst Hf.
  destruct (VersionFacts.first_version_token pre d1 d2 d3 d4 post
              H1 H2 H3 H4 Hpost Hfirst)
    as (a & b & c & d & Ha & Hb & Hc & Hd & E).
  exists a, b, c, d. repeat (split; [assumption|]).
  rewrite (VersionFacts.extract_version_found Ext (mkState w []) _ _ Hf E).
  reflexivity.
Qed.

(** C5.  When the changelog holds no version token, extraction returns
    nothing and the synchronizer exits with code 1; it has neither read nor
    written the config artifact, and the files are as they were. *)
Theorem no_version_fails_before_config (Ext : Type)
    (clock : world Ext -> datetime) (w : world Ext) (content : text) :
  files w CHANGELOG_PATH = Some content ->
  (forall n, ~ token_at content n) ->
  fst (extract_version_from_changelog Ext (mkState w [])) = Ret None
  /\ fst (run (main Ext clock) w) = Exit 1
  /\ exit_code (fst (run (main Ext clock) w)) = 1%Z
  /\ existsb (Text.eqb CONFIG_PATH)
       (touched (st_trace (snd (run (main Ext clock) w)))) = false
  /\ st_world (snd (run (main Ext clock) w)) = w.
Proof.
  intros Hf Hno.
  pose proof (VersionFacts.first_version_none content Hno) as Hv.
  rewrite (VersionFacts.extract_version_none Ext (mkState w []) content Hf Hv).
  rewrite (VersionFacts.main_no_version Ext clock w content Hf Hv).
  repeat split.
Qed.

Lemma extraction_returns_first_token_witness :
  (exists a b c d,
     int (lit "2") = Some a /\ int (lit "0") = Some b
     /\ int (lit "0") = Some c /\ int (lit "5") = Some d
     /\ fst (extract_version_from_changelog unit
               (mkState (Fixtures.repo
                           [(CHANGELOG_PATH, Fixtures.changelog_two)]) []))
        = Ret (Some (mkVersion a b c d)))
  /\ fst (extract_version_from_changelog unit
            (mkState (Fixtures.repo
                        [(CHANGELOG_PATH, Fixtures.changelog_two)]) []))
     = Ret (Some (mkVersion 2 0 0 5)).
Proof.
  split.
  - apply (extraction_returns_first_token unit
             (Fixtures.repo [(CHANGELOG_PATH, Fixtures.changelog_two)])
             (lit "## 2024-01-01" ++ NL :: lit "release ")
             (lit "2") (lit "0") (lit "0") (lit "5")
             (NL :: lit "## 2023-12-01" ++ NL :: lit "release v1.9.0.2")).
    + split; [discriminate | reflexivity].
    + split; [discriminate | reflexivity].
    + split; [discriminate | reflexivity].
    + split; [discriminate | reflexivity].
    + reflexivity.
    + apply VersionFacts.match_free_no_token. vm_compute. reflexivity.
    + vm_compute. reflexivity.
  - vm_compute. reflexivity.
Defined.

Lemma no_version_fails_before_config_witness :
  fst (extract_version_from_changelog unit
         (mkState (Fixtures.repo
                     [(CHANGELOG_PATH, Fixtures.changelog_none);
                      (CONFIG_PATH, Fixtures.config_h)]) []))
  = Ret None
  /\ fst (run (main unit Fixtures.clock0)
            (Fixtures.repo [(CHANGELOG_PATH, Fixtures.changelog_none);
                            (CONFIG_PATH, Fixtures.config_h)]))
     = Exit 1
  /\ exit_code (fst (run (main unit Fixtures.clock0)
                       (Fixtures.repo
                          [(CHANGELOG_PATH, Fixtures.changelog_none);
                           (CONFIG_PATH, Fixtures.config_h)])))
     = 1%Z
  /\ existsb (Text.eqb CONFIG_PATH)
       (touched (st_trace (snd (run (main unit Fixtures.clock0)
                                  (Fixtures.repo
                                     [(CHANGELOG_PATH, Fixtures.changelog_none);
                                      (CONFIG_PATH, Fixtures.config_h)])))))
     = false
  /\ st_world (snd (run (main unit Fixtures.clock0)
                      (Fixtures.repo
                         [(CHANGELOG_PATH, Fixtures.changelog_none);
                          (CONFIG_PATH, Fixtures.config_h)])))
     = Fixtures.repo [(CHANGELOG_PATH, Fixtures.changelog_none);
                      (CONFIG_PATH, Fixtures.config_h)].
Proof.
  apply (no_version_fails_before_config unit Fixtures.clock0
           (Fixtures.repo [(CHANGELOG_PATH, Fixtures.changelog_none);
                           (CONFIG_PATH, Fixtures.config_h)])
           Fixtures.changelog_none).
  - vm_compute. reflexivity.
  - apply VersionFacts.match_free_whole. vm_compute. reflexivity.
Defined.

(** * Properties of the backup orchestrator *)

Import GithubSpec.

(** C7.  In a run of [github_backup.main] that reaches the commit command
    and in which that command exits non-zero, the process exits with code 1
    and no push command is issued: the commands of the run are the
    synchronizer, the status query, the stage command and the commit
    command. *)
Theorem failed_commit_stops_before_push (Ext : Type)
    (clock : world Ext -> datetime)
    (shell : world Ext -> text -> CmdResult * world Ext)
    (find_sections : text -> list (text * text * text))
    (remote branch : text) (w w1 w2 w3 w4 : world Ext)
    (r1 r2 r3 r4 : CmdResult) :
  staged shell w w1 w2 w3 r1 r2 r3 ->
  shell (with_message clock w3 (version_of_output (strip (stdout r1)))
           (changes_text find_sections w2)) GithubBackup.cmd_commit
  = (r4, w4) ->
  returncode r4 <> 0%Z ->
  fst (run (GithubBackup.main Ext clock shell find_sections remote branch) w)
  = Exit 1
  /\ exit_code
       (fst (run (GithubBackup.main Ext clock shell find_sections
                    remote branch) w)) = 1%Z
  /\ commands
       (st_trace
          (snd (run (GithubBackup.main Ext clock shell find_sections
                       remote branch) w)))
     = [GithubBackup.cmd_update_version; GithubBackup.cmd_status;
        GithubBackup.cmd_add; GithubBackup.cmd_commit]
  /\ existsb is_push
       (commands
          (st_trace
             (snd (run (GithubBackup.main Ext clock shell find_sections
                          remote branch) w)))) = false.
Proof.
  intros Hst H4 Hr4.
  rewrite (GithubFacts.main_commit_fail Ext clock shell find_sections
             remote branch w w1 w2 w3 w4 r1 r2 r3 r4 Hst H4 Hr4).
  cbn [fst snd st_trace exit_code].
  rewrite !commands_app, GithubFacts.commands_before_commit,
    GithubFacts.commands_report.
  repeat split.
Qed.

Lemma failed_commit_stops_before_push_witness :
  fst (run (GithubBackup.main unit Fixtures.clock0
              (Fixtures.shell_of
                 [(GithubBackup.cmd_status, Fixtures.dirty);
                  (GithubBackup.cmd_commit, Fixtures.failure)])
              Fixtures.no_sections (lit "origin") (lit "main"))
         (Fixtures.repo []))
  = Exit 1
  /\ exit_code
       (fst (run (GithubBackup.main unit Fixtures.clock0
                    (Fixtures.shell_of
                       [(GithubBackup.cmd_status, Fixtures.dirty);
                        (GithubBackup.cmd_commit, Fixtures.failure)])
                    Fixtures.no_sections (lit "origin") (lit "main"))
               (Fixtures.repo []))) = 1%Z
  /\ commands
       (st_trace
          (snd (run (GithubBackup.main unit Fixtures.clock0
                       (Fixtures.shell_of
                          [(GithubBackup.cmd_status, Fixtures.dirty);
                           (GithubBackup.cmd_commit, Fixtures.failure)])
                       Fixtures.no_sections (lit "origin") (lit "main"))
                  (Fixtures.repo []))))
     = [GithubBackup.cmd_update_version; GithubBackup.cmd_status;
        GithubBackup.cmd_add; GithubBackup.cmd_commit]
  /\ existsb is_push
       (commands
          (st_trace
             (snd (run (GithubBackup.main unit Fixtures.clock0
                          (Fixtures.shell_of
                             [(GithubBackup.cmd_status, Fixtures.dirty);
                              (GithubBackup.cmd_commit, Fixtures.failure)])
                          Fixtures.no_sections (lit "origin") (lit "main"))
                     (Fixtures.repo []))))) = false.
Proof.
  apply (failed_commit_stops_before_push unit Fixtures.clock0
           (Fixtures.shell_of
              [(GithubBackup.cmd_status, Fixtures.dirty);
               (GithubBackup.cmd_commit, Fixtures.failure)])
           Fixtures.no_sections (lit "origin") (lit "main")
           (Fixtures.repo []) (Fixtures.repo []) (Fixtures.repo [])
           (Fixtures.repo [])
           (with_message Fixtures.clock0 (Fixtures.repo [])
              GithubBackup.UNKNOWN_VERSION GithubBackup.NO_DETAILS)
           (mkResult 0 [] []) Fixtures.dirty (mkResult 0 [] [])
           Fixtures.failure).
  - unfold staged, dirty_tree.
    repeat split; try (vm_compute; reflexivity); vm_compute; discriminate.
  - vm_compute. reflexivity.
  - vm_compute. discriminate.
Defined.

(** C4, where the code departs from it.  In a run of [github_backup.main]
    whose commit command exits non-zero and leaves the message file alone,
    the run ends with exit code 1 while [.git_commit_msg.tmp] still exists
    and still holds the commit message: [run_command] exits the process
    before [create_commit] reaches its clean-up. *)
Theorem failed_commit_leaves_message_file (Ext : Type)
    (clock : world Ext -> datetime)
    (shell : world Ext -> text -> CmdResult * world Ext)
    (find_sections : text -> list (text * text * text))
    (remote branch : text) (w w1 w2 w3 w4 : world Ext)
    (r1 r2 r3 r4 : CmdResult) :
  staged shell w w1 w2 w3 r1 r2 r3 ->
  shell (with_message clock w3 (version_of_output (strip (stdout r1)))
           (changes_text find_sections w2)) GithubBackup.cmd_commit
  = (r4, w4) ->
  returncode r4 <> 0%Z ->
  files w4 GithubBackup.COMMIT_MSG_FILE
  = files (with_message clock w3 (version_of_output (strip (stdout r1)))
             (changes_text find_sections w2)) GithubBackup.COMMIT_MSG_FILE ->
  fst (run (GithubBackup.main Ext clock shell find_sections remote branch) w)
  = Exit 1
  /\ files
       (st_world
          (snd (run (GithubBackup.main Ext clock shell find_sections
                       remote branch) w)))
       GithubBackup.COMMIT_MSG_FILE
     = Some (message_in clock w3 (version_of_output (strip (stdout r1)))
               (changes_text find_sections w2))
  /\ existsb (fun e => match e with Remove _ => true | _ => false end)
       (st_trace
          (snd (run (GithubBackup.main Ext clock shell find_sections
                       remote branch) w))) = false.
Proof.
  intros Hst H4 Hr4 Hkeep.
  rewrite (GithubFacts.main_commit_fail Ext clock shell find_sections
             remote branch w w1 w2 w3 w4 r1 r2 r3 r4 Hst H4 Hr4).
  cbn [fst snd st_world st_trace]. split; [reflexivity|]. split.
  - rewrite Hkeep. unfold with_message. apply files_set_file.
  - unfold before_commit, before_stage, prologue, commit_events,
      warning_of_output, changes_events, report.
    rewrite !existsb_app.
    destruct (search GithubBackup.updated_pattern (strip (stdout r1)));
      destruct (files w2 GithubBackup.CHANGELOG_PATH); reflexivity.
Qed.

Lemma failed_commit_leaves_message_file_witness :
  fst (run (GithubBackup.main unit Fixtures.clock0
              (Fixtures.shell_of
                 [(GithubBackup.cmd_status, Fixtures.dirty);
                  (GithubBackup.cmd_commit, Fixtures.failure)])
              Fixtures.no_sections (lit "origin") (lit "main"))
         (Fixtures.repo []))
  = Exit 1
  /\ files
       (st_world
          (snd (run (GithubBackup.main unit Fixtures.clock0
                       (Fixtures.shell_of
                          [(GithubBackup.cmd_status, Fixtures.dirty);
                           (GithubBackup.cmd_commit, Fixtures.failure)])
                       Fixtures.no_sections (lit "origin") (lit "main"))
                  (Fixtures.repo []))))
       GithubBackup.COMMIT_MSG_FILE
     = Some (message_in Fixtures.clock0 (Fixtures.repo [])
               (version_of_output (strip (stdout (mkResult 0 [] []))))
               (changes_text Fixtures.no_sections (Fixtures.repo [])))
  /\ existsb (fun e => match e with Remove _ => true | _ => false end)
       (st_trace
          (snd (run (GithubBackup.main unit Fixtures.clock0
                       (Fixtures.shell_of
                          [(GithubBackup.cmd_status, Fixtures.dirty);
                           (GithubBackup.cmd_commit, Fixtures.failure)])
                       Fixtures.no_sections (lit "origin") (lit "main"))
                  (Fixtures.repo [])))) = false.
Proof.
  apply (failed_commit_leaves_message_file unit Fixtures.clock0
           (Fixtures.shell_of
              [(GithubBackup.cmd_status, Fixtures.dirty);
               (GithubBackup.cmd_commit, Fixtures.failure)])
           Fixtures.no_sections (lit "origin") (lit "main")
           (Fixtures.repo []) (Fixtures.repo []) (Fixtures.repo [])
           (Fixtures.repo [])
           (with_message Fixtures.clock0 (Fixtures.repo [])
              GithubBackup.UNKNOWN_VERSION GithubBackup.NO_DETAILS)
           (mkResult 0 [] []) Fixtures.dirty (mkResult 0 [] [])
           Fixtures.failure).
  - unfold staged, dirty_tree.
    repeat split; try (vm_compute; reflexivity); vm_compute; discriminate.
  - vm_compute. reflexivity.
  - vm_compute. discriminate.
  - vm_compute. reflexivity.
Defined.

(** C6, where the code departs from it.  When the status query of
    [github_backup.main] exits non-zero, the run ends with exit code 1 and
    the failing command is the last event of its trace: nothing is printed
    about the failure, and the trace does not depend on what the command
    wrote to its error stream. *)
Theorem failed_status_query_is_silent (Ext : Type)
    (clock : world Ext -> datetime)
    (shell : world Ext -> text -> CmdResult * world Ext)
    (find_sections : text -> list (text * text * text))
    (remote branch : text) (w w1 w2 : world Ext) (r1 r2 : CmdResult) :
  isdir w (lit ".git") = true ->
  shell w GithubBackup.cmd_update_version = (r1, w1) ->
  returncode r1 = 0%Z ->
  shell w1 GithubBackup.cmd_status = (r2, w2) ->
  returncode r2 <> 0%Z ->
  fst (run (GithubBackup.main Ext clock shell find_sections remote branch) w)
  = Exit 1
  /\ st_trace
       (snd (run (GithubBackup.main Ext clock shell find_sections
                    remote branch) w))
     = prologue clock w r1 ++ [Run GithubBackup.cmd_status]
  /\ printed
       (st_trace
          (snd (run (GithubBackup.main Ext clock shell find_sections
                       remote branch) w)))
     = printed (prologue clock w r1).
Proof.
  intros Hgit H1 Hr1 H2 Hr2.
  rewrite (GithubFacts.main_status_fail Ext clock shell find_sections
             remote branch w w1 w2 r1 r2 Hgit H1 Hr1 H2 Hr2).
  cbn [fst snd st_trace]. rewrite printed_app. cbn [printed].
  rewrite app_nil_r. repeat split.
Qed.

Lemma failed_status_query_is_silent_witness :
  fst (run (GithubBackup.main unit Fixtures.clock0
              (Fixtures.shell_of [(GithubBackup.cmd_status, Fixtures.failure)])
              Fixtures.no_sections (lit "origin") (lit "main"))
         (Fixtures.repo []))
  = Exit 1
  /\ st_trace
       (snd (run (GithubBackup.main unit Fixtures.clock0
                    (Fixtures.shell_of
                       [(GithubBackup.cmd_status, Fixtures.failure)])
                    Fixtures.no_sections (lit "origin") (lit "main"))
               (Fixtures.repo [])))
     = prologue Fixtures.clock0 (Fixtures.repo []) (mkResult 0 [] [])
       ++ [Run GithubBackup.cmd_status]
  /\ printed
       (st_trace
          (snd (run (GithubBackup.main unit Fixtures.clock0
                       (Fixtures.shell_of
                          [(GithubBackup.cmd_status, Fixtures.failure)])
                       Fixtures.no_sections (lit "origin") (lit "main"))
                  (Fixtures.repo []))))
     = printed (prologue Fixtures.clock0 (Fixtures.repo []) (mkResult 0 [] [])).
Proof.
  apply (failed_status_query_is_silent unit Fixtures.clock0
           (Fixtures.shell_of [(GithubBackup.cmd_status, Fixtures.failure)])
           Fixtures.no_sections (lit "origin") (lit "main")
           (Fixtures.repo []) (Fixtures.repo []) (Fixtures.repo [])
           (mkResult 0 [] []) Fixtures.failure).
  - vm_compute. reflexivity.
  - vm_compute. reflexivity.
  - reflexivity.
  - vm_compute. reflexivity.
  - vm_compute. discriminate.
Defined.

Lemma no_nl_strftime_iso d : no_nl (strftime_iso d) = true.
Proof.
  unfold strftime_iso.
  change (str (year d) ++ DASH :: pad2 (month d) ++ DASH :: pad2 (day d))
    with (str (year d) ++ [DASH] ++ pad2 (month d) ++ [DASH] ++ pad2 (day d)).
  rewrite !LineFacts.no_nl_app, !PatchFacts.no_nl_pad2, TextFacts.str_no_nl.
  reflexivity.
Qed.

Lemma first_line_of_message version today changes :
  no_nl version = true -> no_nl today = true ->
  hd [] (split_lines (GithubBackup.commit_message version today changes))
  = lit "Version " ++ version ++ lit " - " ++ today.
Proof.
  intros Hv Ht. unfold GithubBackup.commit_message.
  replace (lit "Version " ++ version ++ lit " - " ++ today ++ NL :: NL :: changes)
    with ((lit "Version " ++ version ++ lit " - " ++ today)
            ++ NL :: NL :: changes)
    by (rewrite <- !app_assoc; reflexivity).
  rewrite LineFacts.split_lines_cons; [reflexivity|].
  rewrite !LineFacts.no_nl_app, Hv, Ht. reflexivity.
Qed.

(** C10.  [update_version] takes the version from the captured output of
    the synchronizer.  In a run whose synchronizer exits with code 0 but
    whose output has no match of ["Version mise à jour à v..."],
    [update_version] returns ["version inconnue"] instead of failing, and
    when the run goes on to the commit stage the message file it writes
    begins with the line ["Version version inconnue - <date>"]. *)
Theorem missing_phrase_falls_back (Ext : Type)
    (clock : world Ext -> datetime)
    (shell : world Ext -> text -> CmdResult * world Ext)
    (find_sections : text -> list (text * text * text))
    (remote branch : text) (w w1 w2 w3 : world Ext)
    (r1 r2 r3 : CmdResult) :
  staged shell w w1 w2 w3 r1 r2 r3 ->
  search GithubBackup.updated_pattern (strip (stdout r1)) = None ->
  (forall tr,
     fst (GithubBackup.update_version Ext shell (mkState w tr))
     = Ret GithubBackup.UNKNOWN_VERSION)
  /\ (exists evs,
        st_trace
          (snd (run (GithubBackup.main Ext clock shell find_sections
                       remote branch) w))
        = (before_commit clock w w2 r1
           ++ [Print GithubBackup.msg_committing;
               Write GithubBackup.COMMIT_MSG_FILE
                 (GithubBackup.commit_message GithubBackup.UNKNOWN_VERSION
                    (strftime_iso (clock w3))
                    (changes_text find_sections w2))])
          ++ evs)
  /\ hd [] (split_lines
              (GithubBackup.commit_message GithubBackup.UNKNOWN_VERSION
                 (strftime_iso (clock w3)) (changes_text find_sections w2)))
     = lit "Version version inconnue - " ++ strftime_iso (clock w3).
Proof.
  intros Hst Hnone.
  assert (Hv : version_of_output (strip (stdout r1))
               = GithubBackup.UNKNOWN_VERSION)
    by (unfold version_of_output; rewrite Hnone; reflexivity).
  split; [|split].
  - intros tr. destruct Hst as ((_ & H1 & Hr1 & _) & _).
    rewrite (GithubFacts.update_version_ok Ext shell (mkState w tr) r1 w1
               H1 Hr1).
    cbn [fst]. rewrite Hv. reflexivity.
  - destruct (GithubFacts.main_writes_message Ext clock shell find_sections
                remote branch w w1 w2 w3 r1 r2 r3 Hst) as [evs Hevs].
    exists evs. rewrite Hevs. unfold message_in. rewrite Hv. reflexivity.
  - rewrite first_line_of_message
      by (reflexivity || apply no_nl_strftime_iso).
    reflexivity.
Qed.

Lemma missing_phrase_falls_back_witness :
  (forall tr,
     fst (GithubBackup.update_version unit
            (Fixtures.shell_of [(GithubBackup.cmd_status, Fixtures.dirty)])
            (mkState (Fixtures.repo []) tr))
     = Ret GithubBackup.UNKNOWN_VERSION)
  /\ (exists evs,
        st_trace
          (snd (run (GithubBackup.main unit Fixtures.clock0
                       (Fixtures.shell_of
                          [(GithubBackup.cmd_status, Fixtures.dirty)])
                       Fixtures.no_sections (lit "origin") (lit "main"))
                  (Fixtures.repo [])))
        = (before_commit Fixtures.clock0 (Fixtures.repo []) (Fixtures.repo [])
             (mkResult 0 [] [])
           ++ [Print GithubBackup.msg_committing;
               Write GithubBackup.COMMIT_MSG_FILE
                 (GithubBackup.commit_message GithubBackup.UNKNOWN_VERSION
                    (strftime_iso (Fixtures.clock0 (Fixtures.repo [])))
                    (changes_text Fixtures.no_sections (Fixtures.repo [])))])
          ++ evs)
  /\ hd [] (split_lines
              (GithubBackup.commit_message GithubBackup.UNKNOWN_VERSION
                 (strftime_iso (Fixtures.clock0 (Fixtures.repo [])))
                 (changes_text Fixtures.no_sections (Fixtures.repo []))))
     = lit "Version version inconnue - "
       ++ strftime_iso (Fixtures.clock0 (Fixtures.repo [])).
Proof.
  apply (missing_phrase_falls_back unit Fixtures.clock0
           (Fixtures.shell_of [(GithubBackup.cmd_status, Fixtures.dirty)])
           Fixtures.no_sections (lit "origin") (lit "main")
           (Fixtures.repo []) (Fixtures.repo []) (Fixtures.repo [])
           (Fixtures.repo [])
           (mkResult 0 [] []) Fixtures.dirty (mkResult 0 [] [])).
  - unfold staged, dirty_tree.
    repeat split; try (vm_compute; reflexivity); vm_compute; discriminate.
  - vm_compute. reflexivity.
Defined.

Lemma nothing_is_not_saved (v : text) :
  GithubBackup.msg_nothing <> GithubBackup.msg_saved v.
Proof.
  intros E. apply (f_equal (fun t => hd 0 t)) in E.
  vm_compute in E. discriminate.
Qed.

(** C1, as the code has it.  A run of [github_backup.main] whose status
    query reports a clean tree issues no stage, commit or push command and
    ends normally (exit code 0) on the message "Aucun changement à
    sauvegarder.", which no run that commits ends on.  A run of
    [backup_script] whose status query reports a clean tree has issued its
    stage command before the query; it issues no commit and no push
    command and ends normally on its own no-change message. *)
Theorem clean_tree_is_noop (Ext : Type)
    (clock : world Ext -> datetime)
    (shell : world Ext -> text -> CmdResult * world Ext)
    (find_sections : text -> list (text * text * text))
    (remote branch : text) :
  (forall (w w1 w2 : world Ext) (r1 r2 : CmdResult),
     isdir w (lit ".git") = true ->
     shell w GithubBackup.cmd_update_version = (r1, w1) ->
     returncode r1 = 0%Z ->
     shell w1 GithubBackup.cmd_status = (r2, w2) ->
     returncode r2 = 0%Z ->
     strip (stdout r2) = [] ->
     fst (run (GithubBackup.main Ext clock shell find_sections
                 remote branch) w) = Ret tt
     /\ exit_code
          (fst (run (GithubBackup.main Ext clock shell find_sections
                       remote branch) w)) = 0%Z
     /\ no_stage_commit_push
          (commands
             (st_trace
                (snd (run (GithubBackup.main Ext clock shell find_sections
                             remote branch) w)))) = true
     /\ last (printed
                (st_trace
                   (snd (run (GithubBackup.main Ext clock shell
                                find_sections remote branch) w)))) []
        = GithubBackup.msg_nothing
     /\ (forall v, GithubBackup.msg_nothing <> GithubBackup.msg_saved v))
  /\ (forall (w w0 w1 w2 w3 : world Ext) (r0 r1 r2 r3 : CmdResult),
        shell w BackupScript.cmd_version = (r0, w0) ->
        returncode r0 = 0%Z ->
        shell w0 BackupScript.cmd_rev_parse = (r1, w1) ->
        returncode r1 = 0%Z ->
        shell w1 BackupScript.cmd_add = (r2, w2) ->
        returncode r2 = 0%Z ->
        shell w2 BackupScript.cmd_status = (r3, w3) ->
        strip (stdout r3) = [] ->
        fst (run (BackupScript.main Ext clock shell) w) = Ret tt
        /\ commands (st_trace (snd (run (BackupScript.main Ext clock shell) w)))
           = [BackupScript.cmd_version; BackupScript.cmd_rev_parse;
              BackupScript.cmd_add; BackupScript.cmd_status]
        /\ no_commit_push
             (commands
                (st_trace (snd (run (BackupScript.main Ext clock shell) w))))
           = true
        /\ last (printed
                   (st_trace (snd (run (BackupScript.main Ext clock shell) w))))
                []
           = BackupScript.msg_no_change).
Proof.
  split.
  - intros w w1 w2 r1 r2 Hgit H1 Hr1 H2 Hr2 Hclean.
    rewrite (GithubFacts.main_clean Ext clock shell find_sections remote
               branch w w1 w2 r1 r2 Hgit H1 Hr1 H2 Hr2 Hclean).
    cbn [fst snd st_trace exit_code].
    rewrite commands_app, GithubFacts.commands_prologue.
    change [Run GithubBackup.cmd_status; Print GithubBackup.msg_nothing]
      with ([Run GithubBackup.cmd_status] ++ [Print GithubBackup.msg_nothing]).
    rewrite app_assoc, printed_app. cbn [printed].
    rewrite last_last.
    repeat split. apply nothing_is_not_saved.
  - intros w w0 w1 w2 w3 r0 r1 r2 r3 H0 Hr0 H1 Hr1 H2 Hr2 H3 Hclean.
    rewrite (BackupFacts.backup_clean Ext clock shell w w0 w1 w2 w3 r0 r1 r2 r3
               H0 Hr0 H1 Hr1 H2 Hr2 H3 Hclean).
    cbn [fst snd st_trace].
    unfold BackupSpec.prologue.
    repeat split.
Qed.

Lemma clean_tree_is_noop_witness :
  (fst (run (GithubBackup.main unit Fixtures.clock0 (Fixtures.shell_of [])
               Fixtures.no_sections (lit "origin") (lit "main"))
          (Fixtures.repo [])) = Ret tt
   /\ no_stage_commit_push
        (commands
           (st_trace
              (snd (run (GithubBackup.main unit Fixtures.clock0
                           (Fixtures.shell_of []) Fixtures.no_sections
                           (lit "origin") (lit "main"))
                      (Fixtures.repo []))))) = true)
  /\ (fst (run (BackupScript.main unit Fixtures.clock0 (Fixtures.shell_of []))
             (Fixtures.repo [])) = Ret tt
      /\ no_commit_push
           (commands
              (st_trace
                 (snd (run (BackupScript.main unit Fixtures.clock0
                              (Fixtures.shell_of []))
                         (Fixtures.repo []))))) = true).
Proof.
  destruct (clean_tree_is_noop unit Fixtures.clock0 (Fixtures.shell_of [])
              Fixtures.no_sections (lit "origin") (lit "main")) as [G B].
  split.
  - destruct (G (Fixtures.repo []) (Fixtures.repo []) (Fixtures.repo [])
                (mkResult 0 [] []) (mkResult 0 [] []))
      as (H1 & _ & H3 & _); try (vm_compute; reflexivity).
    split; [exact H1 | exact H3].
  - destruct (B (Fixtures.repo []) (Fixtures.repo []) (Fixtures.repo [])
                (Fixtures.repo []) (Fixtures.repo [])
                (mkResult 0 [] []) (mkResult 0 [] []) (mkResult 0 [] [])
                (mkResult 0 [] []))
      as (H1 & _ & H3 & _); try (vm_compute; reflexivity).
    split; [exact H1 | exact H3].
Defined.

(** C1, as stated, fails: in this run of [backup_script] the status query
    reports a clean tree, and the run has issued the stage command
    [git add .]. *)
Lemma clean_tree_run_has_staged :
  strip (stdout (fst (Fixtures.shell_of [] (Fixtures.repo [])
                        BackupScript.cmd_status))) = []
  /\ fst (run (BackupScript.main unit Fixtures.clock0 (Fixtures.shell_of []))
            (Fixtures.repo [])) = Ret tt
  /\ commands
       (st_trace
          (snd (run (BackupScript.main unit Fixtures.clock0
                       (Fixtures.shell_of []))
                  (Fixtures.repo []))))
     = [BackupScript.cmd_version; BackupScript.cmd_rev_parse;
        BackupScript.cmd_add; BackupScript.cmd_status]
  /\ no_stage_commit_push
       (commands
          (st_trace
             (snd (run (BackupScript.main unit Fixtures.clock0
                          (Fixtures.shell_of []))
                     (Fixtures.repo []))))) = false.
Proof. vm_compute. repeat split. Qed.

(** * Further properties of the version synchronizer *)

Module SyncFacts.

Section Facts.

Variable Ext : Type.
Variable clock : world Ext -> datetime.

Lemma extract_version_missing (s : state Ext) :
  files (st_world s) CHANGELOG_PATH = None ->
  isdir (st_world s) CHANGELOG_PATH = false ->
  extract_version_from_changelog Ext s
  = (Ret None, mkState (st_world s)
                 (st_trace s ++ [Print (msg_missing CHANGELOG_PATH)])).
Proof.
  intros Hf Hd. unfold extract_version_from_changelog.
  unfold path_exists, bind at 1. rewrite Hf, Hd. reflexivity.
Qed.

Lemma update_config_version_missing v (s : state Ext) :
  files (st_world s) CONFIG_PATH = None ->
  isdir (st_world s) CONFIG_PATH = false ->
  update_config_version Ext clock v s
  = (Ret false, mkState (st_world s)
                  (st_trace s ++ [Print (msg_missing CONFIG_PATH)])).
Proof.
  intros Hf Hd. unfold update_config_version.
  unfold path_exists, bind at 1. rewrite Hf, Hd. reflexivity.
Qed.

Lemma main_changelog_missing (w : world Ext) :
  files w CHANGELOG_PATH = None ->
  isdir w CHANGELOG_PATH = false ->
  run (main Ext clock) w
  = (Exit 1, mkState w [Print msg_start; Print (msg_missing CHANGELOG_PATH);
                        Print msg_cannot_continue]).
Proof.
  intros Hf Hd. unfold run, main.
  unfold print at 1. unfold emit, bind at 1. cbn [st_world st_trace app].
  erewrite bind_ret_eq
    by (apply extract_version_missing; [exact Hf | exact Hd]).
  reflexivity.
Qed.

Lemma main_config_missing (w : world Ext) changelog v :
  files w CHANGELOG_PATH = Some changelog ->
  first_version changelog = Some (Some v) ->
  files w CONFIG_PATH = None ->
  isdir w CONFIG_PATH = false ->
  run (main Ext clock) w
  = (Exit 1, mkState w [Print msg_start; Read CHANGELOG_PATH;
                        Print (msg_extracted (version_string v));
                        Print (msg_missing CONFIG_PATH);
                        Print msg_failed]).
Proof.
  intros Hl Hv Hf Hd. unfold run, main.
  unfold print at 1. unfold emit, bind at 1. cbn [st_world st_trace app].
  erewrite bind_ret_eq
    by (eapply VersionFacts.extract_version_found; [exact Hl | exact Hv]).
  unfold print at 1. unfold emit, bind at 1. cbn [st_world st_trace app].
  erewrite bind_ret_eq
    by (apply update_config_version_missing; [exact Hf | exact Hd]).
  reflexivity.
Qed.

Lemma main_synchronized (w : world Ext) changelog v content :
  files w CHANGELOG_PATH = Some changelog ->
  first_version changelog = Some (Some v) ->
  files w CONFIG_PATH = Some content ->
  isdir w CONFIG_PATH = false ->
  run (main Ext clock) w
  = (Ret tt,
     mkState (set_file w CONFIG_PATH
                (Some (patch_config v (strftime_dmy (clock w)) content)))
       [Print msg_start; Read CHANGELOG_PATH;
        Print (msg_extracted (version_string v));
        Read CONFIG_PATH;
        Write CONFIG_PATH (patch_config v (strftime_dmy (clock w)) content);
        Print (msg_updated (version_string v));
        Print (msg_date (strftime_dmy (clock w)));
        Print msg_success]).
Proof.
  intros Hl Hv Hf Hd. unfold run, main.
  unfold print at 1. unfold emit, bind at 1. cbn [st_world st_trace app].
  erewrite bind_ret_eq
    by (eapply VersionFacts.extract_version_found; [exact Hl | exact Hv]).
  unfold print at 1. unfold emit, bind at 1. cbn [st_world st_trace app].
  erewrite bind_ret_eq
    by (apply PatchFacts.update_config_version_ok; [exact Hf | exact Hd]).
  reflexivity.
Qed.

End Facts.
End SyncFacts.



(** Without a changelog file the synchronizer stops with exit code 1: it
    opens no file and leaves the world as it found it. *)
Theorem missing_changelog_stops_synchronizer (Ext : Type)
    (clock : world Ext -> datetime) (w : world Ext) :
  files w CHANGELOG_PATH = None ->
  isdir w CHANGELOG_PATH = false ->
  fst (extract_version_from_changelog Ext (mkState w [])) = Ret None
  /\ exit_code (fst (run (main Ext clock) w)) = 1%Z
  /\ touched (st_trace (snd (run (main Ext clock) w))) = []
  /\ st_world (snd (run (main Ext clock) w)) = w.
Proof.
  intros Hf Hd.
  rewrite (SyncFacts.extract_version_missing Ext (mkState w []) Hf Hd).
  rewrite (SyncFacts.main_changelog_missing Ext clock w Hf Hd).
  repeat split.
Qed.

Lemma missing_changelog_stops_synchronizer_witness :
  fst (extract_version_from_changelog unit (mkState (Fixtures.repo []) []))
  = Ret None
  /\ exit_code (fst (run (main unit Fixtures.clock0) (Fixtures.repo []))) = 1%Z
  /\ touched (st_trace (snd (run (main unit Fixtures.clock0)
                               (Fixtures.repo [])))) = []
  /\ st_world (snd (run (main unit Fixtures.clock0) (Fixtures.repo [])))
     = Fixtures.repo [].
Proof.
  apply (missing_changelog_stops_synchronizer unit Fixtures.clock0
           (Fixtures.repo [])); vm_compute; reflexivity.
Defined.

(** With a version in the changelog but no config artifact, the
    synchronizer exits with code 1 after reading the changelog only: no
    file is written and the world is unchanged. *)
Theorem missing_config_fails_synchronizer (Ext : Type)
    (clock : world Ext -> datetime) (w : world Ext)
    (changelog : text) (v : version) :
  files w CHANGELOG_PATH = Some changelog ->
  first_version changelog = Some (Some v) ->
  files w CONFIG_PATH = None ->
  isdir w CONFIG_PATH = false ->
  exit_code (fst (run (main Ext clock) w)) = 1%Z
  /\ touched (st_trace (snd (run (main Ext clock) w))) = [CHANGELOG_PATH]
  /\ last (printed (st_trace (snd (run (main Ext clock) w)))) [] = msg_failed
  /\ st_world (snd (run (main Ext clock) w)) = w.
Proof.
  intros Hl Hv Hf Hd.
  rewrite (SyncFacts.main_config_missing Ext clock w changelog v Hl Hv Hf Hd).
  repeat split.
Qed.

Lemma missing_config_fails_synchronizer_witness :
  exit_code (fst (run (main unit Fixtures.clock0)
                    (Fixtures.repo
                       [(CHANGELOG_PATH, Fixtures.changelog_two)]))) = 1%Z
  /\ touched (st_trace (snd (run (main unit Fixtures.clock0)
                               (Fixtures.repo
                                  [(CHANGELOG_PATH, Fixtures.changelog_two)]))))
     = [CHANGELOG_PATH]
  /\ last (printed (st_trace (snd (run (main unit Fixtures.clock0)
                                     (Fixtures.repo
                                        [(CHANGELOG_PATH,
                                          Fixtures.changelog_two)]))))) []
     = msg_failed
  /\ st_world (snd (run (main unit Fixtures.clock0)
                      (Fixtures.repo
                         [(CHANGELOG_PATH, Fixtures.changelog_two)])))
     = Fixtures.repo [(CHANGELOG_PATH, Fixtures.changelog_two)].
Proof.
  apply (missing_config_fails_synchronizer unit Fixtures.clock0
           (Fixtures.repo [(CHANGELOG_PATH, Fixtures.changelog_two)])
           Fixtures.changelog_two (mkVersion 2 0 0 5));
    vm_compute; reflexivity.
Defined.



(** * The patcher on the lines of a well-formed artifact *)

Module GoldenFacts.
Import ReFacts ExtraSpec.

Lemma match_chars_then pre p s ps r :
  match_here p s = Some (ps, r) ->
  match_here (chars pre ++ p) (pre ++ s)
  = Some (map (fun c => [c]) pre ++ ps, r).
Proof.
  intros H. induction pre as [|c pre IH]; [exact H|].
  cbn [chars map app]. apply VersionFacts.match_chr. exact IH.
Qed.

(** A pattern that starts with a literal matches nowhere in a text where
    it fails at the start and that literal does not occur again. *)
Lemma search_none_anchored h tl c s :
  match_here (Chr h :: tl) (c :: s) = None ->
  forallb (fun x => negb (x =? h)) s = true ->
  search (Chr h :: tl) (c :: s) = None.
Proof.
  intros H0 Hs. cbn [search]. rewrite H0.
  clear H0. induction s as [|x s IH].
  - reflexivity.
  - simpl in Hs. apply andb_true_iff in Hs as [Hx Hs].
    apply negb_true_iff in Hx.
    cbn [search match_here]. rewrite Hx. apply IH, Hs.
Qed.

Lemma sub_fixed_anchored h tl repl c s :
  match_here (Chr h :: tl) (c :: s) = None ->
  forallb (fun x => negb (x =? h)) s = true ->
  sub (Chr h :: tl) repl (c :: s) = c :: s.
Proof. intros H0 Hs. apply sub_no_match, search_none_anchored; assumption. Qed.

(** A line that one pattern matches from its first to its last character
    becomes the replacement. *)
Lemma sub_whole_line p repl s ps :
  anchored p = true ->
  match_here p s = Some (ps, []) ->
  sub p repl s = repl.
Proof.
  intros Ha Hm. rewrite (sub_at_match p repl s (ps, []) Hm).
  - cbn [snd]. unfold sub.
    destruct p as [|[h|cls] tl]; try discriminate. cbn. apply app_nil_r.
  - eapply anchored_match_nonempty; eassumption.
Qed.

Lemma digits_not_hash s : forallb is_digit s = true -> forallb not_hash s = true.
Proof.
  induction s as [|c s IH]; [reflexivity|]. simpl. intros H.
  apply andb_true_iff in H as [Hc Hs]. rewrite (IH Hs), andb_true_r.
  unfold not_hash. destruct (N.eqb_spec c 35) as [->|]; [|reflexivity].
  vm_compute in Hc. discriminate.
Qed.

Lemma digit_or_dot_not_hash s :
  forallb digit_or_dot s = true -> forallb not_hash s = true.
Proof.
  induction s as [|c s IH]; [reflexivity|]. simpl. intros H.
  apply andb_true_iff in H as [Hc Hs]. rewrite (IH Hs), andb_true_r.
  unfold not_hash. destruct (N.eqb_spec c 35) as [->|]; [|reflexivity].
  vm_compute in Hc. discriminate.
Qed.

Lemma digit_or_slash_not_hash s :
  forallb digit_or_slash s = true -> forallb not_hash s = true.
Proof.
  induction s as [|c s IH]; [reflexivity|]. simpl. intros H.
  apply andb_true_iff in H as [Hc Hs]. rewrite (IH Hs), andb_true_r.
  unfold not_hash. destruct (N.eqb_spec c 35) as [->|]; [|reflexivity].
  vm_compute in Hc. discriminate.
Qed.

Lemma str_not_hash n : forallb not_hash (str n) = true.
Proof. apply digits_not_hash, TextFacts.str_is_digit. Qed.

End GoldenFacts.

Module LineRewriting.
Import ReFacts ExtraSpec GoldenFacts.

Lemma nh_app a b :
  forallb not_hash a = true -> forallb not_hash b = true ->
  forallb not_hash (a ++ b) = true.
Proof. intros Ha Hb. rewrite forallb_app, Ha, Hb. reflexivity. Qed.

Lemma nh_cons c s :
  not_hash c = true -> forallb not_hash s = true ->
  forallb not_hash (c :: s) = true.
Proof. intros Hc Hs. simpl. rewrite Hc, Hs. reflexivity. Qed.

(** A pattern starting with ["#"] leaves alone a text where it fails at
    the start and no other ["#"] occurs. *)
Lemma sub_fixed p repl pre X :
  hash_anchored p = true ->
  match_here p (pre ++ X) = None ->
  forallb not_hash (tl pre) = true ->
  pre <> [] ->
  forallb not_hash X = true ->
  sub p repl (pre ++ X) = pre ++ X.
Proof.
  intros Ha Hm Hpre Hne HX.
  destruct p as [|[h|cls] tl]; try discriminate.
  simpl in Ha. apply N.eqb_eq in Ha. subst h.
  destruct pre as [|c pre]; [congruence|].
  cbn [app] in *. apply sub_fixed_anchored; [exact Hm|].
  change (forallb not_hash (pre ++ X) = true).
  apply nh_app; [exact Hpre | exact HX].
Qed.

Lemma new_int_shape name n :
  new_int name n = (lit "#define " ++ lit name ++ [SPACE]) ++ str n.
Proof. unfold new_int. rewrite <- !app_assoc. reflexivity. Qed.

Lemma new_quoted_shape name value :
  new_quoted name value
  = (lit "#define " ++ lit name ++ [SPACE; QUOTE]) ++ (value ++ [QUOTE]).
Proof. unfold new_quoted. rewrite <- !app_assoc. reflexivity. Qed.

Lemma version_string_not_hash v : forallb not_hash (version_string v) = true.
Proof.
  unfold version_string.
  apply nh_cons; [reflexivity|].
  apply nh_app; [apply str_not_hash|]. apply nh_cons; [reflexivity|].
  apply nh_app; [apply str_not_hash|]. apply nh_cons; [reflexivity|].
  apply nh_app; [apply str_not_hash|]. apply nh_cons; [reflexivity|].
  apply str_not_hash.
Qed.

End LineRewriting.

Module DefinitionLines.
Import ReFacts ExtraSpec GoldenFacts LineRewriting.

Ltac nh :=
  repeat first
    [ assumption
    | reflexivity
    | apply str_not_hash
    | apply version_string_not_hash
    | apply digits_not_hash; assumption
    | apply digit_or_dot_not_hash; assumption
    | apply digit_or_slash_not_hash; assumption
    | apply nh_cons
    | apply nh_app ].

Ltac keep_line :=
  rewrite sub_fixed;
  [ | reflexivity | vm_compute; reflexivity | reflexivity | discriminate | nh ].

Lemma match_define_int name ds :
  ds <> [] -> forallb is_digit ds = true ->
  match_here (define_int name) ((lit "#define " ++ lit name ++ [SPACE]) ++ ds)
  = Some (map (fun c => [c]) (lit "#define " ++ lit name ++ [SPACE]) ++ [ds],
          []).
Proof.
  intros Hne Hd. unfold define_int. apply match_chars_then.
  rewrite <- (app_nil_r ds) at 1.
  apply VersionFacts.match_plus;
    [assumption | assumption | reflexivity | reflexivity].
Qed.

Lemma match_define_quoted pre cls ds :
  cls QUOTE = false ->
  ds <> [] -> forallb cls ds = true ->
  match_here (chars pre ++ [Plus cls; Chr QUOTE]) (pre ++ ds ++ [QUOTE])
  = Some (map (fun c => [c]) pre ++ [ds; [QUOTE]], []).
Proof.
  intros Hq Hne Hd. apply match_chars_then.
  apply VersionFacts.match_plus; [assumption | assumption | | reflexivity].
  simpl. rewrite Hq. reflexivity.
Qed.

Section Lines.

Variable v : version.
Variable today : text.

Lemma major_line ds :
  ds <> [] -> forallb is_digit ds = true ->
  patch_config v today (lit "#define VERSION_MAJOR " ++ ds)
  = new_int "VERSION_MAJOR" (major v).
Proof.
  intros Hne Hd. unfold patch_config, substitutions. cbn [fold_left fst snd].
  rewrite (sub_whole_line (define_int "VERSION_MAJOR") _ _ _ eq_refl
             (match_define_int "VERSION_MAJOR" ds Hne Hd)).
  rewrite !new_int_shape, !new_quoted_shape.
  generalize (str (major v)) (str_not_hash (major v)). intros X HX.
  do 5 keep_line. reflexivity.
Qed.

Lemma minor_line ds :
  ds <> [] -> forallb is_digit ds = true ->
  patch_config v today (lit "#define VERSION_MINOR " ++ ds)
  = new_int "VERSION_MINOR" (minor v).
Proof.
  intros Hne Hd. unfold patch_config, substitutions. cbn [fold_left fst snd].
  keep_line.
  rewrite (sub_whole_line (define_int "VERSION_MINOR") _ _ _ eq_refl
             (match_define_int "VERSION_MINOR" ds Hne Hd)).
  rewrite !new_int_shape, !new_quoted_shape.
  generalize (str (minor v)) (str_not_hash (minor v)). intros X HX.
  do 4 keep_line. reflexivity.
Qed.

Lemma patch_line ds :
  ds <> [] -> forallb is_digit ds = true ->
  patch_config v today (lit "#define VERSION_PATCH " ++ ds)
  = new_int "VERSION_PATCH" (patch v).
Proof.
  intros Hne Hd. unfold patch_config, substitutions. cbn [fold_left fst snd].
  do 2 keep_line.
  rewrite (sub_whole_line (define_int "VERSION_PATCH") _ _ _ eq_refl
             (match_define_int "VERSION_PATCH" ds Hne Hd)).
  rewrite !new_int_shape, !new_quoted_shape.
  generalize (str (patch v)) (str_not_hash (patch v)). intros X HX.
  do 3 keep_line. reflexivity.
Qed.

Lemma build_line ds :
  ds <> [] -> forallb is_digit ds = true ->
  patch_config v today (lit "#define VERSION_BUILD " ++ ds)
  = new_int "VERSION_BUILD" (build v).
Proof.
  intros Hne Hd. unfold patch_config, substitutions. cbn [fold_left fst snd].
  do 3 keep_line.
  rewrite (sub_whole_line (define_int "VERSION_BUILD") _ _ _ eq_refl
             (match_define_int "VERSION_BUILD" ds Hne Hd)).
  rewrite !new_int_shape, !new_quoted_shape.
  generalize (str (build v)) (str_not_hash (build v)). intros X HX.
  do 2 keep_line. reflexivity.
Qed.

Lemma version_string_line ds :
  ds <> [] -> forallb digit_or_dot ds = true ->
  patch_config v today
    (lit "#define VERSION_STRING " ++ QUOTE :: 118 :: ds ++ [QUOTE])
  = new_quoted "VERSION_STRING" (version_string v).
Proof.
  intros Hne Hd. unfold patch_config, substitutions. cbn [fold_left fst snd].
  do 4 keep_line.
  rewrite (sub_whole_line define_version_string _ _ _ eq_refl
             (match_define_quoted (lit "#define VERSION_STRING " ++ [QUOTE; 118])
                digit_or_dot ds eq_refl Hne Hd)).
  rewrite !new_quoted_shape.
  keep_line. reflexivity.
Qed.

Lemma build_date_line ds :
  ds <> [] -> forallb digit_or_slash ds = true ->
  patch_config v today (lit "#define BUILD_DATE " ++ QUOTE :: ds ++ [QUOTE])
  = new_quoted "BUILD_DATE" today.
Proof.
  intros Hne Hd. unfold patch_config, substitutions. cbn [fold_left fst snd].
  do 5 keep_line.
  apply (sub_whole_line define_build_date _ _ _ eq_refl
           (match_define_quoted (lit "#define BUILD_DATE " ++ [QUOTE])
              digit_or_slash ds eq_refl Hne Hd)).
Qed.

End Lines.
End DefinitionLines.

Module SplitJoin.
Import LineFacts.

Lemma split_lines_nonempty s : split_lines s <> [].
Proof.
  induction s as [l Hl | l rest Hl _] using line_ind.
  - rewrite split_lines_line by assumption. discriminate.
  - rewrite split_lines_cons by assumption. discriminate.
Qed.

(** ['\n'.join(s.split('\n')) == s] *)
Lemma join_split s : join_lines (split_lines s) = s.
Proof.
  induction s as [l Hl | l rest Hl IH] using line_ind.
  - rewrite split_lines_line by assumption. reflexivity.
  - rewrite split_lines_cons by assumption.
    pose proof (split_lines_nonempty rest) as Hne.
    destruct (split_lines rest) as [|l' ls] eqn:E; [congruence|].
    cbn [join_lines] in *. rewrite IH. reflexivity.
Qed.

(** ['\n'.join(ls).split('\n') == ls] for lines without a newline. *)
Lemma split_join ls :
  ls <> [] -> forallb no_nl ls = true -> split_lines (join_lines ls) = ls.
Proof.
  induction ls as [|l ls IH]; intros Hne Hall; [congruence|].
  simpl in Hall. apply andb_true_iff in Hall as [Hl Hls].
  destruct ls as [|l' ls].
  - simpl. apply split_lines_line, Hl.
  - change (join_lines (l :: l' :: ls)) with (l ++ NL :: join_lines (l' :: ls)).
    rewrite split_lines_cons by assumption. f_equal.
    apply IH; [discriminate | exact Hls].
Qed.

End SplitJoin.

(** An artifact given by its lines is patched line by line: the patched
    text is the lines' patched texts, joined again. *)
Theorem patcher_works_line_by_line (v : version) (d : datetime)
    (ls : list text) :
  ls <> [] ->
  forallb no_nl ls = true ->
  patch_config v (strftime_dmy d) (join_lines ls)
  = join_lines (map (patch_config v (strftime_dmy d)) ls).
Proof.
  intros Hne Hall.
  rewrite <- (SplitJoin.join_split
                (patch_config v (strftime_dmy d) (join_lines ls))).
  rewrite (PatchFacts.split_lines_patch v _ _ (PatchFacts.no_nl_strftime_dmy d)).
  rewrite (SplitJoin.split_join ls Hne Hall). reflexivity.
Qed.

Lemma patcher_works_line_by_line_witness :
  patch_config (mkVersion 2 0 0 5) (strftime_dmy (mkDate 2024 1 1 12 0 0))
    (join_lines [lit "// generated file"; lit "#define VERSION_MAJOR 1";
                 lit "  static const int PIN = 4;  "])
  = join_lines
      (map (patch_config (mkVersion 2 0 0 5)
              (strftime_dmy (mkDate 2024 1 1 12 0 0)))
         [lit "// generated file"; lit "#define VERSION_MAJOR 1";
          lit "  static const int PIN = 4;  "]).
Proof.
  apply (patcher_works_line_by_line (mkVersion 2 0 0 5)
           (mkDate 2024 1 1 12 0 0)
           [lit "// generated file"; lit "#define VERSION_MAJOR 1";
            lit "  static const int PIN = 4;  "]).
  - discriminate.
  - vm_compute. reflexivity.
Defined.

(** A line that is one of the six definitions, whatever value it holds,
    becomes the definition of the new value: the four numbers, the
    rendered version string and the build date. *)
Theorem definition_lines_take_new_values (v : version) (today : text)
    (dn dv dd : text) :
  dn <> [] -> forallb is_digit dn = true ->
  dv <> [] -> forallb digit_or_dot dv = true ->
  dd <> [] -> forallb digit_or_slash dd = true ->
  patch_config v today (lit "#define VERSION_MAJOR " ++ dn)
  = lit "#define VERSION_MAJOR " ++ str (major v)
  /\ patch_config v today (lit "#define VERSION_MINOR " ++ dn)
     = lit "#define VERSION_MINOR " ++ str (minor v)
  /\ patch_config v today (lit "#define VERSION_PATCH " ++ dn)
     = lit "#define VERSION_PATCH " ++ str (patch v)
  /\ patch_config v today (lit "#define VERSION_BUILD " ++ dn)
     = lit "#define VERSION_BUILD " ++ str (build v)
  /\ patch_config v today
       (lit "#define VERSION_STRING " ++ QUOTE :: 118 :: dv ++ [QUOTE])
     = lit "#define VERSION_STRING " ++ QUOTE :: version_string v ++ [QUOTE]
  /\ patch_config v today (lit "#define BUILD_DATE " ++ QUOTE :: dd ++ [QUOTE])
     = lit "#define BUILD_DATE " ++ QUOTE :: today ++ [QUOTE].
Proof.
  intros Hn Dn Hv Dv Hd Dd.
  rewrite (DefinitionLines.major_line v today dn Hn Dn),
    (DefinitionLines.minor_line v today dn Hn Dn),
    (DefinitionLines.patch_line v today dn Hn Dn),
    (DefinitionLines.build_line v today dn Hn Dn),
    (DefinitionLines.version_string_line v today dv Hv Dv),
    (DefinitionLines.build_date_line v today dd Hd Dd).
  repeat split.
Qed.

Lemma definition_lines_take_new_values_witness :
  patch_config (mkVersion 2 0 0 5) (lit "04/11/2026")
    (lit "#define VERSION_MAJOR " ++ lit "1")
  = lit "#define VERSION_MAJOR " ++ str (major (mkVersion 2 0 0 5))
  /\ patch_config (mkVersion 2 0 0 5) (lit "04/11/2026")
       (lit "#define VERSION_MINOR " ++ lit "1")
     = lit "#define VERSION_MINOR " ++ str (minor (mkVersion 2 0 0 5))
  /\ patch_config (mkVersion 2 0 0 5) (lit "04/11/2026")
       (lit "#define VERSION_PATCH " ++ lit "1")
     = lit "#define VERSION_PATCH " ++ str (patch (mkVersion 2 0 0 5))
  /\ patch_config (mkVersion 2 0 0 5) (lit "04/11/2026")
       (lit "#define VERSION_BUILD " ++ lit "1")
     = lit "#define VERSION_BUILD " ++ str (build (mkVersion 2 0 0 5))
  /\ patch_config (mkVersion 2 0 0 5) (lit "04/11/2026")
       (lit "#define VERSION_STRING " ++ QUOTE :: 118 :: lit "1.0.0.3" ++ [QUOTE])
     = lit "#define VERSION_STRING "
       ++ QUOTE :: version_string (mkVersion 2 0 0 5) ++ [QUOTE]
  /\ patch_config (mkVersion 2 0 0 5) (lit "04/11/2026")
       (lit "#define BUILD_DATE " ++ QUOTE :: lit "01/01/2020" ++ [QUOTE])
     = lit "#define BUILD_DATE " ++ QUOTE :: lit "04/11/2026" ++ [QUOTE].
Proof.
  apply (definition_lines_take_new_values (mkVersion 2 0 0 5)
           (lit "04/11/2026") (lit "1") (lit "1.0.0.3") (lit "01/01/2020"));
    solve [discriminate | reflexivity].
Defined.

(** * Further properties of github_backup.py *)

Module GithubPaths.
Import GithubBackup.

Lemma report_some command c m r :
  report command (Some (c :: m)) r
  = [Print (msg_error (c :: m)); Print (msg_command command);
     Print (msg_code (returncode r)); Print (msg_stderr (stderr r))].
Proof. reflexivity. Qed.

Lemma printed_report command em r :
  em <> [] ->
  printed (report command (Some em) r)
  = [msg_error em; msg_command command; msg_code (returncode r);
     msg_stderr (stderr r)].
Proof. destruct em as [|c m]; [congruence | reflexivity]. Qed.

Lemma err_update_nonempty : err_update <> [].
Proof. intros E. apply (f_equal (@List.length _)) in E. vm_compute in E. discriminate. Qed.


Lemma err_commit_nonempty : err_commit <> [].
Proof. intros E. apply (f_equal (@List.length _)) in E. vm_compute in E. discriminate. Qed.

Lemma err_push_nonempty remote branch : err_push remote branch <> [].
Proof.
  intros E. apply (f_equal (fun t => hd 0 t)) in E. vm_compute in E.
  discriminate.
Qed.

Section Paths.

Variable Ext : Type.
Variable clock : world Ext -> datetime.
Variable shell : world Ext -> text -> CmdResult * world Ext.
Variable find_sections : text -> list (text * text * text).

Lemma main_not_repo remote branch (w : world Ext) :
  isdir w (lit ".git") = false ->
  run (main Ext clock shell find_sections remote branch) w
  = (Exit 1, mkState w [Print (msg_start (strftime_hms (clock w)));
                        Print msg_not_repo]).
Proof.
  intros Hgit. unfold run, main, check_git_repo.
  unfold now at 1. unfold bind at 1.
  unfold print at 1. unfold emit, bind at 1.
  unfold path_isdir, bind at 1. cbn [st_world st_trace].
  rewrite Hgit. reflexivity.
Qed.

End Paths.
End GithubPaths.

Lemma cleaned_has_no_message {Ext} (w : world Ext) :
  files (cleaned w) GithubBackup.COMMIT_MSG_FILE = None.
Proof.
  unfold cleaned.
  destruct (files w GithubBackup.COMMIT_MSG_FILE) eqn:E;
    [apply files_set_file | exact E].
Qed.

(** Outside a git repository [github_backup.main] exits with code 1 before
    it runs any command. *)
Theorem outside_repository_runs_nothing (Ext : Type)
    (clock : world Ext -> datetime)
    (shell : world Ext -> text -> CmdResult * world Ext)
    (find_sections : text -> list (text * text * text))
    (remote branch : text) (w : world Ext) :
  isdir w (lit ".git") = false ->
  exit_code
    (fst (run (GithubBackup.main Ext clock shell find_sections remote branch)
            w)) = 1%Z
  /\ commands
       (st_trace
          (snd (run (GithubBackup.main Ext clock shell find_sections
                       remote branch) w))) = []
  /\ last (printed
             (st_trace
                (snd (run (GithubBackup.main Ext clock shell find_sections
                             remote branch) w)))) []
     = GithubBackup.msg_not_repo
  /\ st_world
       (snd (run (GithubBackup.main Ext clock shell find_sections
                    remote branch) w)) = w.
Proof.
  intros Hgit.
  rewrite (GithubPaths.main_not_repo Ext clock shell find_sections remote
             branch w Hgit).
  repeat split.
Qed.

(** When the synchronizer exits non-zero, [github_backup.main] exits with
    code 1 having run no other command, after printing its message, the
    command, the exit code and the captured error stream. *)
Theorem failed_synchronizer_is_reported (Ext : Type)
    (clock : world Ext -> datetime)
    (shell : world Ext -> text -> CmdResult * world Ext)
    (find_sections : text -> list (text * text * text))
    (remote branch : text) (w w1 : world Ext) (r1 : CmdResult) :
  isdir w (lit ".git") = true ->
  shell w GithubBackup.cmd_update_version = (r1, w1) ->
  returncode r1 <> 0%Z ->
  exit_code
    (fst (run (GithubBackup.main Ext clock shell find_sections remote branch)
            w)) = 1%Z
  /\ commands
       (st_trace
          (snd (run (GithubBackup.main Ext clock shell find_sections
                       remote branch) w)))
     = [GithubBackup.cmd_update_version]
  /\ printed
       (st_trace
          (snd (run (GithubBackup.main Ext clock shell find_sections
                       remote branch) w)))
     = [GithubBackup.msg_start (strftime_hms (clock w));
        GithubBackup.msg_updating;
        GithubBackup.msg_error GithubBackup.err_update;
        GithubBackup.msg_command GithubBackup.cmd_update_version;
        GithubBackup.msg_code (returncode r1);
        GithubBackup.msg_stderr (stderr r1)].
Proof.
  intros Hgit H1 Hr1.
  rewrite (GithubFacts.main_update_fail Ext clock shell find_sections remote
             branch w w1 r1 Hgit H1 Hr1).
  cbn [fst snd st_trace exit_code].
  rewrite commands_app, printed_app, GithubFacts.commands_report,
    (GithubPaths.printed_report _ _ _ GithubPaths.err_update_nonempty).
  repeat split.
Qed.


(** With pending changes and every command succeeding,
    [github_backup.main] runs the synchronizer, the status query, the
    stage, the commit and the push command in this order and ends with exit
    code 0 on the line that names the saved version; the push command runs
    in a world where the message file is gone. *)
Theorem successful_backup (Ext : Type)
    (clock : world Ext -> datetime)
    (shell : world Ext -> text -> CmdResult * world Ext)
    (find_sections : text -> list (text * text * text))
    (remote branch : text) (w w1 w2 w3 w4 w5 : world Ext)
    (r1 r2 r3 r4 r5 : CmdResult) :
  staged shell w w1 w2 w3 r1 r2 r3 ->
  shell (with_message clock w3 (version_of_output (strip (stdout r1)))
           (changes_text find_sections w2)) GithubBackup.cmd_commit
  = (r4, w4) ->
  returncode r4 = 0%Z ->
  isdir w4 GithubBackup.COMMIT_MSG_FILE = false ->
  shell (cleaned w4) (GithubBackup.cmd_push remote branch) = (r5, w5) ->
  returncode r5 = 0%Z ->
  exit_code
    (fst (run (GithubBackup.main Ext clock shell find_sections remote branch)
            w)) = 0%Z
  /\ commands
       (st_trace
          (snd (run (GithubBackup.main Ext clock shell find_sections
                       remote branch) w)))
     = [GithubBackup.cmd_update_version; GithubBackup.cmd_status;
        GithubBackup.cmd_add; GithubBackup.cmd_commit;
        GithubBackup.cmd_push remote branch]
  /\ last (printed
             (st_trace
                (snd (run (GithubBackup.main Ext clock shell find_sections
                             remote branch) w)))) []
     = GithubBackup.msg_saved (version_of_output (strip (stdout r1)))
  /\ files (cleaned w4) GithubBackup.COMMIT_MSG_FILE = None
  /\ st_world
       (snd (run (GithubBackup.main Ext clock shell find_sections
                    remote branch) w)) = w5.
Proof.
  intros Hst H4 Hr4 Hd4 H5 Hr5.
  rewrite (GithubFacts.main_success Ext clock shell find_sections remote
             branch w w1 w2 w3 w4 w5 r1 r2 r3 r4 r5 Hst H4 Hr4 Hd4 H5 Hr5).
  cbn [fst snd st_trace st_world exit_code].
  split; [reflexivity|]. split; [|split; [|split; [|reflexivity]]].
  - rewrite !commands_app, GithubFacts.commands_before_commit.
    unfold cleaning, commit_events.
    destruct (files w4 GithubBackup.COMMIT_MSG_FILE); reflexivity.
  - rewrite !app_assoc.
    change [Print (GithubBackup.msg_pushing remote branch);
            Run (GithubBackup.cmd_push remote branch);
            Print (GithubBackup.msg_done (strftime_hms (clock w5)));
            Print (GithubBackup.msg_saved
                     (version_of_output (strip (stdout r1))))]
      with ([Print (GithubBackup.msg_pushing remote branch);
             Run (GithubBackup.cmd_push remote branch);
             Print (GithubBackup.msg_done (strftime_hms (clock w5)))]
            ++ [Print (GithubBackup.msg_saved
                         (version_of_output (strip (stdout r1))))]).
    rewrite app_assoc, printed_app. cbn [printed]. apply last_last.
  - apply cleaned_has_no_message.
Qed.

(** When the push command exits non-zero, [github_backup.main] exits with
    code 1 after printing the report; the commit has been made and the
    message file is already gone. *)
Theorem failed_push_is_reported (Ext : Type)
    (clock : world Ext -> datetime)
    (shell : world Ext -> text -> CmdResult * world Ext)
    (find_sections : text -> list (text * text * text))
    (remote branch : text) (w w1 w2 w3 w4 w5 : world Ext)
    (r1 r2 r3 r4 r5 : CmdResult) :
  staged shell w w1 w2 w3 r1 r2 r3 ->
  shell (with_message clock w3 (version_of_output (strip (stdout r1)))
           (changes_text find_sections w2)) GithubBackup.cmd_commit
  = (r4, w4) ->
  returncode r4 = 0%Z ->
  isdir w4 GithubBackup.COMMIT_MSG_FILE = false ->
  shell (cleaned w4) (GithubBackup.cmd_push remote branch) = (r5, w5) ->
  returncode r5 <> 0%Z ->
  exit_code
    (fst (run (GithubBackup.main Ext clock shell find_sections remote branch)
            w)) = 1%Z
  /\ commands
       (st_trace
          (snd (run (GithubBackup.main Ext clock shell find_sections
                       remote branch) w)))
     = [GithubBackup.cmd_update_version; GithubBackup.cmd_status;
        GithubBackup.cmd_add; GithubBackup.cmd_commit;
        GithubBackup.cmd_push remote branch]
  /\ (exists shown,
        printed
          (st_trace
             (snd (run (GithubBackup.main Ext clock shell find_sections
                          remote branch) w)))
        = shown
          ++ [GithubBackup.msg_error (GithubBackup.err_push remote branch);
              GithubBackup.msg_command (GithubBackup.cmd_push remote branch);
              GithubBackup.msg_code (returncode r5);
              GithubBackup.msg_stderr (stderr r5)])
  /\ files (cleaned w4) GithubBackup.COMMIT_MSG_FILE = None.
Proof.
  intros Hst H4 Hr4 Hd4 H5 Hr5.
  rewrite (GithubFacts.main_push_fail Ext clock shell find_sections remote
             branch w w1 w2 w3 w4 w5 r1 r2 r3 r4 r5 Hst H4 Hr4 Hd4 H5 Hr5).
  cbn [fst snd st_trace st_world exit_code].
  split; [reflexivity|]. split; [|split].
  - rewrite !commands_app, GithubFacts.commands_before_commit,
      GithubFacts.commands_report.
    unfold cleaning, commit_events.
    destruct (files w4 GithubBackup.COMMIT_MSG_FILE); reflexivity.
  - rewrite !app_assoc, printed_app,
      (GithubPaths.printed_report _ _ _
         (GithubPaths.err_push_nonempty remote branch)).
    eexists. reflexivity.
  - apply cleaned_has_no_message.
Qed.

(** When the commit command exits non-zero, the last four lines
    [github_backup.main] prints are its message, the command, the exit
    code and the captured error stream of the commit. *)
Theorem failed_commit_is_reported (Ext : Type)
    (clock : world Ext -> datetime)
    (shell : world Ext -> text -> CmdResult * world Ext)
    (find_sections : text -> list (text * text * text))
    (remote branch : text) (w w1 w2 w3 w4 : world Ext)
    (r1 r2 r3 r4 : CmdResult) :
  staged shell w w1 w2 w3 r1 r2 r3 ->
  shell (with_message clock w3 (version_of_output (strip (stdout r1)))
           (changes_text find_sections w2)) GithubBackup.cmd_commit
  = (r4, w4) ->
  returncode r4 <> 0%Z ->
  exists shown,
    printed
      (st_trace
         (snd (run (GithubBackup.main Ext clock shell find_sections
                      remote branch) w)))
    = shown
      ++ [GithubBackup.msg_error GithubBackup.err_commit;
          GithubBackup.msg_command GithubBackup.cmd_commit;
          GithubBackup.msg_code (returncode r4);
          GithubBackup.msg_stderr (stderr r4)].
Proof.
  intros Hst H4 Hr4.
  rewrite (GithubFacts.main_commit_fail Ext clock shell find_sections
             remote branch w w1 w2 w3 w4 r1 r2 r3 r4 Hst H4 Hr4).
  cbn [snd st_trace].
  rewrite !app_assoc, printed_app,
    (GithubPaths.printed_report _ _ _ GithubPaths.err_commit_nonempty).
  eexists. reflexivity.
Qed.

Import ExtraSpec.

Lemma outside_repository_runs_nothing_witness :
  exit_code (fst (github_run [] no_repo)) = 1%Z
  /\ commands (st_trace (snd (github_run [] no_repo))) = []
  /\ last (printed (st_trace (snd (github_run [] no_repo)))) []
     = GithubBackup.msg_not_repo
  /\ st_world (snd (github_run [] no_repo)) = no_repo.
Proof.
  apply (outside_repository_runs_nothing unit Fixtures.clock0
           (Fixtures.shell_of []) Fixtures.no_sections (lit "origin")
           (lit "main") no_repo).
  reflexivity.
Defined.

Lemma failed_synchronizer_is_reported_witness :
  exit_code
    (fst (github_run [(GithubBackup.cmd_update_version, Fixtures.failure)]
            (Fixtures.repo []))) = 1%Z
  /\ commands
       (st_trace
          (snd (github_run [(GithubBackup.cmd_update_version, Fixtures.failure)]
                  (Fixtures.repo []))))
     = [GithubBackup.cmd_update_version]
  /\ printed
       (st_trace
          (snd (github_run [(GithubBackup.cmd_update_version, Fixtures.failure)]
                  (Fixtures.repo []))))
     = [GithubBackup.msg_start
          (strftime_hms (Fixtures.clock0 (Fixtures.repo [])));
        GithubBackup.msg_updating;
        GithubBackup.msg_error GithubBackup.err_update;
        GithubBackup.msg_command GithubBackup.cmd_update_version;
        GithubBackup.msg_code (returncode Fixtures.failure);
        GithubBackup.msg_stderr (stderr Fixtures.failure)].
Proof.
  apply (failed_synchronizer_is_reported unit Fixtures.clock0
           (Fixtures.shell_of
              [(GithubBackup.cmd_update_version, Fixtures.failure)])
           Fixtures.no_sections (lit "origin") (lit "main")
           (Fixtures.repo []) (Fixtures.repo []) Fixtures.failure).
  - vm_compute. reflexivity.
  - vm_compute. reflexivity.
  - vm_compute. discriminate.
Defined.


Lemma successful_backup_witness :
  exit_code
    (fst (github_run [(GithubBackup.cmd_status, Fixtures.dirty)]
            (Fixtures.repo []))) = 0%Z
  /\ commands
       (st_trace
          (snd (github_run [(GithubBackup.cmd_status, Fixtures.dirty)]
                  (Fixtures.repo []))))
     = [GithubBackup.cmd_update_version; GithubBackup.cmd_status;
        GithubBackup.cmd_add; GithubBackup.cmd_commit;
        GithubBackup.cmd_push (lit "origin") (lit "main")]
  /\ last (printed
             (st_trace
                (snd (github_run [(GithubBackup.cmd_status, Fixtures.dirty)]
                        (Fixtures.repo []))))) []
     = GithubBackup.msg_saved (version_of_output (strip (stdout ok)))
  /\ files
       (cleaned (with_message Fixtures.clock0 (Fixtures.repo [])
                   GithubBackup.UNKNOWN_VERSION GithubBackup.NO_DETAILS))
       GithubBackup.COMMIT_MSG_FILE = None
  /\ st_world
       (snd (github_run [(GithubBackup.cmd_status, Fixtures.dirty)]
               (Fixtures.repo [])))
     = cleaned (with_message Fixtures.clock0 (Fixtures.repo [])
                  GithubBackup.UNKNOWN_VERSION GithubBackup.NO_DETAILS).
Proof.
  apply (successful_backup unit Fixtures.clock0
           (Fixtures.shell_of [(GithubBackup.cmd_status, Fixtures.dirty)])
           Fixtures.no_sections (lit "origin") (lit "main")
           (Fixtures.repo []) (Fixtures.repo []) (Fixtures.repo [])
           (Fixtures.repo [])
           (with_message Fixtures.clock0 (Fixtures.repo [])
              GithubBackup.UNKNOWN_VERSION GithubBackup.NO_DETAILS)
           (cleaned (with_message Fixtures.clock0 (Fixtures.repo [])
                       GithubBackup.UNKNOWN_VERSION GithubBackup.NO_DETAILS))
           ok Fixtures.dirty ok ok ok).
  - unfold staged, dirty_tree.
    repeat split; try (vm_compute; reflexivity); vm_compute; discriminate.
  - vm_compute. reflexivity.
  - reflexivity.
  - vm_compute. reflexivity.
  - vm_compute. reflexivity.
  - reflexivity.
Defined.

Lemma failed_push_is_reported_witness :
  exit_code
    (fst (github_run [(GithubBackup.cmd_status, Fixtures.dirty);
                      (GithubBackup.cmd_push (lit "origin") (lit "main"),
                       Fixtures.failure)]
            (Fixtures.repo []))) = 1%Z
  /\ commands
       (st_trace
          (snd (github_run [(GithubBackup.cmd_status, Fixtures.dirty);
                            (GithubBackup.cmd_push (lit "origin") (lit "main"),
                             Fixtures.failure)]
                  (Fixtures.repo []))))
     = [GithubBackup.cmd_update_version; GithubBackup.cmd_status;
        GithubBackup.cmd_add; GithubBackup.cmd_commit;
        GithubBackup.cmd_push (lit "origin") (lit "main")]
  /\ (exists shown,
        printed
          (st_trace
             (snd (github_run [(GithubBackup.cmd_status, Fixtures.dirty);
                               (GithubBackup.cmd_push (lit "origin")
                                  (lit "main"), Fixtures.failure)]
                     (Fixtures.repo []))))
        = shown
          ++ [GithubBackup.msg_error
                (GithubBackup.err_push (lit "origin") (lit "main"));
              GithubBackup.msg_command
                (GithubBackup.cmd_push (lit "origin") (lit "main"));
              GithubBackup.msg_code (returncode Fixtures.failure);
              GithubBackup.msg_stderr (stderr Fixtures.failure)])
  /\ files
       (cleaned (with_message Fixtures.clock0 (Fixtures.repo [])
                   GithubBackup.UNKNOWN_VERSION GithubBackup.NO_DETAILS))
       GithubBackup.COMMIT_MSG_FILE = None.
Proof.
  apply (failed_push_is_reported unit Fixtures.clock0
           (Fixtures.shell_of
              [(GithubBackup.cmd_status, Fixtures.dirty);
               (GithubBackup.cmd_push (lit "origin") (lit "main"),
                Fixtures.failure)])
           Fixtures.no_sections (lit "origin") (lit "main")
           (Fixtures.repo []) (Fixtures.repo []) (Fixtures.repo [])
           (Fixtures.repo [])
           (with_message Fixtures.clock0 (Fixtures.repo [])
              GithubBackup.UNKNOWN_VERSION GithubBackup.NO_DETAILS)
           (cleaned (with_message Fixtures.clock0 (Fixtures.repo [])
                       GithubBackup.UNKNOWN_VERSION GithubBackup.NO_DETAILS))
           ok Fixtures.dirty ok ok Fixtures.failure).
  - unfold staged, dirty_tree.
    repeat split; try (vm_compute; reflexivity); vm_compute; discriminate.
  - vm_compute. reflexivity.
  - reflexivity.
  - vm_compute. reflexivity.
  - vm_compute. reflexivity.
  - vm_compute. discriminate.
Defined.

Lemma failed_commit_is_reported_witness :
  exists shown,
    printed
      (st_trace
         (snd (github_run [(GithubBackup.cmd_status, Fixtures.dirty);
                           (GithubBackup.cmd_commit, Fixtures.failure)]
                 (Fixtures.repo []))))
    = shown
      ++ [GithubBackup.msg_error GithubBackup.err_commit;
          GithubBackup.msg_command GithubBackup.cmd_commit;
          GithubBackup.msg_code (returncode Fixtures.failure);
          GithubBackup.msg_stderr (stderr Fixtures.failure)].
Proof.
  apply (failed_commit_is_reported unit Fixtures.clock0
           (Fixtures.shell_of
              [(GithubBackup.cmd_status, Fixtures.dirty);
               (GithubBackup.cmd_commit, Fixtures.failure)])
           Fixtures.no_sections (lit "origin") (lit "main")
           (Fixtures.repo []) (Fixtures.repo []) (Fixtures.repo [])
           (Fixtures.repo [])
           (with_message Fixtures.clock0 (Fixtures.repo [])
              GithubBackup.UNKNOWN_VERSION GithubBackup.NO_DETAILS)
           ok Fixtures.dirty ok Fixtures.failure).
  - unfold staged, dirty_tree.
    repeat split; try (vm_compute; reflexivity); vm_compute; discriminate.
  - vm_compute. reflexivity.
  - vm_compute. discriminate.
Defined.

(** * Further properties of backup_script.py *)

Module BackupPaths.
Import BackupScript BackupSpec.

Section Paths.

Variable Ext : Type.
Variable clock : world Ext -> datetime.
Variable shell : world Ext -> text -> CmdResult * world Ext.








Lemma main_git_found (w w0 : world Ext) r0 :
  shell w cmd_version = (r0, w0) ->
  returncode r0 = 0%Z ->
  run (main Ext clock shell) w
  = backup_and_commit Ext clock shell
      (mkState w0 [Run cmd_version; Print msg_git_found]).
Proof.
  intros H0 Hr0. unfold run, main.
  unfold subprocess_run at 1. unfold bind at 1. cbn [st_world st_trace].
  rewrite H0, Hr0. cbn [Z.eqb].
  unfold print at 1. unfold emit, bind at 1. reflexivity.
Qed.

Lemma main_git_missing (w w0 : world Ext) r0 :
  shell w cmd_version = (r0, w0) ->
  returncode r0 <> 0%Z ->
  run (main Ext clock shell) w
  = (Exit 1, mkState w0 [Run cmd_version; PrintErr msg_no_git;
                         PrintErr msg_install_git]).
Proof.
  intros H0 Hr0. unfold run, main.
  unfold subprocess_run at 1. unfold bind at 1. cbn [st_world st_trace].
  rewrite H0. apply Z.eqb_neq in Hr0. rewrite Hr0. reflexivity.
Qed.

Lemma bind_print {B} t (k : unit -> M Ext B) (s : state Ext) :
  bind (print t) k s = k tt (mkState (st_world s) (st_trace s ++ [Print t])).
Proof. reflexivity. Qed.

Lemma bind_eprint {B} t (k : unit -> M Ext B) (s : state Ext) :
  bind (eprint t) k s
  = k tt (mkState (st_world s) (st_trace s ++ [PrintErr t])).
Proof. reflexivity. Qed.

Lemma run_print t (s : state Ext) :
  print t s = (Ret tt, mkState (st_world s) (st_trace s ++ [Print t])).
Proof. reflexivity. Qed.

Lemma run_eprint t (s : state Ext) :
  eprint t s = (Ret tt, mkState (st_world s) (st_trace s ++ [PrintErr t])).
Proof. reflexivity. Qed.

Lemma bind_now {B} (k : datetime -> M Ext B) (s : state Ext) :
  bind (now clock) k s = k (clock (st_world s)) s.
Proof. reflexivity. Qed.

Lemma bind_subprocess_run {B} cmd (k : CmdResult -> M Ext B) (s : state Ext)
    r w' :
  shell (st_world s) cmd = (r, w') ->
  bind (subprocess_run shell cmd) k s
  = k r (mkState w' (st_trace s ++ [Run cmd])).
Proof. intros H. unfold bind, subprocess_run. rewrite H. reflexivity. Qed.

Lemma if_true {A} (a b : A) : (if negb true then a else b) = b.
Proof. reflexivity. Qed.

Lemma if_false {A} (a b : A) : (if negb false then a else b) = a.
Proof. reflexivity. Qed.

Lemma backup_not_repo (s : state Ext) r1 w1 :
  shell (st_world s) cmd_rev_parse = (r1, w1) ->
  returncode r1 <> 0%Z ->
  backup_and_commit Ext clock shell s
  = (Ret tt,
     mkState w1 (st_trace s
                 ++ [Print msg_begin; Print (msg_exec cmd_rev_parse);
                     Run cmd_rev_parse;
                     PrintErr (msg_cmd_error cmd_rev_parse);
                     PrintErr (msg_code (returncode r1));
                     PrintErr (msg_stderr (stderr r1));
                     PrintErr (msg_stdout (stdout r1));
                     PrintErr msg_not_repo; PrintErr msg_aborted])).
Proof.
  intros H1 Hr1. unfold backup_and_commit.
  rewrite bind_print.
  erewrite bind_ret_eq
    by (apply BackupFacts.backup_command_fail; [exact H1 | exact Hr1]).
  rewrite if_false, bind_eprint, run_eprint.
  cbn [st_world st_trace]. rewrite <- !app_assoc. reflexivity.
Qed.

(** The events up to the stage command, when [git rev-parse] succeeds. *)
Lemma backup_add_failed (s : state Ext) r1 w1 r2 w2 :
  shell (st_world s) cmd_rev_parse = (r1, w1) ->
  returncode r1 = 0%Z ->
  shell w1 cmd_add = (r2, w2) ->
  returncode r2 <> 0%Z ->
  backup_and_commit Ext clock shell s
  = (Ret tt,
     mkState w2 (st_trace s
                 ++ [Print msg_begin; Print (msg_exec cmd_rev_parse);
                     Run cmd_rev_parse; Print (msg_ok (stdout r1));
                     Print msg_step_add; Print (msg_exec cmd_add);
                     Run cmd_add;
                     PrintErr (msg_cmd_error cmd_add);
                     PrintErr (msg_code (returncode r2));
                     PrintErr (msg_stderr (stderr r2));
                     PrintErr (msg_stdout (stdout r2));
                     PrintErr msg_add_failed; PrintErr msg_aborted])).
Proof.
  intros H1 Hr1 H2 Hr2. unfold backup_and_commit.
  rewrite bind_print.
  erewrite bind_ret_eq
    by (apply BackupFacts.backup_command_ok; [exact H1 | exact Hr1]).
  rewrite if_true, bind_print.
  erewrite bind_ret_eq
    by (apply BackupFacts.backup_command_fail; [exact H2 | exact Hr2]).
  rewrite if_false, bind_eprint, run_eprint.
  cbn [st_world st_trace]. rewrite <- !app_assoc. reflexivity.
Qed.

Lemma backup_commit_failed (s : state Ext) r1 w1 r2 w2 r3 w3 r4 w4 :
  shell (st_world s) cmd_rev_parse = (r1, w1) ->
  returncode r1 = 0%Z ->
  shell w1 cmd_add = (r2, w2) ->
  returncode r2 = 0%Z ->
  shell w2 cmd_status = (r3, w3) ->
  strip (stdout r3) <> [] ->
  shell w3 (cmd_commit (strftime_iso_hms (clock w3))) = (r4, w4) ->
  returncode r4 <> 0%Z ->
  backup_and_commit Ext clock shell s
  = (Ret tt,
     mkState w4 (st_trace s
                 ++ [Print msg_begin; Print (msg_exec cmd_rev_parse);
                     Run cmd_rev_parse; Print (msg_ok (stdout r1));
                     Print msg_step_add; Print (msg_exec cmd_add);
                     Run cmd_add; Print (msg_ok (stdout r2));
                     Print msg_step_status; Run cmd_status;
                     Print msg_dirty; Print msg_step_commit;
                     Print (msg_exec (cmd_commit (strftime_iso_hms (clock w3))));
                     Run (cmd_commit (strftime_iso_hms (clock w3)));
                     PrintErr (msg_cmd_error
                                 (cmd_commit (strftime_iso_hms (clock w3))));
                     PrintErr (msg_code (returncode r4));
                     PrintErr (msg_stderr (stderr r4));
                     PrintErr (msg_stdout (stdout r4));
                     PrintErr msg_commit_failed; PrintErr msg_aborted])).
Proof.
  intros H1 Hr1 H2 Hr2 H3 Hdirty H4 Hr4. unfold backup_and_commit.
  rewrite bind_print.
  erewrite bind_ret_eq
    by (apply BackupFacts.backup_command_ok; [exact H1 | exact Hr1]).
  rewrite if_true, bind_print.
  erewrite bind_ret_eq
    by (apply BackupFacts.backup_command_ok; [exact H2 | exact Hr2]).
  rewrite if_true, bind_print.
  rewrite (bind_subprocess_run _ _ _ r3 w3) by exact H3.
  destruct (strip (stdout r3)) as [|c l]; [congruence|].
  rewrite !bind_print, bind_now.
  erewrite bind_ret_eq
    by (apply BackupFacts.backup_command_fail; [exact H4 | exact Hr4]).
  rewrite if_false, bind_eprint, run_eprint.
  cbn [st_world st_trace]. rewrite <- !app_assoc. reflexivity.
Qed.

Lemma backup_pushed (s : state Ext) r1 w1 r2 w2 r3 w3 r4 w4 r5 w5 :
  shell (st_world s) cmd_rev_parse = (r1, w1) ->
  returncode r1 = 0%Z ->
  shell w1 cmd_add = (r2, w2) ->
  returncode r2 = 0%Z ->
  shell w2 cmd_status = (r3, w3) ->
  strip (stdout r3) <> [] ->
  shell w3 (cmd_commit (strftime_iso_hms (clock w3))) = (r4, w4) ->
  returncode r4 = 0%Z ->
  shell w4 cmd_push = (r5, w5) ->
  returncode r5 = 0%Z ->
  backup_and_commit Ext clock shell s
  = (Ret tt,
     mkState w5 (st_trace s
                 ++ [Print msg_begin; Print (msg_exec cmd_rev_parse);
                     Run cmd_rev_parse; Print (msg_ok (stdout r1));
                     Print msg_step_add; Print (msg_exec cmd_add);
                     Run cmd_add; Print (msg_ok (stdout r2));
                     Print msg_step_status; Run cmd_status;
                     Print msg_dirty; Print msg_step_commit;
                     Print (msg_exec (cmd_commit (strftime_iso_hms (clock w3))));
                     Run (cmd_commit (strftime_iso_hms (clock w3)));
                     Print (msg_ok (stdout r4));
                     Print msg_step_push; Print (msg_exec cmd_push);
                     Run cmd_push; Print (msg_ok (stdout r5));
                     Print msg_success])).
Proof.
  intros H1 Hr1 H2 Hr2 H3 Hdirty H4 Hr4 H5 Hr5. unfold backup_and_commit.
  rewrite bind_print.
  erewrite bind_ret_eq
    by (apply BackupFacts.backup_command_ok; [exact H1 | exact Hr1]).
  rewrite if_true, bind_print.
  erewrite bind_ret_eq
    by (apply BackupFacts.backup_command_ok; [exact H2 | exact Hr2]).
  rewrite if_true, bind_print.
  rewrite (bind_subprocess_run _ _ _ r3 w3) by exact H3.
  destruct (strip (stdout r3)) as [|c l]; [congruence|].
  rewrite !bind_print, bind_now.
  erewrite bind_ret_eq
    by (apply BackupFacts.backup_command_ok; [exact H4 | exact Hr4]).
  rewrite if_true, bind_print.
  erewrite bind_ret_eq
    by (apply BackupFacts.backup_command_ok; [exact H5 | exact Hr5]).
  rewrite if_true, run_print.
  cbn [st_world st_trace]. rewrite <- !app_assoc. reflexivity.
Qed.

End Paths.
End BackupPaths.



(** When [git --version] exits non-zero, [backup_script] exits with code 1
    after its two error lines and runs no other command. *)
Theorem missing_git_stops_backup (Ext : Type)
    (clock : world Ext -> datetime)
    (shell : world Ext -> text -> CmdResult * world Ext)
    (w w0 : world Ext) (r0 : CmdResult) :
  shell w BackupScript.cmd_version = (r0, w0) ->
  returncode r0 <> 0%Z ->
  exit_code (fst (run (BackupScript.main Ext clock shell) w)) = 1%Z
  /\ commands (st_trace (snd (run (BackupScript.main Ext clock shell) w)))
     = [BackupScript.cmd_version]
  /\ printed (st_trace (snd (run (BackupScript.main Ext clock shell) w)))
     = [BackupScript.msg_no_git; BackupScript.msg_install_git].
Proof.
  intros H0 Hr0.
  rewrite (BackupPaths.main_git_missing Ext clock shell w w0 r0 H0 Hr0).
  repeat split.
Qed.

Lemma missing_git_stops_backup_witness :
  exit_code
    (fst (backup_run [(BackupScript.cmd_version, Fixtures.failure)]
            (Fixtures.repo []))) = 1%Z
  /\ commands
       (st_trace (snd (backup_run [(BackupScript.cmd_version, Fixtures.failure)]
                         (Fixtures.repo []))))
     = [BackupScript.cmd_version]
  /\ printed
       (st_trace (snd (backup_run [(BackupScript.cmd_version, Fixtures.failure)]
                         (Fixtures.repo []))))
     = [BackupScript.msg_no_git; BackupScript.msg_install_git].
Proof.
  apply (missing_git_stops_backup unit Fixtures.clock0
           (Fixtures.shell_of [(BackupScript.cmd_version, Fixtures.failure)])
           (Fixtures.repo []) (Fixtures.repo []) Fixtures.failure).
  - vm_compute. reflexivity.
  - vm_compute. discriminate.
Defined.

(** In [backup_script], when [git rev-parse] exits non-zero nothing is
    staged: the run ends after that command, with its failure lines on the
    error stream. *)
Theorem backup_outside_repository (Ext : Type)
    (clock : world Ext -> datetime)
    (shell : world Ext -> text -> CmdResult * world Ext)
    (w w0 w1 : world Ext) (r0 r1 : CmdResult) :
  shell w BackupScript.cmd_version = (r0, w0) ->
  returncode r0 = 0%Z ->
  shell w0 BackupScript.cmd_rev_parse = (r1, w1) ->
  returncode r1 <> 0%Z ->
  commands (st_trace (snd (run (BackupScript.main Ext clock shell) w)))
  = [BackupScript.cmd_version; BackupScript.cmd_rev_parse]
  /\ last (printed (st_trace (snd (run (BackupScript.main Ext clock shell) w))))
       [] = BackupScript.msg_aborted
  /\ st_world (snd (run (BackupScript.main Ext clock shell) w)) = w1.
Proof.
  intros H0 Hr0 H1 Hr1.
  rewrite (BackupPaths.main_git_found Ext clock shell w w0 r0 H0 Hr0).
  rewrite (BackupPaths.backup_not_repo Ext clock shell
             (mkState w0 [Run BackupScript.cmd_version;
                          Print BackupScript.msg_git_found]) r1 w1 H1 Hr1).
  cbn [snd st_trace st_world app commands printed last]. repeat split.
Qed.

Lemma backup_outside_repository_witness :
  commands
    (st_trace (snd (backup_run [(BackupScript.cmd_rev_parse, Fixtures.failure)]
                      no_repo)))
  = [BackupScript.cmd_version; BackupScript.cmd_rev_parse]
  /\ last (printed
             (st_trace
                (snd (backup_run [(BackupScript.cmd_rev_parse, Fixtures.failure)]
                        no_repo)))) [] = BackupScript.msg_aborted
  /\ st_world (snd (backup_run [(BackupScript.cmd_rev_parse, Fixtures.failure)]
                     no_repo)) = no_repo.
Proof.
  apply (backup_outside_repository unit Fixtures.clock0
           (Fixtures.shell_of [(BackupScript.cmd_rev_parse, Fixtures.failure)])
           no_repo no_repo no_repo ok Fixtures.failure).
  - vm_compute. reflexivity.
  - reflexivity.
  - vm_compute. reflexivity.
  - vm_compute. discriminate.
Defined.

(** In [backup_script], when [git add .] exits non-zero the run ends there:
    no status query, no commit and no push. *)
Theorem backup_add_failure (Ext : Type)
    (clock : world Ext -> datetime)
    (shell : world Ext -> text -> CmdResult * world Ext)
    (w w0 w1 w2 : world Ext) (r0 r1 r2 : CmdResult) :
  shell w BackupScript.cmd_version = (r0, w0) ->
  returncode r0 = 0%Z ->
  shell w0 BackupScript.cmd_rev_parse = (r1, w1) ->
  returncode r1 = 0%Z ->
  shell w1 BackupScript.cmd_add = (r2, w2) ->
  returncode r2 <> 0%Z ->
  commands (st_trace (snd (run (BackupScript.main Ext clock shell) w)))
  = [BackupScript.cmd_version; BackupScript.cmd_rev_parse;
     BackupScript.cmd_add]
  /\ last (printed (st_trace (snd (run (BackupScript.main Ext clock shell) w))))
       [] = BackupScript.msg_aborted.
Proof.
  intros H0 Hr0 H1 Hr1 H2 Hr2.
  rewrite (BackupPaths.main_git_found Ext clock shell w w0 r0 H0 Hr0).
  rewrite (BackupPaths.backup_add_failed Ext clock shell
             (mkState w0 [Run BackupScript.cmd_version;
                          Print BackupScript.msg_git_found]) r1 w1 r2 w2
             H1 Hr1 H2 Hr2).
  cbn [snd st_trace st_world app commands printed last]. repeat split.
Qed.

Lemma backup_add_failure_witness :
  commands
    (st_trace (snd (backup_run [(BackupScript.cmd_add, Fixtures.failure)]
                      (Fixtures.repo []))))
  = [BackupScript.cmd_version; BackupScript.cmd_rev_parse;
     BackupScript.cmd_add]
  /\ last (printed
             (st_trace
                (snd (backup_run [(BackupScript.cmd_add, Fixtures.failure)]
                        (Fixtures.repo []))))) [] = BackupScript.msg_aborted.
Proof.
  apply (backup_add_failure unit Fixtures.clock0
           (Fixtures.shell_of [(BackupScript.cmd_add, Fixtures.failure)])
           (Fixtures.repo []) (Fixtures.repo []) (Fixtures.repo [])
           (Fixtures.repo []) ok ok Fixtures.failure).
  - vm_compute. reflexivity.
  - reflexivity.
  - vm_compute. reflexivity.
  - reflexivity.
  - vm_compute. reflexivity.
  - vm_compute. discriminate.
Defined.

(** In [backup_script], when the commit command exits non-zero no push is
    attempted; the run ends on its failure lines, and still with exit code
    0. *)
Theorem backup_commit_failure_skips_push (Ext : Type)
    (clock : world Ext -> datetime)
    (shell : world Ext -> text -> CmdResult * world Ext)
    (w w0 w1 w2 w3 w4 : world Ext) (r0 r1 r2 r3 r4 : CmdResult) :
  shell w BackupScript.cmd_version = (r0, w0) ->
  returncode r0 = 0%Z ->
  shell w0 BackupScript.cmd_rev_parse = (r1, w1) ->
  returncode r1 = 0%Z ->
  shell w1 BackupScript.cmd_add = (r2, w2) ->
  returncode r2 = 0%Z ->
  shell w2 BackupScript.cmd_status = (r3, w3) ->
  strip (stdout r3) <> [] ->
  shell w3 (BackupScript.cmd_commit (strftime_iso_hms (clock w3))) = (r4, w4) ->
  returncode r4 <> 0%Z ->
  exit_code (fst (run (BackupScript.main Ext clock shell) w)) = 0%Z
  /\ commands (st_trace (snd (run (BackupScript.main Ext clock shell) w)))
     = [BackupScript.cmd_version; BackupScript.cmd_rev_parse;
        BackupScript.cmd_add; BackupScript.cmd_status;
        BackupScript.cmd_commit (strftime_iso_hms (clock w3))]
  /\ last (printed (st_trace (snd (run (BackupScript.main Ext clock shell) w))))
       [] = BackupScript.msg_aborted.
Proof.
  intros H0 Hr0 H1 Hr1 H2 Hr2 H3 Hdirty H4 Hr4.
  rewrite (BackupPaths.main_git_found Ext clock shell w w0 r0 H0 Hr0).
  rewrite (BackupPaths.backup_commit_failed Ext clock shell
             (mkState w0 [Run BackupScript.cmd_version;
                          Print BackupScript.msg_git_found]) r1 w1 r2 w2
             r3 w3 r4 w4 H1 Hr1 H2 Hr2 H3 Hdirty H4 Hr4).
  cbn [fst snd st_trace st_world app commands printed last exit_code].
  repeat split.
Qed.

(** In [backup_script], with pending changes and every command
    succeeding, the commands run are version check, repository check,
    stage, status, commit and push, in this order; the commit carries the
    message "Automated backup <date> <time>". *)
Theorem backup_success_order (Ext : Type)
    (clock : world Ext -> datetime)
    (shell : world Ext -> text -> CmdResult * world Ext)
    (w w0 w1 w2 w3 w4 w5 : world Ext) (r0 r1 r2 r3 r4 r5 : CmdResult) :
  shell w BackupScript.cmd_version = (r0, w0) ->
  returncode r0 = 0%Z ->
  shell w0 BackupScript.cmd_rev_parse = (r1, w1) ->
  returncode r1 = 0%Z ->
  shell w1 BackupScript.cmd_add = (r2, w2) ->
  returncode r2 = 0%Z ->
  shell w2 BackupScript.cmd_status = (r3, w3) ->
  strip (stdout r3) <> [] ->
  shell w3 (BackupScript.cmd_commit (strftime_iso_hms (clock w3))) = (r4, w4) ->
  returncode r4 = 0%Z ->
  shell w4 BackupScript.cmd_push = (r5, w5) ->
  returncode r5 = 0%Z ->
  commands (st_trace (snd (run (BackupScript.main Ext clock shell) w)))
  = [BackupScript.cmd_version; BackupScript.cmd_rev_parse;
     BackupScript.cmd_add; BackupScript.cmd_status;
     lit "git commit -m " ++ QUOTE :: lit "Automated backup "
       ++ strftime_iso (clock w3) ++ SPACE :: strftime_hms (clock w3)
       ++ [QUOTE];
     BackupScript.cmd_push]
  /\ last (printed (st_trace (snd (run (BackupScript.main Ext clock shell) w))))
       [] = BackupScript.msg_success
  /\ st_world (snd (run (BackupScript.main Ext clock shell) w)) = w5.
Proof.
  intros H0 Hr0 H1 Hr1 H2 Hr2 H3 Hdirty H4 Hr4 H5 Hr5.
  rewrite (BackupPaths.main_git_found Ext clock shell w w0 r0 H0 Hr0).
  rewrite (BackupPaths.backup_pushed Ext clock shell
             (mkState w0 [Run BackupScript.cmd_version;
                          Print BackupScript.msg_git_found]) r1 w1 r2 w2
             r3 w3 r4 w4 r5 w5 H1 Hr1 H2 Hr2 H3 Hdirty H4 Hr4 H5 Hr5).
  cbn [fst snd st_trace st_world app commands printed last].
  split; [|split; reflexivity].
  unfold BackupScript.cmd_commit, strftime_iso_hms.
  rewrite <- !app_assoc. reflexivity.
Qed.

Lemma backup_commit_failure_skips_push_witness :
  exit_code
    (fst (backup_run
            [(BackupScript.cmd_status, Fixtures.dirty);
             (BackupScript.cmd_commit
                (strftime_iso_hms (Fixtures.clock0 (Fixtures.repo []))),
              Fixtures.failure)]
            (Fixtures.repo []))) = 0%Z
  /\ commands
       (st_trace
          (snd (backup_run
                  [(BackupScript.cmd_status, Fixtures.dirty);
                   (BackupScript.cmd_commit
                      (strftime_iso_hms (Fixtures.clock0 (Fixtures.repo []))),
                    Fixtures.failure)]
                  (Fixtures.repo []))))
     = [BackupScript.cmd_version; BackupScript.cmd_rev_parse;
        BackupScript.cmd_add; BackupScript.cmd_status;
        BackupScript.cmd_commit
          (strftime_iso_hms (Fixtures.clock0 (Fixtures.repo [])))]
  /\ last (printed
             (st_trace
                (snd (backup_run
                        [(BackupScript.cmd_status, Fixtures.dirty);
                         (BackupScript.cmd_commit
                            (strftime_iso_hms
                               (Fixtures.clock0 (Fixtures.repo []))),
                          Fixtures.failure)]
                        (Fixtures.repo []))))) []
     = BackupScript.msg_aborted.
Proof.
  apply (backup_commit_failure_skips_push unit Fixtures.clock0
           (Fixtures.shell_of
              [(BackupScript.cmd_status, Fixtures.dirty);
               (BackupScript.cmd_commit
                  (strftime_iso_hms (Fixtures.clock0 (Fixtures.repo []))),
                Fixtures.failure)])
           (Fixtures.repo []) (Fixtures.repo []) (Fixtures.repo [])
           (Fixtures.repo []) (Fixtures.repo []) (Fixtures.repo [])
           ok ok ok Fixtures.dirty Fixtures.failure).
  - vm_compute. reflexivity.
  - reflexivity.
  - vm_compute. reflexivity.
  - reflexivity.
  - vm_compute. reflexivity.
  - reflexivity.
  - vm_compute. reflexivity.
  - vm_compute. discriminate.
  - vm_compute. reflexivity.
  - vm_compute. discriminate.
Defined.

Lemma backup_success_order_witness :
  commands
    (st_trace (snd (backup_run [(BackupScript.cmd_status, Fixtures.dirty)]
                      (Fixtures.repo []))))
  = [BackupScript.cmd_version; BackupScript.cmd_rev_parse;
     BackupScript.cmd_add; BackupScript.cmd_status;
     lit "git commit -m " ++ QUOTE :: lit "Automated backup "
       ++ strftime_iso (Fixtures.clock0 (Fixtures.repo []))
       ++ SPACE :: strftime_hms (Fixtures.clock0 (Fixtures.repo []))
       ++ [QUOTE];
     BackupScript.cmd_push]
  /\ last (printed
             (st_trace
                (snd (backup_run [(BackupScript.cmd_status, Fixtures.dirty)]
                        (Fixtures.repo []))))) []
     = BackupScript.msg_success
  /\ st_world (snd (backup_run [(BackupScript.cmd_status, Fixtures.dirty)]
                     (Fixtures.repo []))) = Fixtures.repo [].
Proof.
  apply (backup_success_order unit Fixtures.clock0
           (Fixtures.shell_of [(BackupScript.cmd_status, Fixtures.dirty)])
           (Fixtures.repo []) (Fixtures.repo []) (Fixtures.repo [])
           (Fixtures.repo []) (Fixtures.repo []) (Fixtures.repo [])
           (Fixtures.repo [])
           ok ok ok Fixtures.dirty ok ok).
  - vm_compute. reflexivity.
  - reflexivity.
  - vm_compute. reflexivity.
  - reflexivity.
  - vm_compute. reflexivity.
  - reflexivity.
  - vm_compute. reflexivity.
  - vm_compute. discriminate.
  - vm_compute. reflexivity.
  - reflexivity.
  - vm_compute. reflexivity.
  - reflexivity.
Defined.

(** * Trimming *)

Module StripFacts.
Import ReSpec.

Lemma lstrip_stops s : stops is_space (lstrip s) = true.
Proof.
  induction s as [|c s IH]; [reflexivity|]. simpl.
  destruct (is_space c) eqn:E; [exact IH|]. simpl. rewrite E. reflexivity.
Qed.

Lemma lstrip_id s : stops is_space s = true -> lstrip s = s.
Proof.
  destruct s as [|c s]; [reflexivity|]. simpl. intros H.
  apply negb_true_iff in H. rewrite H. reflexivity.
Qed.

(** [lstrip] removes a run of white space from the front. *)
Lemma lstrip_split s :
  exists sp, s = sp ++ lstrip s /\ forallb is_space sp = true.
Proof.
  induction s as [|c s IH].
  - exists []. split; reflexivity.
  - simpl. destruct (is_space c) eqn:E.
    + destruct IH as (sp & H1 & H2). exists (c :: sp). simpl.
      rewrite E, H2, <- H1. split; reflexivity.
    + exists []. split; reflexivity.
Qed.

Lemma stops_prefix (cls : char -> bool) a b :
  a <> [] -> stops cls (a ++ b) = true -> stops cls a = true.
Proof. destruct a; [congruence | auto]. Qed.

(** What [strip] returns starts and ends with a character that is not
    white space. *)
Lemma strip_stops s :
  stops is_space (strip s) = true /\ stops is_space (rev (strip s)) = true.
Proof.
  unfold strip. rewrite rev_involutive. split; [|apply lstrip_stops].
  destruct (lstrip_split (rev (lstrip s))) as (sp & H1 & _).
  remember (lstrip (rev (lstrip s))) as b eqn:Hb.
  destruct (rev b) as [|c t] eqn:E; [reflexivity|].
  apply (stops_prefix is_space (c :: t) (rev sp)); [discriminate|].
  rewrite <- E, <- rev_app_distr, <- H1, rev_involutive.
  apply lstrip_stops.
Qed.

(** [s.strip().strip() == s.strip()] *)
Lemma strip_idempotent s : strip (strip s) = strip s.
Proof.
  destruct (strip_stops s) as [H1 H2].
  unfold strip at 1. rewrite (lstrip_id _ H1), (lstrip_id _ H2).
  apply rev_involutive.
Qed.

End StripFacts.

(** [check_for_changes] answers by the trimmed output of a successful
    status query: it returns [True] exactly when that output is not empty
    (trimming it a second time changes nothing). *)
Theorem status_query_decides_by_trimmed_output (Ext : Type)
    (shell : world Ext -> text -> CmdResult * world Ext)
    (s : state Ext) (r : CmdResult) (w' : world Ext) :
  shell (st_world s) GithubBackup.cmd_status = (r, w') ->
  returncode r = 0%Z ->
  fst (GithubBackup.check_for_changes Ext shell s)
  = Ret (match strip (stdout r) with [] => false | _ => true end)
  /\ commands (st_trace (snd (GithubBackup.check_for_changes Ext shell s)))
     = commands (st_trace s) ++ [GithubBackup.cmd_status].
Proof.
  intros H Hr.
  rewrite (GithubFacts.check_for_changes_ok Ext shell s r w' H Hr).
  cbn [fst snd st_trace]. rewrite StripFacts.strip_idempotent, commands_app.
  split; reflexivity.
Qed.

Lemma status_query_decides_by_trimmed_output_witness :
  fst (GithubBackup.check_for_changes unit
         (Fixtures.shell_of [(GithubBackup.cmd_status, Fixtures.dirty)])
         (mkState (Fixtures.repo []) []))
  = Ret (match strip (stdout Fixtures.dirty) with [] => false | _ => true end)
  /\ commands
       (st_trace
          (snd (GithubBackup.check_for_changes unit
                  (Fixtures.shell_of [(GithubBackup.cmd_status, Fixtures.dirty)])
                  (mkState (Fixtures.repo []) []))))
     = commands (st_trace (mkState (Fixtures.repo []) []))
       ++ [GithubBackup.cmd_status].
Proof.
  apply (status_query_decides_by_trimmed_output unit
           (Fixtures.shell_of [(GithubBackup.cmd_status, Fixtures.dirty)])
           (mkState (Fixtures.repo []) []) Fixtures.dirty (Fixtures.repo [])).
  - vm_compute. reflexivity.
  - reflexivity.
Defined.

(** * The version the orchestrator reads back *)

Module ReadBack.
Import GithubBackup ReFacts.

Lemma search_sound p s r :
  search p s = Some r -> exists n, match_here p (skipn n s) = Some r.
Proof.
  induction s as [|c s IH]; simpl.
  - destruct (match_here p []) eqn:E; [|discriminate].
    intros H. injection H as <-. exists O. exact E.
  - destruct (match_here p (c :: s)) eqn:E.
    + intros H. injection H as <-. exists O. exact E.
    + intros H. destruct (IH H) as [n Hn]. exists (S n). exact Hn.
Qed.

(** Group 1 of a match of the pattern of [update_version]. *)
Lemma updated_group_shape s r :
  match_here updated_pattern s = Some r ->
  exists ds, ds <> [] /\ forallb digit_or_dot ds = true
             /\ updated_group r = 118 :: ds.
Proof.
  intros H. destruct r as [ps rest].
  apply match_here_sound in H as [_ HF].
  unfold updated_pattern in HF.
  apply Forall2_app_inv_l in HF as (ps1 & ps2 & H1 & H2 & ->).
  apply Forall2_length in H1. unfold chars in H1. rewrite length_map in H1.
  inversion H2 as [|it1 q1 l1 l1' Hq1 H2' E1 E2]; subst.
  inversion H2' as [|it2 q2 l2 l2' Hq2 H2'' E3 E4]; subst.
  inversion H2''; subst.
  simpl in Hq1, Hq2. subst q1. destruct Hq2 as [Hne Hd].
  exists q2. repeat split; try assumption.
  unfold updated_group. cbn [fst]. rewrite H1.
  rewrite VersionFacts.skipn_app_exact. simpl. rewrite app_nil_r. reflexivity.
Qed.

Lemma version_of_output_shape output :
  version_of_output output = UNKNOWN_VERSION
  \/ exists ds, ds <> [] /\ forallb digit_or_dot ds = true
                /\ version_of_output output = 118 :: ds.
Proof.
  unfold version_of_output.
  destruct (search updated_pattern output) as [r|] eqn:E; [right | left; reflexivity].
  apply search_sound in E as [n Hn]. eapply updated_group_shape, Hn.
Qed.

Lemma digit_or_dot_no_nl ds :
  forallb digit_or_dot ds = true -> LineSpec.no_nl ds = true.
Proof.
  induction ds as [|c ds IH]; [reflexivity|]. simpl. intros H.
  apply andb_true_iff in H as [Hc Hs]. rewrite (IH Hs), andb_true_r.
  destruct (N.eqb_spec c NL) as [->|]; [|reflexivity].
  vm_compute in Hc. discriminate.
Qed.

Lemma version_of_output_no_nl output :
  LineSpec.no_nl (version_of_output output) = true.
Proof.
  destruct (version_of_output_shape output) as [E | (ds & _ & Hd & E)];
    rewrite E; [reflexivity|].
  simpl. apply digit_or_dot_no_nl, Hd.
Qed.

End ReadBack.

(** After a successful synchronizer command, [update_version] returns
    either the fallback ["version inconnue"] or ["v"] followed by a
    non-empty run of digits and dots. *)
Theorem returned_version_shape (Ext : Type)
    (shell : world Ext -> text -> CmdResult * world Ext)
    (s : state Ext) (r : CmdResult) (w' : world Ext) :
  shell (st_world s) GithubBackup.cmd_update_version = (r, w') ->
  returncode r = 0%Z ->
  exists version,
    fst (GithubBackup.update_version Ext shell s) = Ret version
    /\ (version = GithubBackup.UNKNOWN_VERSION
        \/ exists ds, ds <> [] /\ forallb digit_or_dot ds = true
                      /\ version = 118 :: ds).
Proof.
  intros H Hr.
  rewrite (GithubFacts.update_version_ok Ext shell s r w' H Hr).
  eexists. split; [reflexivity|]. apply ReadBack.version_of_output_shape.
Qed.

Lemma returned_version_shape_witness :
  exists version,
    fst (GithubBackup.update_version unit
           (Fixtures.shell_of
              [(GithubBackup.cmd_update_version, Fixtures.synced)])
           (mkState (Fixtures.repo []) [])) = Ret version
    /\ (version = GithubBackup.UNKNOWN_VERSION
        \/ exists ds, ds <> [] /\ forallb digit_or_dot ds = true
                      /\ version = 118 :: ds).
Proof.
  apply (returned_version_shape unit
           (Fixtures.shell_of
              [(GithubBackup.cmd_update_version, Fixtures.synced)])
           (mkState (Fixtures.repo []) []) Fixtures.synced (Fixtures.repo [])).
  - vm_compute. reflexivity.
  - reflexivity.
Defined.

(** In every run of [github_backup.main] that reaches the commit stage,
    the message file is written with the lines
    ["Version <version> - <date>"], an empty line, and then the lines of
    the change summary. *)
Theorem commit_message_layout (Ext : Type)
    (clock : world Ext -> datetime)
    (shell : world Ext -> text -> CmdResult * world Ext)
    (find_sections : text -> list (text * text * text))
    (remote branch : text) (w w1 w2 w3 : world Ext)
    (r1 r2 r3 : CmdResult) :
  staged shell w w1 w2 w3 r1 r2 r3 ->
  exists evs message,
    st_trace
      (snd (run (GithubBackup.main Ext clock shell find_sections
                   remote branch) w))
    = (before_commit clock w w2 r1
       ++ [Print GithubBackup.msg_committing;
           Write GithubBackup.COMMIT_MSG_FILE message])
      ++ evs
    /\ split_lines message
       = (lit "Version " ++ version_of_output (strip (stdout r1))
            ++ lit " - " ++ strftime_iso (clock w3))
         :: [] :: split_lines (changes_text find_sections w2).
Proof.
  intros Hst.
  destruct (GithubFacts.main_writes_message Ext clock shell find_sections
              remote branch w w1 w2 w3 r1 r2 r3 Hst) as [evs Hevs].
  exists evs. eexists. split; [exact Hevs|].
  unfold message_in, GithubBackup.commit_message.
  replace (lit "Version " ++ version_of_output (strip (stdout r1))
             ++ lit " - " ++ strftime_iso (clock w3)
             ++ NL :: NL :: changes_text find_sections w2)
    with ((lit "Version " ++ version_of_output (strip (stdout r1))
             ++ lit " - " ++ strftime_iso (clock w3))
            ++ NL :: ([] ++ NL :: changes_text find_sections w2))
    by (rewrite <- !app_assoc; reflexivity).
  rewrite LineFacts.split_lines_cons.
  - rewrite LineFacts.split_lines_cons by reflexivity. reflexivity.
  - rewrite !LineFacts.no_nl_app, ReadBack.version_of_output_no_nl,
      no_nl_strftime_iso. reflexivity.
Qed.

Lemma commit_message_layout_witness :
  exists evs message,
    st_trace
      (snd (github_run [(GithubBackup.cmd_update_version, Fixtures.synced);
                        (GithubBackup.cmd_status, Fixtures.dirty)]
              (Fixtures.repo [])))
    = (before_commit Fixtures.clock0 (Fixtures.repo []) (Fixtures.repo [])
         Fixtures.synced
       ++ [Print GithubBackup.msg_committing;
           Write GithubBackup.COMMIT_MSG_FILE message])
      ++ evs
    /\ split_lines message
       = (lit "Version " ++ version_of_output (strip (stdout Fixtures.synced))
            ++ lit " - " ++ strftime_iso (Fixtures.clock0 (Fixtures.repo [])))
         :: [] :: split_lines (changes_text Fixtures.no_sections
                                 (Fixtures.repo [])).
Proof.
  apply (commit_message_layout unit Fixtures.clock0
           (Fixtures.shell_of
              [(GithubBackup.cmd_update_version, Fixtures.synced);
               (GithubBackup.cmd_status, Fixtures.dirty)])
           Fixtures.no_sections (lit "origin") (lit "main")
           (Fixtures.repo []) (Fixtures.repo []) (Fixtures.repo [])
           (Fixtures.repo []) Fixtures.synced Fixtures.dirty ok).
  unfold staged, dirty_tree.
  repeat split; try (vm_compute; reflexivity); vm_compute; discriminate.
Defined.

(** * The synchronizer's output, read by the orchestrator *)

Module CrossScript.
Import ReSpec ReFacts StripFacts GoldenFacts.

Lemma search_here p s r : match_here p s = Some r -> search p s = Some r.
Proof. intros H. destruct s; simpl; rewrite H; reflexivity. Qed.

Lemma search_cons_fail p c s :
  match_here p (c :: s) = None -> search p (c :: s) = search p s.
Proof. intros H. simpl. rewrite H. reflexivity. Qed.

Lemma forallb_map_comp {A B} (f : B -> bool) (g : A -> B) l :
  forallb f (map g l) = forallb (fun x => f (g x)) l.
Proof. induction l as [|x l IH]; simpl; [reflexivity|]. rewrite IH. reflexivity. Qed.

Lemma forallb_rev_eq {A} (f : A -> bool) l :
  forallb f (rev l) = forallb f l.
Proof.
  induction l as [|x l IH]; simpl; [reflexivity|].
  rewrite forallb_app, IH. simpl. rewrite andb_true_r. apply andb_comm.
Qed.

Lemma no_match_before_S p c s k :
  no_match_before p (c :: s) (S k) = true ->
  match_here p (c :: s) = None /\ no_match_before p s k = true.
Proof.
  unfold no_match_before. cbn [seq forallb skipn].
  intros H. apply andb_true_iff in H as [H0 H].
  split; [destruct (match_here p (c :: s)); [discriminate | reflexivity]|].
  rewrite <- seq_shift, forallb_map_comp in H. exact H.
Qed.

(** [search] goes past a prefix in which the pattern matches nowhere. *)
Lemma search_skip p a s :
  no_match_before p (a ++ s) (List.length a) = true ->
  search p (a ++ s) = search p s.
Proof.
  induction a as [|c a IH]; intros H; [reflexivity|].
  cbn [app List.length] in H. apply no_match_before_S in H as [H0 H].
  cbn [app]. rewrite (search_cons_fail _ _ _ H0). apply IH, H.
Qed.

(** [search] goes past characters that are not the first of the pattern. *)
Lemma search_app_no_head h tl a s :
  forallb (fun x => negb (x =? h)) a = true ->
  search (Chr h :: tl) (a ++ s) = search (Chr h :: tl) s.
Proof.
  induction a as [|c a IH]; intros H; [reflexivity|].
  simpl in H. apply andb_true_iff in H as [Hc Ha].
  apply negb_true_iff in Hc.
  cbn [app]. rewrite search_cons_fail; [apply IH, Ha|].
  cbn [match_here]. rewrite Hc. reflexivity.
Qed.

Lemma lstrip_spaces sp s :
  forallb is_space sp = true -> lstrip (sp ++ s) = lstrip s.
Proof.
  induction sp as [|c sp IH]; intros H; [reflexivity|].
  simpl in H. apply andb_true_iff in H as [Hc Hs].
  simpl. rewrite Hc. apply IH, Hs.
Qed.

(** Trimming removes white space after a text that starts and ends with
    other characters. *)
Lemma strip_trailing a sp :
  a <> [] ->
  stops is_space a = true ->
  stops is_space (rev a) = true ->
  forallb is_space sp = true ->
  strip (a ++ sp) = a.
Proof.
  intros Hne Ha Hr Hsp. unfold strip.
  rewrite (lstrip_id (a ++ sp)) by (apply VersionFacts.stops_app; assumption).
  rewrite rev_app_distr, lstrip_spaces by (rewrite forallb_rev_eq; exact Hsp).
  rewrite (lstrip_id _ Hr). apply rev_involutive.
Qed.

Lemma search_past p h a s :
  head_is h p = true ->
  forallb (fun x => negb (x =? h)) a = true ->
  search p (a ++ s) = search p s.
Proof.
  intros Hp. destruct p as [|[c|cls] tl]; try discriminate.
  simpl in Hp. apply N.eqb_eq in Hp. subst c. apply search_app_no_head.
Qed.

Lemma str_not_V n : forallb (fun x => negb (x =? 86)) (str n) = true.
Proof.
  apply TextFacts.str_forall. intros d Hd.
  apply negb_true_iff, N.eqb_neq. lia.
Qed.

Lemma version_string_not_V v :
  forallb (fun x => negb (x =? 86)) (version_string v) = true.
Proof.
  unfold version_string.
  change (118 :: str (major v) ++ DOT :: str (minor v) ++ DOT
            :: str (patch v) ++ DOT :: str (build v))
    with ([118] ++ str (major v) ++ [DOT] ++ str (minor v) ++ [DOT]
            ++ str (patch v) ++ [DOT] ++ str (build v)).
  rewrite !forallb_app, !str_not_V. reflexivity.
Qed.

Lemma str_digit_or_dot n : forallb digit_or_dot (str n) = true.
Proof.
  apply TextFacts.str_forall. intros d Hd. unfold digit_or_dot.
  rewrite TextFacts.is_digit_ascii by assumption. reflexivity.
Qed.

Lemma stops_rev_end (X : text) :
  stops is_space (rev (X ++ msg_success)) = true.
Proof.
  rewrite rev_app_distr. apply VersionFacts.stops_app.
  - intros E. apply (f_equal (@List.length _)) in E. vm_compute in E. discriminate.
  - vm_compute. reflexivity.
Qed.

Lemma read_back_text v today :
  GithubSpec.version_of_output
    (strip (msg_start ++ NL :: msg_extracted (version_string v) ++ NL
              :: msg_updated (version_string v) ++ NL
              :: msg_date today ++ NL :: msg_success ++ [NL]))
  = version_string v.
Proof.
  set (R0 := lit " dans " ++ CONFIG_PATH ++ NL :: msg_date today ++ [NL]).
  assert (E : msg_start ++ NL :: msg_extracted (version_string v) ++ NL
              :: msg_updated (version_string v) ++ NL
              :: msg_date today ++ NL :: msg_success ++ [NL]
            = ((msg_start ++ NL :: lit "Version extraite du changelog: "
                 ++ version_string v ++ NL
                 :: msg_updated_prefix ++ version_string v ++ R0)
                 ++ msg_success) ++ [NL]).
  { unfold R0, msg_extracted, msg_updated.
    repeat (rewrite <- !app_assoc; cbn [app]). reflexivity. }
  rewrite E. clear E.
  rewrite strip_trailing;
    [ | | | apply stops_rev_end | reflexivity ].
  2:{ intros E. apply app_eq_nil in E as [E _]. apply app_eq_nil in E as [E _].
      apply (f_equal (@List.length _)) in E. vm_compute in E. discriminate. }
  2:{ rewrite <- !app_assoc. apply VersionFacts.stops_app.
      - intros E. apply (f_equal (@List.length _)) in E. vm_compute in E. discriminate.
      - vm_compute. reflexivity. }
  unfold GithubSpec.version_of_output.
  repeat (rewrite <- !app_assoc; cbn [app]).
  rewrite (search_skip GithubBackup.updated_pattern msg_start)
    by (match goal with |- context [msg_start ++ ?X] => generalize X end;
        intros X; vm_compute; reflexivity).
  rewrite search_cons_fail by reflexivity.
  rewrite (search_skip GithubBackup.updated_pattern (lit "Version extraite du changelog: "))
    by (match goal with |- context [lit "Version extraite du changelog: " ++ ?X] => generalize X end;
        intros X; vm_compute; reflexivity).
  rewrite (search_past GithubBackup.updated_pattern 86 (version_string v))
    by (reflexivity || apply version_string_not_V).
  rewrite search_cons_fail by reflexivity.
  assert (Hds : forallb digit_or_dot
                  (str (major v) ++ DOT :: str (minor v) ++ DOT
                     :: str (patch v) ++ DOT :: str (build v)) = true).
  { change (str (major v) ++ DOT :: str (minor v) ++ DOT
              :: str (patch v) ++ DOT :: str (build v))
      with (str (major v) ++ [DOT] ++ str (minor v) ++ [DOT]
              ++ str (patch v) ++ [DOT] ++ str (build v)).
    rewrite !forallb_app, !str_digit_or_dot. reflexivity. }
  assert (Hne : str (major v) ++ DOT :: str (minor v) ++ DOT
                  :: str (patch v) ++ DOT :: str (build v) <> []).
  { intros E. apply app_eq_nil in E as [E _].
    exact (TextFacts.str_nonempty _ E). }
  unfold version_string in *.
  set (ds := str (major v) ++ DOT :: str (minor v) ++ DOT
               :: str (patch v) ++ DOT :: str (build v)) in *.
  change msg_updated_prefix with GithubBackup.updated_prefix.
  cbn [app].
  erewrite search_here.
  2:{ unfold GithubBackup.updated_pattern. apply match_chars_then.
      apply VersionFacts.match_chr.
      apply VersionFacts.match_plus; [exact Hne | exact Hds | | reflexivity].
      unfold R0. reflexivity. }
  unfold GithubBackup.updated_group. cbn [fst].
  rewrite <- (length_map (fun c => [c]) GithubBackup.updated_prefix).
  rewrite VersionFacts.skipn_app_exact. cbn [List.concat app].
  rewrite app_nil_r. reflexivity.
Qed.

End CrossScript.

(** What the synchronizer prints on a successful run is what the
    orchestrator expects: when the synchronizer command of
    [github_backup] exits with code 0 and its captured output is the
    standard output of a successful run of [update_version.py],
    [update_version] returns the version that run rendered. *)
Theorem synchronizer_output_is_read_back (Ext : Type)
    (clock : world Ext -> datetime)
    (shell : world Ext -> text -> CmdResult * world Ext)
    (w : world Ext) (changelog content : text) (v : version)
    (s : state Ext) (r : CmdResult) (w' : world Ext) :
  files w CHANGELOG_PATH = Some changelog ->
  first_version changelog = Some (Some v) ->
  files w CONFIG_PATH = Some content ->
  isdir w CONFIG_PATH = false ->
  shell (st_world s) GithubBackup.cmd_update_version = (r, w') ->
  returncode r = 0%Z ->
  stdout r = stdout_of (st_trace (snd (run (main Ext clock) w))) ->
  fst (GithubBackup.update_version Ext shell s) = Ret (version_string v).
Proof.
  intros Hl Hv Hf Hd H Hr Hout.
  rewrite (GithubFacts.update_version_ok Ext shell s r w' H Hr).
  cbn [fst]. f_equal. rewrite Hout.
  rewrite (SyncFacts.main_synchronized Ext clock w changelog v content
             Hl Hv Hf Hd).
  cbn [snd st_trace stdout_of].
  apply CrossScript.read_back_text.
Qed.

Lemma synchronizer_output_is_read_back_witness :
  fst (GithubBackup.update_version unit
         (Fixtures.shell_of
            [(GithubBackup.cmd_update_version, release_output)])
         (mkState release_tree []))
  = Ret (version_string (mkVersion 2 0 0 5)).
Proof.
  apply (synchronizer_output_is_read_back unit Fixtures.clock0
           (Fixtures.shell_of
              [(GithubBackup.cmd_update_version, release_output)])
           release_tree Fixtures.changelog_two Fixtures.config_h
           (mkVersion 2 0 0 5) (mkState release_tree []) release_output
           release_tree).
  - vm_compute. reflexivity.
  - vm_compute. reflexivity.
  - vm_compute. reflexivity.
  - reflexivity.
  - vm_compute. reflexivity.
  - reflexivity.
  - reflexivity.
Defined.

(** * The change summary *)

Module RenderFacts.
Import LineFacts SplitJoin StripFacts.

Lemma split_lines_no_nl s : forallb no_nl (split_lines s) = true.
Proof.
  induction s as [l Hl | l rest Hl IH] using line_ind.
  - rewrite split_lines_line by assumption. simpl. rewrite Hl. reflexivity.
  - rewrite split_lines_cons by assumption. simpl. rewrite Hl. exact IH.
Qed.

Lemma no_nl_lstrip s : no_nl s = true -> no_nl (lstrip s) = true.
Proof.
  intros H. destruct (lstrip_split s) as (sp & E & _).
  rewrite E, no_nl_app in H. apply andb_true_iff in H. tauto.
Qed.

Lemma no_nl_strip s : no_nl s = true -> no_nl (strip s) = true.
Proof.
  intros H. unfold strip, no_nl.
  rewrite CrossScript.forallb_rev_eq. apply no_nl_lstrip.
  unfold no_nl. rewrite CrossScript.forallb_rev_eq. apply no_nl_lstrip, H.
Qed.

(** One action line of the summary, as [extract_latest_changes] indents
    it. *)
Lemma indent_no_nl line :
  no_nl line = true ->
  no_nl (if GithubBackup.starts_with_dash (strip line)
         then lit "  " ++ strip line else lit "    " ++ strip line) = true.
Proof.
  intros H. pose proof (no_nl_strip line H) as Hs.
  destruct (GithubBackup.starts_with_dash (strip line));
    rewrite no_nl_app, Hs; reflexivity.
Qed.

Lemma forallb_map_preserved (f : text -> text) ls :
  (forall l, no_nl l = true -> no_nl (f l) = true) ->
  forallb no_nl ls = true -> forallb no_nl (map f ls) = true.
Proof.
  intros Hf. induction ls as [|l ls IH]; [reflexivity|].
  simpl. intros H. apply andb_true_iff in H as [Hl Hls].
  rewrite (Hf l Hl), (IH Hls). reflexivity.
Qed.

Lemma forallb_map_all {A B} (P : B -> bool) (f : A -> B) ls :
  (forall l, P (f l) = true) -> forallb P (map f ls) = true.
Proof.
  intros Hf. induction ls as [|l ls IH]; [reflexivity|].
  simpl. rewrite Hf, IH. reflexivity.
Qed.

End RenderFacts.

(** The summary rendered for a changelog section has the trimmed title as
    first line, the category line as second, and then one line per line of
    the trimmed action text, each starting with two spaces. *)
Theorem rendered_changes_layout (title category action : text) :
  no_nl (strip title) = true ->
  no_nl (strip category) = true ->
  List.length (split_lines (GithubBackup.render_section
                              (title, category, action)))
  = (2 + List.length (split_lines (strip action)))%nat
  /\ nth_error (split_lines (GithubBackup.render_section
                               (title, category, action))) 0
     = Some (strip title)
  /\ nth_error (split_lines (GithubBackup.render_section
                               (title, category, action))) 1
     = Some (utf8 "Catégorie: " ++ strip category)
  /\ forallb (is_prefix (lit "  "))
       (skipn 2 (split_lines (GithubBackup.render_section
                                (title, category, action)))) = true.
Proof.
  intros Ht Hc.
  set (indent := fun line : text =>
         if GithubBackup.starts_with_dash (strip line)
         then lit "  " ++ strip line else lit "    " ++ strip line).
  assert (E : split_lines (GithubBackup.render_section (title, category, action))
              = strip title :: (utf8 "Catégorie: " ++ strip category)
                  :: map indent (split_lines (strip action))).
  { assert (Hj : GithubBackup.render_section (title, category, action)
                 = join_lines (strip title
                                 :: (utf8 "Catégorie: " ++ strip category)
                                 :: map indent (split_lines (strip action)))).
    { pose proof (SplitJoin.split_lines_nonempty (strip action)) as Hne.
      unfold GithubBackup.render_section. fold indent.
      destruct (split_lines (strip action)) as [|l ls]; [congruence|].
      cbn [map join_lines]. rewrite <- !app_assoc. reflexivity. }
    rewrite Hj. apply SplitJoin.split_join; [discriminate|].
    cbn [forallb]. rewrite Ht, LineFacts.no_nl_app, Hc. cbn [andb].
    change (no_nl (utf8 "Catégorie: ")) with true. cbn [andb].
    apply RenderFacts.forallb_map_preserved;
      [apply RenderFacts.indent_no_nl | apply RenderFacts.split_lines_no_nl]. }
  rewrite E. cbn [List.length nth_error skipn]. rewrite length_map.
  repeat split.
  apply RenderFacts.forallb_map_all. intros l. unfold indent.
  destruct (GithubBackup.starts_with_dash (strip l)); reflexivity.
Qed.

Lemma rendered_changes_layout_witness :
  List.length (split_lines (GithubBackup.render_section
                              (lit " Refonte ", lit "core ",
                               NL :: lit "- point" ++ NL :: lit "  suite")))
  = (2 + List.length (split_lines
                        (strip (NL :: lit "- point" ++ NL :: lit "  suite"))))%nat
  /\ nth_error (split_lines (GithubBackup.render_section
                               (lit " Refonte ", lit "core ",
                                NL :: lit "- point" ++ NL :: lit "  suite"))) 0
     = Some (strip (lit " Refonte "))
  /\ nth_error (split_lines (GithubBackup.render_section
                               (lit " Refonte ", lit "core ",
                                NL :: lit "- point" ++ NL :: lit "  suite"))) 1
     = Some (utf8 "Catégorie: " ++ strip (lit "core "))
  /\ forallb (is_prefix (lit "  "))
       (skipn 2 (split_lines (GithubBackup.render_section
                                (lit " Refonte ", lit "core ",
                                 NL :: lit "- point" ++ NL :: lit "  suite"))))
     = true.
Proof.
  apply (rendered_changes_layout (lit " Refonte ") (lit "core ")
           (NL :: lit "- point" ++ NL :: lit "  suite"));
    vm_compute; reflexivity.
Defined.


